(** * Bank-statement row inference: a shallow embedding of the parser
    template of [agent.py] (instantiated as [custom_parsers/icici_parser.py])
    and of the line extractor of [utils/pdf.py].

    Python strings are modelled as [string]; a character is read as the
    Unicode code point of the same number (U+0000 .. U+00FF).  Python floats
    are IEEE binary64 values, modelled bit-exactly by [spec_float] with
    precision 53 and maximal exponent 1024. *)

From Stdlib Require Import ZArith List String Ascii Bool Lia PeanoNat.
From Stdlib Require Import Floats.SpecFloat.
Import ListNotations.

Local Open Scope string_scope.
Local Open Scope list_scope.

(* ================================================================== *)
(** ** Python string primitives *)
(* ================================================================== *)

Module PyStr.

Definition code (c : ascii) : N := N_of_ascii c.

Definition in_range (lo hi : N) (c : ascii) : bool :=
  (N.leb lo (code c) && N.leb (code c) hi)%bool.

(** [str.isspace] on one character: the Unicode white space of the first
    256 code points (TAB..CR, FS..US, SPACE, NEL, NBSP). *)
Definition isspace (c : ascii) : bool :=
  (in_range 9 13 c || in_range 28 32 c
   || N.eqb (code c) 133 || N.eqb (code c) 160)%bool.

(** Unicode category Nd below U+0100: the ASCII digits only. *)
Definition isdigit (c : ascii) : bool := in_range 48 57 c.

Definition digit_val (c : ascii) : Z := Z.of_N (code c) - 48.

(** [str.lower] on one character (A-Z, and U+00C0..U+00DE but U+00D7). *)
Definition lower_char (c : ascii) : ascii :=
  if (in_range 65 90 c
      || (in_range 192 222 c && negb (N.eqb (code c) 215)))%bool
  then ascii_of_N (code c + 32) else c.

(** [str.upper] restricted to the ASCII letters; it is only applied to the
    [Type] group of the flagged patterns, which holds letters out of
    c, d, r. *)
Definition upper_char (c : ascii) : ascii :=
  if in_range 97 122 c then ascii_of_N (code c - 32) else c.

Fixpoint map_str (f : ascii -> ascii) (s : string) : string :=
  match s with
  | EmptyString => EmptyString
  | String c s' => String (f c) (map_str f s')
  end.

Definition lower : string -> string := map_str lower_char.
Definition upper : string -> string := map_str upper_char.

(** Removal of the leading characters that satisfy [p]. *)
Fixpoint lstrip_by (p : ascii -> bool) (s : string) : string :=
  match s with
  | String c s' => if p c then lstrip_by p s' else s
  | EmptyString => EmptyString
  end.

(** Removal of the trailing characters that satisfy [p]: a character is
    kept iff it does not satisfy [p] or something kept follows it. *)
Fixpoint rstrip_by (p : ascii -> bool) (s : string) : string :=
  match s with
  | EmptyString => EmptyString
  | String c s' =>
      match rstrip_by p s' with
      | EmptyString => if p c then EmptyString else String c EmptyString
      | r => String c r
      end
  end.

(** [s.strip()]. *)
Definition strip (s : string) : string := rstrip_by isspace (lstrip_by isspace s).

(** The white space [float] and [int] ignore around a number: the ASCII
    white space of C (TAB..CR, SPACE) and the Unicode white space beyond
    ASCII (NEL, NBSP); FS..US are not ignored. *)
Definition isspace_numeric (c : ascii) : bool :=
  (in_range 9 13 c || N.eqb (code c) 32
   || N.eqb (code c) 133 || N.eqb (code c) 160)%bool.

Definition strip_numeric (s : string) : string :=
  rstrip_by isspace_numeric (lstrip_by isspace_numeric s).

Fixpoint startswith (p s : string) : bool :=
  match p, s with
  | EmptyString, _ => true
  | String a p', String b s' => (Ascii.eqb a b && startswith p' s')%bool
  | String _ _, EmptyString => false
  end.

(** [k in s] for strings: [k] occurs as a substring of [s]. *)
Fixpoint contains (k s : string) : bool :=
  (startswith k s ||
   match s with
   | EmptyString => false
   | String _ s' => contains k s'
   end)%bool.

Fixpoint rev_str (acc s : string) : string :=
  match s with
  | EmptyString => acc
  | String c s' => rev_str (String c acc) s'
  end.

Definition reverse (s : string) : string := rev_str EmptyString s.

Definition endswith (p s : string) : bool :=
  startswith (reverse p) (reverse s).

(** [s.replace(c, '')] for a one-character [c]. *)
Fixpoint remove_char (x : ascii) (s : string) : string :=
  match s with
  | EmptyString => EmptyString
  | String c s' =>
      if Ascii.eqb c x then remove_char x s' else String c (remove_char x s')
  end.

(** [s[1:-1]]. *)
Definition slice_1_m1 (s : string) : string :=
  match s with
  | EmptyString => EmptyString
  | String _ s' => substring 0 (String.length s' - 1) s'
  end.

(** [s.split(sep)] for a one-character separator: always at least one
    piece; empty pieces are kept. *)
Fixpoint split_char (sep : ascii) (s : string) : list string :=
  match s with
  | EmptyString => [EmptyString]
  | String c s' =>
      if Ascii.eqb c sep then EmptyString :: split_char sep s'
      else match split_char sep s' with
           | p :: ps => String c p :: ps
           | [] => [String c EmptyString]
           end
  end.

(** [s.split()]: maximal runs of characters that are not white space. *)
Fixpoint split_ws_aux (cur : string) (s : string) : list string :=
  match s with
  | EmptyString =>
      match cur with EmptyString => [] | _ => [reverse cur] end
  | String c s' =>
      if isspace c then
        match cur with
        | EmptyString => split_ws_aux EmptyString s'
        | _ => reverse cur :: split_ws_aux EmptyString s'
        end
      else split_ws_aux (String c cur) s'
  end.

Definition split_ws (s : string) : list string := split_ws_aux EmptyString s.

(** [sep.join(l)]. *)
Fixpoint join (sep : string) (l : list string) : string :=
  match l with
  | [] => EmptyString
  | [x] => x
  | x :: rest => x ++ sep ++ join sep rest
  end.

(** Line boundaries of [str.splitlines] below U+0100. *)
Definition is_linebreak (c : ascii) : bool :=
  (in_range 10 13 c || in_range 28 30 c || N.eqb (code c) 133)%bool.

(** [s.splitlines()]: CR LF counts as one boundary and a final boundary
    opens no empty last line. *)
Fixpoint splitlines_aux (cur : string) (s : string) : list string :=
  match s with
  | EmptyString =>
      match cur with EmptyString => [] | _ => [reverse cur] end
  | String c s' =>
      if is_linebreak c then
        match s' with
        | String c2 s'' =>
            if (N.eqb (code c) 13 && N.eqb (code c2) 10)%bool
            then reverse cur :: splitlines_aux EmptyString s''
            else reverse cur :: splitlines_aux EmptyString s'
        | EmptyString => [reverse cur]
        end
      else splitlines_aux (String c cur) s'
  end.

Definition splitlines (s : string) : list string :=
  splitlines_aux EmptyString s.

Definition is_empty (s : string) : bool :=
  match s with EmptyString => true | _ => false end.

End PyStr.


(* ================================================================== *)
(** ** A backtracking matcher for the [re] patterns of the parser *)
(* ================================================================== *)

Module Re.
Import PyStr.

(** Members of a bracket expression. *)
Inductive cls_item :=
| CChar (c : ascii)              (* a literal character *)
| CRange (lo hi : ascii)         (* [lo-hi] *)
| CDigit                         (* \d *)
| CSpace.                        (* \s *)

Inductive regex :=
| Eps
| Cls (items : list cls_item)    (* [...], or one literal or escape *)
| Dot                            (* . : anything but a newline *)
| Bol                            (* ^ *)
| Eol                            (* $ *)
| Seq (r1 r2 : regex)
| Alt (r1 r2 : regex)            (* r1|r2, r1 tried first *)
| Star (greedy : bool) (r : regex)   (* r* and r*? *)
| Group (name : string) (r : regex). (* (?P<name>r) *)

(** Derived forms. *)
Definition Lit (c : ascii) : regex := Cls [CChar c].
Definition Opt (r : regex) : regex := Alt r Eps.          (* r? *)
Definition Plus (greedy : bool) (r : regex) : regex :=    (* r+, r+? *)
  Seq r (Star greedy r).
Fixpoint Times (n : nat) (r : regex) : regex :=           (* r{n} *)
  match n with
  | O => Eps
  | S O => r
  | S n' => Seq r (Times n' r)
  end.
Fixpoint seqs (l : list regex) : regex :=
  match l with
  | [] => Eps
  | [r] => r
  | r :: rest => Seq r (seqs rest)
  end.
Fixpoint alts (l : list regex) : regex :=
  match l with
  | [] => Eps
  | [r] => r
  | r :: rest => Alt r (alts rest)
  end.

Definition item_matches (ignorecase : bool) (c : ascii) (i : cls_item) : bool :=
  match i with
  | CChar x =>
      (Ascii.eqb c x || (ignorecase && Ascii.eqb (lower_char c) (lower_char x)))%bool
  | CRange lo hi => in_range (code lo) (code hi) c
  | CDigit => isdigit c
  | CSpace => isspace c
  end.

Definition captures := list (string * string).

(** A successful match: its end offset and the named groups. *)
Definition found := (nat * captures)%type.

Definition set_group (name v : string) (caps : captures) : captures :=
  (name, v) :: filter (fun p => negb (String.eqb (fst p) name)) caps.

Fixpoint group (caps : captures) (name : string) : option string :=
  match caps with
  | [] => None
  | (n, v) :: rest => if String.eqb n name then Some v else group rest name
  end.

Section Matcher.
Variable ignorecase : bool.
Variable subject : string.

(** [run r pos s caps k]: match [r] at offset [pos], where [s] is the
    rest of the subject from [pos]; [k] continues with what follows
    [r] in the pattern.  Alternatives are tried in priority order and
    the first overall success is returned, as [re] does.  A repetition
    goes on only while its body consumes a character (every repeated
    pattern of this program does), so the length of the rest of the
    subject, plus one, bounds its turns. *)
Fixpoint run (r : regex) (pos : nat) (s : string) (caps : captures)
         (k : nat -> string -> captures -> option found) {struct r}
  : option found :=
  match r with
  | Eps => k pos s caps
  | Cls items =>
      match s with
      | String c s' =>
          if existsb (item_matches ignorecase c) items
          then k (S pos) s' caps else None
      | EmptyString => None
      end
  | Dot =>
      match s with
      | String c s' =>
          if N.eqb (code c) 10 then None else k (S pos) s' caps
      | EmptyString => None
      end
  | Bol => if Nat.eqb pos 0 then k pos s caps else None
  | Eol =>
      (* end of the subject, or just before a final newline *)
      match s with
      | EmptyString => k pos s caps
      | String c EmptyString =>
          if N.eqb (code c) 10 then k pos s caps else None
      | _ => None
      end
  | Seq r1 r2 =>
      run r1 pos s caps (fun pos' s' caps' => run r2 pos' s' caps' k)
  | Alt r1 r2 =>
      match run r1 pos s caps k with
      | Some f => Some f
      | None => run r2 pos s caps k
      end
  | Star greedy r1 =>
      (fix loop (fuel : nat) (pos : nat) (s : string) (caps : captures)
         {struct fuel} : option found :=
         match fuel with
         | O => k pos s caps
         | S fuel' =>
             let again :=
               run r1 pos s caps
                   (fun pos' s' caps' =>
                      if Nat.eqb pos' pos then None
                      else loop fuel' pos' s' caps') in
             if greedy then
               match again with
               | Some f => Some f
               | None => k pos s caps
               end
             else
               match k pos s caps with
               | Some f => Some f
               | None => again
               end
         end) (S (String.length s)) pos s caps
  | Group name r1 =>
      run r1 pos s caps
          (fun pos' s' caps' =>
             k pos' s' (set_group name (substring pos (pos' - pos) subject) caps'))
  end.
End Matcher.

(** [pat.match(s)]: a match anchored at offset 0. *)
Definition re_match (ignorecase : bool) (r : regex) (s : string) : option found :=
  run ignorecase s r 0 s [] (fun pos _ caps => Some (pos, caps)).

(** Match [r] at offset [pos] of [subject] (no group is kept). *)
Definition match_at (r : regex) (subject : string) (pos : nat) (rest : string)
  : option nat :=
  match run false subject r pos rest [] (fun pos' _ caps => Some (pos', caps)) with
  | Some (e, _) => Some e
  | None => None
  end.

(** [re.split(r, s)] for a pattern without groups whose matches are never
    empty: the pieces between successive leftmost matches. *)
Fixpoint split_loop (r : regex) (subject : string) (fuel : nat)
         (pos : nat) (rest : string) (cur : string) : list string :=
  match fuel with
  | O => [reverse cur]
  | S fuel' =>
      match rest with
      | EmptyString => [reverse cur]
      | String c rest' =>
          match match_at r subject pos rest with
          | Some e =>
              if Nat.ltb pos e then
                reverse cur ::
                  split_loop r subject fuel' e
                    (substring e (String.length subject - e) subject) EmptyString
              else split_loop r subject fuel' (S pos) rest' (String c cur)
          | None => split_loop r subject fuel' (S pos) rest' (String c cur)
          end
      end
  end.

Definition re_split (r : regex) (s : string) : list string :=
  split_loop r s (S (String.length s)) 0 s EmptyString.

End Re.

(* ================================================================== *)
(** ** Python floats: IEEE binary64 and the builtin [float(str)] *)
(* ================================================================== *)

Module PyFloat.
Import PyStr.

Definition float := spec_float.

Definition prec : Z := 53.
Definition emax : Z := 1024.

Definition zero : float := S754_zero false.          (* 0.0 *)
Definition neg_zero : float := S754_zero true.       (* -0.0 *)

Definition neg : float -> float := SFopp.            (* -x *)
Definition fabs : float -> float := SFabs.           (* abs(x) *)
Definition ltb : float -> float -> bool := SFltb.    (* x < y *)
Definition gtb (x y : float) : bool := SFltb y x.    (* x > y *)
Definition leb : float -> float -> bool := SFleb.    (* x <= y *)
Definition eqb : float -> float -> bool := SFeqb.    (* x == y *)

(** [max(a, b)]: the first argument unless the second is greater. *)
Definition max (a b : float) : float := if gtb b a then b else a.

(** The binary64 value nearest to [m * 10^e] (ties to even), which is
    what a decimal literal and [float] of a decimal string denote. *)
Definition of_decimal (sign : bool) (m : Z) (e : Z) : float :=
  match m with
  | Zpos p =>
      if (0 <=? e)%Z then
        match (Zpos p * 10 ^ e)%Z with
        | Zpos q => binary_round prec emax sign q 0
        | _ => S754_zero sign
        end
      else
        match (10 ^ (- e))%Z with
        | Zpos d =>
            SFdiv prec emax (S754_finite sign p 0) (S754_finite false d 0)
        | _ => S754_zero sign
        end
  | _ => S754_zero sign
  end.

(** The literal [1e-9]. *)
Definition eps : float := of_decimal false 1 (-9).

Fixpoint digits_value (acc : Z) (s : string) : Z :=
  match s with
  | EmptyString => acc
  | String c s' => digits_value (10 * acc + digit_val c) s'
  end.

(** [(["_"] digit)*]: the digits read (underscores dropped) and the rest. *)
Fixpoint digits_tail (s : string) : string * string :=
  match s with
  | EmptyString => (EmptyString, EmptyString)
  | String c s' =>
      if isdigit c then
        let (d, r) := digits_tail s' in (String c d, r)
      else if Ascii.eqb c "_" then
        match s' with
        | String c2 s'' =>
            if isdigit c2 then
              let (d, r) := digits_tail s'' in (String c2 d, r)
            else (EmptyString, s)
        | EmptyString => (EmptyString, s)
        end
      else (EmptyString, s)
  end.

(** [digitpart ::= digit (["_"] digit)*]. *)
Definition digitpart (s : string) : option (string * string) :=
  match s with
  | String c s' =>
      if isdigit c then
        let (d, r) := digits_tail s' in Some (String c d, r)
      else None
  | EmptyString => None
  end.

(** [sign ::= "+" | "-"], optional: is it negative, and the rest. *)
Definition opt_sign (s : string) : bool * string :=
  match s with
  | String c s' =>
      if Ascii.eqb c "-" then (true, s')
      else if Ascii.eqb c "+" then (false, s')
      else (false, s)
  | EmptyString => (false, s)
  end.

(** [number ::= [digitpart] "." digitpart | digitpart ["."]]: the digits
    before and after the point, and the rest. *)
Definition number (s : string) : option (string * string * string) :=
  match digitpart s with
  | Some (ip, r) =>
      match r with
      | String c r' =>
          if Ascii.eqb c "." then
            match digitpart r' with
            | Some (fp, r'') => Some (ip, fp, r'')
            | None => Some (ip, EmptyString, r')
            end
          else Some (ip, EmptyString, r)
      | EmptyString => Some (ip, EmptyString, r)
      end
  | None =>
      match s with
      | String c r' =>
          if Ascii.eqb c "." then
            match digitpart r' with
            | Some (fp, r'') => Some (EmptyString, fp, r'')
            | None => None
            end
          else None
      | EmptyString => None
      end
  end.

(** [exponent ::= ("e" | "E") [sign] digitpart], optional; [None] when
    what follows the number is not an exponent up to the end. *)
Definition exponent (s : string) : option Z :=
  match s with
  | EmptyString => Some 0%Z
  | String c s' =>
      if (Ascii.eqb c "e" || Ascii.eqb c "E")%bool then
        let (sg, r) := opt_sign s' in
        match digitpart r with
        | Some (d, EmptyString) =>
            Some (if sg then (- digits_value 0 d)%Z else digits_value 0 d)
        | _ => None
        end
      else None
  end.

(** The builtin [float(s)] on a string: [None] stands for ValueError.
    White space around the text is ignored; the text is an optional sign
    followed by inf, infinity or nan in any case, or by a decimal number
    with an optional exponent. *)
Definition float_of_str (s : string) : option float :=
  let (sg, body) := opt_sign (strip_numeric s) in
  let low := lower body in
  if (String.eqb low "inf" || String.eqb low "infinity")%bool
  then Some (S754_infinity sg)
  else if String.eqb low "nan" then Some S754_nan
  else
    match number body with
    | Some (ip, fp, r) =>
        match exponent r with
        | Some ex =>
            Some (of_decimal sg (digits_value 0 (ip ++ fp))
                             (ex - Z.of_nat (String.length fp)))
        | None => None
        end
    | None => None
    end.

End PyFloat.

(* ================================================================== *)
(** ** [datetime.datetime.strptime] and [date.isoformat] *)
(* ================================================================== *)

Module PyDate.
Import PyStr Re.

Record date := mkdate { year : Z; month : Z; day : Z }.

(** The regular expressions [_strptime] substitutes for the directives:
    %d is [3[0-1]|[1-2]\d|0[1-9]|[1-9]| [1-9]], %m is
    [1[0-2]|0[1-9]|[1-9]] and %Y is [\d\d\d\d]. *)
Definition re_d : regex :=
  Group "d" (alts [ Seq (Lit "3") (Cls [CRange "0" "1"]);
                    Seq (Cls [CRange "1" "2"]) (Cls [CDigit]);
                    Seq (Lit "0") (Cls [CRange "1" "9"]);
                    Cls [CRange "1" "9"];
                    Seq (Lit " ") (Cls [CRange "1" "9"]) ]).
Definition re_m : regex :=
  Group "m" (alts [ Seq (Lit "1") (Cls [CRange "0" "2"]);
                    Seq (Lit "0") (Cls [CRange "1" "9"]);
                    Cls [CRange "1" "9"] ]).
Definition re_Y : regex := Group "Y" (Times 4 (Cls [CDigit])).

(** The pattern of a format made of %d, %m, %Y and literal characters
    that are neither white space nor special in a pattern ([None] for
    any other directive). *)
Fixpoint format_regex (fmt : string) : option regex :=
  match fmt with
  | EmptyString => Some Eps
  | String c rest =>
      if Ascii.eqb c "%" then
        match rest with
        | String x rest' =>
            match format_regex rest' with
            | Some r =>
                if Ascii.eqb x "d" then Some (Seq re_d r)
                else if Ascii.eqb x "m" then Some (Seq re_m r)
                else if Ascii.eqb x "Y" then Some (Seq re_Y r)
                else None
            | None => None
            end
        | EmptyString => None
        end
      else
        match format_regex rest with
        | Some r => Some (Seq (Lit c) r)
        | None => None
        end
  end.

Definition is_leap (y : Z) : bool :=
  ((y mod 4 =? 0) && (negb (y mod 100 =? 0) || (y mod 400 =? 0)))%Z%bool.

Definition days_in_month (y m : Z) : Z :=
  if (m =? 2)%Z then (if is_leap y then 29 else 28)%Z
  else if ((m =? 4) || (m =? 6) || (m =? 9) || (m =? 11))%Z%bool then 30%Z
  else 31%Z.

(** The checks of the [datetime] constructor. *)
Definition valid_date (y m d : Z) : bool :=
  ((1 <=? y) && (y <=? 9999) && (1 <=? m) && (m <=? 12)
   && (1 <=? d) && (d <=? days_in_month y m))%Z%bool.

(** [int(s)] on a matched group: white space around the digits is
    ignored. *)
Definition int_of (s : string) : Z := PyFloat.digits_value 0 (strip_numeric s).

(** [datetime.strptime(data, fmt).date()]; [None] stands for ValueError
    (no match, unconverted data remaining, or no such calendar day). *)
Definition strptime (data fmt : string) : option date :=
  match format_regex fmt with
  | Some r =>
      match re_match true r data with
      | Some (e, caps) =>
          if Nat.eqb e (String.length data) then
            match group caps "Y", group caps "m", group caps "d" with
            | Some y, Some m, Some d =>
                if valid_date (int_of y) (int_of m) (int_of d)
                then Some (mkdate (int_of y) (int_of m) (int_of d))
                else None
            | _, _, _ => None
            end
          else None
      | None => None
      end
  | None => None
  end.

Definition digit_char (n : Z) : ascii := ascii_of_N (Z.to_N (48 + n mod 10)).

(** [%02d] and [%04d] for numbers in range. *)
Definition pad2 (n : Z) : string :=
  String (digit_char (n / 10)) (String (digit_char n) EmptyString).
Definition pad4 (n : Z) : string := pad2 (n / 100) ++ pad2 (n mod 100).

(** [date.isoformat()]: YYYY-MM-DD. *)
Definition isoformat (d : date) : string :=
  pad4 (year d) ++ "-" ++ pad2 (month d) ++ "-" ++ pad2 (day d).

End PyDate.

(* ================================================================== *)
(** ** Exceptions, dictionaries and tables *)
(* ================================================================== *)

Module Py.
Import PyStr PyFloat.

Inductive exn :=
| KeyError (key : string)
| AttributeError (attr : string)
| TypeError (what : string)
| OSError (path : string).

Inductive result (A : Type) :=
| Ok (a : A)
| Raise (e : exn).
Arguments Ok {A} a.
Arguments Raise {A} e.

Definition bind {A B : Type} (m : result A) (f : A -> result B) : result B :=
  match m with
  | Ok a => f a
  | Raise e => Raise e
  end.

(** A value held by a table cell or a row dictionary. *)
Inductive cell :=
| CNone
| CStr (s : string)
| CNum (x : float).

(** A [dict] with string keys, in insertion order. *)
Definition dict := list (string * cell).

Fixpoint dict_get (d : dict) (k : string) : option cell :=
  match d with
  | [] => None
  | (k', v) :: rest => if String.eqb k' k then Some v else dict_get rest k
  end.

(** [d[k] = v]: an existing key keeps its place, a new one goes last. *)
Fixpoint dict_set (d : dict) (k : string) (v : cell) : dict :=
  match d with
  | [] => [(k, v)]
  | (k', v') :: rest =>
      if String.eqb k' k then (k', v) :: rest
      else (k', v') :: dict_set rest k v
  end.

(** [d[k]] as an expression. *)
Definition dict_item (d : dict) (k : string) : result cell :=
  match dict_get d k with
  | Some v => Ok v
  | None => Raise (KeyError k)
  end.

(** [{c: None for c in cols}]. *)
Definition dict_of_keys (cols : list string) : dict :=
  fold_left (fun d c => dict_set d c CNone) cols [].

(** A [pandas.DataFrame]: column labels and the rows of cells. *)
Record DataFrame := mkframe {
  columns : list string;
  data : list (list cell)
}.

(** [DataFrame(rows, columns=cols)] for a list of row dictionaries: each
    row is laid out in the order of [cols]; a key the row lacks gives a
    missing cell. *)
Definition frame_of_dicts (rows : list dict) (cols : list string) : DataFrame :=
  mkframe cols
    (map (fun r => map (fun c => match dict_get r c with
                                  | Some v => v
                                  | None => CNone
                                  end) cols) rows).

(** The objects [parse] can hold in its variable [text]. *)
Inductive obj :=
| OStr (s : string)
| OFrame (df : DataFrame).

(** [o.splitlines()]: a method of [str]; on a DataFrame the attribute is
    looked up among the column labels, where a hit is a Series, which
    cannot be called. *)
Definition call_splitlines (o : obj) : result (list string) :=
  match o with
  | OStr s => Ok (splitlines s)
  | OFrame df =>
      if existsb (String.eqb "splitlines") (columns df)
      then Raise (TypeError "'Series' object is not callable")
      else Raise (AttributeError "splitlines")
  end.

End Py.

Notation "x <- m ;; k" := (Py.bind m (fun x => k))
  (at level 61, m at next level, right associativity).

(* ================================================================== *)
(** ** agent.py: roles of the expected columns *)
(* ================================================================== *)

Module Agent.
Import PyStr Py.

Fixpoint _pick (cols names : list string) : option string :=
  match names with
  | [] => None
  | n :: rest => if existsb (String.eqb n) cols then Some n else _pick cols rest
  end.

(** The constants [guess_parser_body] writes into the generated parser. *)
Record schema := mkschema {
  col_date : option string;
  col_desc : option string;
  col_debit : option string;
  col_credit : option string;
  col_amount : option string;
  col_balance : option string;
  expected_cols : list string;
  num_cols : list string;
  uses_type : bool
}.

(** Truth value of a role: [None] and the empty string are false. *)
Definition truthy (c : option string) : bool :=
  match c with
  | Some s => negb (is_empty s)
  | None => false
  end.

Definition is_none (c : option string) : bool :=
  match c with
  | Some _ => false
  | None => true
  end.

(** [[c for c in l if c]]. *)
Fixpoint present (l : list (option string)) : list string :=
  match l with
  | [] => []
  | Some s :: rest => if is_empty s then present rest else s :: present rest
  | None :: rest => present rest
  end.

(** [uses_type] as computed from the statement text. *)
Definition text_uses_type (pdf_text : string) : bool :=
  (contains " CR " pdf_text || contains " DR " pdf_text
   || contains "Cr " pdf_text || contains "Dr " pdf_text)%bool.

Definition guess_parser_body (cols : list string) (pdf_text : string) : schema :=
  let col_date    := _pick cols ["Date"; "Txn Date"; "Transaction Date"] in
  let col_desc    := _pick cols ["Description"; "Narration"; "Details"] in
  let col_debit   := _pick cols ["Debit Amt"; "Debit"; "Withdrawal"; "Dr"] in
  let col_credit  := _pick cols ["Credit Amt"; "Credit"; "Deposit"; "Cr"] in
  let col_amount  := _pick cols ["Amount"; "Amt"] in
  let col_balance := _pick cols ["Balance"; "Closing Balance"; "Bal"] in
  let num_cols := present [col_debit; col_credit; col_amount; col_balance] in
  let uses_type := text_uses_type pdf_text in
  mkschema col_date col_desc col_debit col_credit col_amount col_balance
           cols num_cols uses_type.

(** [refine_from_failure]: the generated text has its line
    [uses_type = True] rewritten when the test log shows an empty table. *)
Definition refine_from_failure (log : string) (sc : schema) : schema :=
  if (contains "Empty DataFrame" log && contains "Columns:" log)%bool
  then mkschema (col_date sc) (col_desc sc) (col_debit sc) (col_credit sc)
                (col_amount sc) (col_balance sc) (expected_cols sc)
                (num_cols sc) false
  else sc.

End Agent.

(* ================================================================== *)
(** ** The generated parser (custom_parsers/icici_parser.py) *)
(* ================================================================== *)

Module Parser.
Import PyStr PyFloat PyDate Re Py Agent.

(** *** Helpers *)

Fixpoint first_date (raw : string) (fmts : list string) : string :=
  match fmts with
  | [] => raw
  | fmt :: rest =>
      match strptime raw fmt with
      | Some d => isoformat d
      | None => first_date raw rest
      end
  end.

Definition date_formats : list string :=
  ["%d-%m-%Y"; "%d/%m/%Y"; "%Y-%m-%d"; "%Y/%m/%d"].

Definition _norm_date (raw : string) : string :=
  let raw := strip raw in
  first_date raw date_formats.

Definition _num (s : string) : float :=
  let s := strip (remove_char "," s) in
  if is_empty s then zero
  else
    let neg := (startswith "(" s && endswith ")" s)%bool in
    let s := if neg then slice_1_m1 s else s in
    let v := match float_of_str s with
             | Some v => v
             | None => zero
             end in
    if neg then PyFloat.neg v else v.

(** *** Patterns *)

Definition digit : regex := Cls [CDigit].
Definition spaces : regex := Plus true (Cls [CSpace]).      (* \s+ *)
Definition sep : regex := Cls [CChar "-"; CChar "/"].       (* [-/] *)
Definition paren : regex := Cls [CChar "("; CChar ")"].     (* [\(\)] *)

(** [\d{2}[-/]\d{2}[-/]\d{4}] and [\d{4}[-/]\d{2}[-/]\d{2}]. *)
Definition dmy : regex :=
  seqs [Times 2 digit; sep; Times 2 digit; sep; Times 4 digit].
Definition ymd : regex :=
  seqs [Times 4 digit; sep; Times 2 digit; sep; Times 2 digit].

(** [[\(\)]?(?:\d{1,3}(?:,\d{3})*|\d+)(?:\.\d{2})?[\(\)]?]. *)
Definition money : regex :=
  seqs [ Opt paren;
         Alt (Seq (Seq digit (Opt (Seq digit (Opt digit))))
                  (Star true (Seq (Lit ",") (Times 3 digit))))
             (Plus true digit);
         Opt (Seq (Lit ".") (Times 2 digit));
         Opt paren ].

Definition date_pat1 : regex := Group "Date" dmy.
Definition date_pat2 : regex := Group "Date" ymd.
Definition type_pat : regex :=
  Group "Type" (Alt (Seq (Cls [CChar "C"; CChar "c"]) (Cls [CChar "R"; CChar "r"]))
                    (Seq (Cls [CChar "D"; CChar "d"]) (Cls [CChar "R"; CChar "r"]))).
Definition money_pat : regex := Group "Amt" money.
Definition bal_pat : regex := Group "Bal" money.
Definition desc_pat : regex := Group "Description" (Plus false Dot).  (* .+? *)

(** The CR/DR style patterns, compiled with IGNORECASE. *)
Definition _pats_type : list regex :=
  [ seqs [Bol; date_pat1; spaces; desc_pat; spaces; type_pat; spaces;
          money_pat; spaces; bal_pat; Eol];
    seqs [Bol; date_pat2; spaces; desc_pat; spaces; type_pat; spaces;
          money_pat; spaces; bal_pat; Eol];
    seqs [Bol; date_pat1; spaces; desc_pat; spaces; money_pat; spaces;
          type_pat; spaces; bal_pat; Eol] ].

(** [\s{2,}]. *)
Definition gap : regex :=
  Seq (Cls [CSpace]) (Seq (Cls [CSpace]) (Star true (Cls [CSpace]))).

(** [^(?:\d{2}[-/]\d{2}[-/]\d{4}|\d{4}[-/]\d{2}[-/]\d{2})$]. *)
Definition date_token : regex := seqs [Bol; Alt dmy ymd; Eol].

(** [^[\(\)]?(?:\d{1,3}(?:,\d{3})*|\d+)(?:\.\d{2})?[\(\)]?$]. *)
Definition money_token : regex := seqs [Bol; money; Eol].

Definition matches (r : regex) (s : string) : bool :=
  match re_match false r s with
  | Some _ => true
  | None => false
  end.

Definition credit_keywords : list string :=
  ["salary"; "interest"; "refund"; "cashback"; "reversal"; "credit";
   "neft in"; "upi in"].
Definition debit_keywords : list string :=
  ["withdrawal"; "atm"; "payment"; "debit"; "imps"; "upi"; "pos";
   "recharge"; "emi"; "transfer out"; "purchase"].

(** [any(k in desc for k in kws)]. *)
Definition any_in (kws : list string) (desc : string) : bool :=
  existsb (fun k => contains k desc) kws.

Section Generated.
Variable sc : schema.

(** [if col: row[col] = v]. *)
Definition set_if (col : option string) (v : cell) (row : dict) : dict :=
  match col with
  | Some c => if is_empty c then row else dict_set row c v
  | None => row
  end.

(** [if col and row[col] is None: row[col] = 0.0]. *)
Definition default_if (col : option string) (row : dict) : result dict :=
  match col with
  | Some c =>
      if is_empty c then Ok row
      else
        v <- dict_item row c ;;
        match v with
        | CNone => Ok (dict_set row c (CNum zero))
        | _ => Ok row
        end
  | None => Ok row
  end.

(** [for nc in num_cols: if nc and row[nc] is None: row[nc] = 0.0]. *)
Fixpoint fill_defaults (ncs : list string) (row : dict) : result dict :=
  match ncs with
  | [] => Ok row
  | nc :: rest =>
      row' <- default_if (Some nc) row ;;
      fill_defaults rest row'
  end.

(** [d.get(name, '')] on the groups of a match. *)
Definition group_or_empty (d : captures) (name : string) : string :=
  match group d name with
  | Some v => v
  | None => EmptyString
  end.

(** The body run on a match [d] of a CR/DR pattern. *)
Definition flagged_row (d : captures) : result dict :=
  let row := dict_of_keys (expected_cols sc) in
  let row := set_if (col_date sc) (CStr (_norm_date (group_or_empty d "Date"))) row in
  let row := set_if (col_desc sc) (CStr (strip (group_or_empty d "Description"))) row in
  let amt := _num (match group d "Amt" with Some v => v | None => "0" end) in
  let bal := _num (match group d "Bal" with Some v => v | None => "0" end) in
  let t := upper (group_or_empty d "Type") in
  let row :=
    if (truthy (col_amount sc)
        && (is_none (col_debit sc) || is_none (col_credit sc)))%bool
    then
      match col_amount sc with
      | Some c => dict_set row c (CNum amt)
      | None => row
      end
    else if String.eqb t "CR" then
      set_if (col_debit sc) (CNum zero) (set_if (col_credit sc) (CNum amt) row)
    else if String.eqb t "DR" then
      set_if (col_credit sc) (CNum zero) (set_if (col_debit sc) (CNum amt) row)
    else row in
  let row := set_if (col_balance sc) (CNum bal) row in
  fill_defaults (num_cols sc) row.

(** [for pat in _pats_type: m = pat.match(ln); if m: ...; break]. *)
Fixpoint try_pats (pats : list regex) (ln : string) : option (result dict) :=
  match pats with
  | [] => None
  | pat :: rest =>
      match re_match true pat ln with
      | Some (_, d) => Some (flagged_row d)
      | None => try_pats rest ln
      end
  end.

(** The numeric tokens among [parts[2:]], converted. *)
Fixpoint gather_nums (ps : list string) : list float :=
  match ps with
  | [] => []
  | p :: rest =>
      let p2 := strip p in
      if matches money_token p2 then _num p2 :: gather_nums rest
      else gather_nums rest
  end.

(** [(row.get(col_desc) or '').lower() if col_desc else '']. *)
Definition desc_of (row : dict) : result string :=
  match col_desc sc with
  | Some c =>
      if is_empty c then Ok EmptyString
      else
        match dict_get row c with
        | Some (CStr s) => Ok (lower s)
        | Some (CNum x) =>
            if eqb x zero then Ok EmptyString
            else Raise (AttributeError "lower")
        | Some CNone | None => Ok EmptyString
        end
  | None => Ok EmptyString
  end.

(** Routing of one value by the keywords of the description. *)
Definition route_one (desc : string) (v : float) (row : dict) : dict :=
  if any_in credit_keywords desc then set_if (col_credit sc) (CNum v) row
  else if any_in debit_keywords desc then set_if (col_debit sc) (CNum v) row
  else set_if (col_debit sc) (CNum v) row.

(** The two-column branch: Debit and Credit from [remaining]. *)
Definition route_amounts (desc : string) (remaining : list float) (row : dict)
  : dict :=
  match remaining with
  | [] => row
  | a :: b :: _ =>
      if (ltb (fabs a) eps && gtb (fabs b) eps)%bool then
        route_one desc b row
      else if (ltb (fabs b) eps && gtb (fabs a) eps)%bool then
        route_one desc a row
      else if (ltb a zero || ltb b zero)%bool then
        set_if (col_debit sc) (CNum (fabs (if ltb a zero then a else b))) row
      else if any_in credit_keywords desc then
        set_if (col_credit sc) (CNum (max a b)) row
      else if any_in debit_keywords desc then
        set_if (col_debit sc) (CNum (max a b)) row
      else
        set_if (col_credit sc) (CNum zero) (set_if (col_debit sc) (CNum a) row)
  | [val] => route_one desc val row
  end.

(** Debit, Credit or Amount from the numbers before the balance. *)
Definition assign_amounts (remaining : list float) (row : dict) : result dict :=
  if (truthy (col_amount sc)
      && negb (truthy (col_debit sc) || truthy (col_credit sc)))%bool
  then
    match remaining, col_amount sc with
    | r0 :: _, Some c => Ok (dict_set row c (CNum r0))
    | _, _ => Ok row
    end
  else
    desc <- desc_of row ;;
    row <- default_if (col_debit sc) row ;;
    row <- default_if (col_credit sc) row ;;
    Ok (route_amounts desc remaining row).

(** [(row.get(c) or 0.0) != 0.0]. *)
Definition nonzero_at (row : dict) (c : string) : bool :=
  match dict_get row c with
  | Some (CNum x) => negb (eqb x zero)
  | Some (CStr s) => negb (is_empty s)
  | Some CNone | None => false
  end.

(** [any((row.get(c) or 0.0) != 0.0 for c in num_cols if c)]. *)
Definition keep (row : dict) : bool :=
  existsb (fun c => (negb (is_empty c) && nonzero_at row c)%bool) (num_cols sc).

(** [nums[:-1] if len(nums) >= 1 else nums[:]]. *)
Definition remaining_of (nums : list float) : list float :=
  match nums with
  | [] => nums
  | _ => removelast nums
  end.

(** The row built from the date field, the description field and the
    numbers of a table-like line. *)
Definition fill_from (date_tok desc_tok : string) (nums : list float)
  : result dict :=
  let row := dict_of_keys (expected_cols sc) in
  let row := set_if (col_date sc) (CStr (_norm_date date_tok)) row in
  let row := set_if (col_desc sc) (CStr desc_tok) row in
  let row :=
    match nums with
    | [] => row
    | _ => set_if (col_balance sc) (CNum (last nums zero)) row
    end in
  let remaining := remaining_of nums in
  row <- assign_amounts remaining row ;;
  fill_defaults (num_cols sc) row.

Definition positional_fill (parts : list string) : result dict :=
  fill_from (strip (nth 0 parts "")) (strip (nth 1 parts ""))
            (gather_nums (skipn 2 parts)).

(** The fallback on one line: the rows it adds (none or one). *)
Definition positional_rows (ln : string) : result (list dict) :=
  let parts := re_split gap (strip ln) in
  if Nat.leb 3 (List.length parts) then
    if matches date_token (strip (nth 0 parts "")) then
      row <- positional_fill parts ;;
      if keep row then Ok [row] else Ok []
    else Ok []
  else Ok [].

(** One turn of the loop of [_try_rows]: the rows the line adds. *)
Definition line_rows (ln : string) : result (list dict) :=
  match (if uses_type sc then try_pats _pats_type ln else None) with
  | Some r => row <- r ;; Ok [row]
  | None => positional_rows ln
  end.

(** [for ln in lines: ...; rows.append(row)], from the rows so far. *)
Fixpoint try_rows_from (rows : list dict) (lines : list string)
  : result (list dict) :=
  match lines with
  | [] => Ok rows
  | ln :: rest =>
      new <- line_rows ln ;;
      try_rows_from (rows ++ new) rest
  end.

Definition _try_rows (lines : list string) : result (list dict) :=
  try_rows_from [] lines.

(** [[ln.strip() for ln in text.splitlines() if ln and ln.strip()]]
    once the lines are split. *)
Fixpoint nonempty_lines (ls : list string) : list string :=
  match ls with
  | [] => []
  | ln :: rest =>
      if (negb (is_empty ln) && negb (is_empty (strip ln)))%bool
      then strip ln :: nonempty_lines rest
      else nonempty_lines rest
  end.

(** The parse logic after [text] is bound. *)
Definition parse_body (text : obj) : result DataFrame :=
  split <- call_splitlines text ;;
  let lines := nonempty_lines split in
  rows <- _try_rows lines ;;
  Ok (frame_of_dicts rows (expected_cols sc)).

End Generated.

End Parser.

(* ================================================================== *)
(** ** utils/pdf.py: the line extractor *)
(* ================================================================== *)

Module Pdf.
Import PyStr PyFloat Py.

(** What [page.extract_text()] gives: the text of the page, or None. *)
Definition page := option string.

(** An opened document: its pages in order. *)
Definition pdf := list page.

Definition newline : ascii := "010"%char.

(** [len(parts) >= 5 and parts[0] != "Date"]. *)
Definition qualifies (parts : list string) : bool :=
  (Nat.leb 5 (List.length parts) && negb (String.eqb (nth 0 parts "") "Date"))%bool.

(** [[date, desc, debit, credit, balance]] of a qualifying line, where
    [desc] is [" ".join(parts[1:-3])]. *)
Definition row_of (parts : list string) : list cell :=
  let n := List.length parts in
  [ CStr (nth 0 parts "");
    CStr (join " " (firstn (n - 3 - 1) (skipn 1 parts)));
    CStr (nth (n - 3) parts "");
    CStr (nth (n - 2) parts "");
    CStr (nth (n - 1) parts "") ].

(** [for line in lines: ... rows.append(...)]. *)
Fixpoint scan_lines (rows : list (list cell)) (lines : list string)
  : list (list cell) :=
  match lines with
  | [] => rows
  | line :: rest =>
      let parts := split_ws line in
      if qualifies parts then scan_lines (rows ++ [row_of parts]) rest
      else scan_lines rows rest
  end.

(** [for page in pdf.pages: text = page.extract_text(); if text: ...]. *)
Fixpoint scan_pages (rows : list (list cell)) (pages : pdf) : list (list cell) :=
  match pages with
  | [] => rows
  | Some text :: rest =>
      if is_empty text then scan_pages rows rest
      else scan_pages (scan_lines rows (split_char newline text)) rest
  | None :: rest => scan_pages rows rest
  end.

Definition bool_eqb (a b : bool) : bool := Bool.eqb a b.

Definition float_same (x y : float) : bool :=
  match x, y with
  | S754_zero a, S754_zero b => bool_eqb a b
  | S754_infinity a, S754_infinity b => bool_eqb a b
  | S754_nan, S754_nan => true
  | S754_finite a m e, S754_finite b n f =>
      (bool_eqb a b && Pos.eqb m n && Z.eqb e f)%bool
  | _, _ => false
  end.

Definition cell_same (a b : cell) : bool :=
  match a, b with
  | CNone, CNone => true
  | CStr s, CStr t => String.eqb s t
  | CNum x, CNum y => float_same x y
  | _, _ => false
  end.

Fixpoint row_same (r1 r2 : list cell) : bool :=
  match r1, r2 with
  | [], [] => true
  | a :: r1', b :: r2' => (cell_same a b && row_same r1' r2')%bool
  | _, _ => false
  end.

(** [df.drop_duplicates()] (keep first): a row is kept unless an equal
    row was kept before it.  The table of [extract_text] holds strings
    only. *)
Fixpoint dedup_from (kept : list (list cell)) (rows : list (list cell))
  : list (list cell) :=
  match rows with
  | [] => kept
  | r :: rest =>
      if existsb (row_same r) kept then dedup_from kept rest
      else dedup_from (kept ++ [r]) rest
  end.

Definition drop_duplicates (df : DataFrame) : DataFrame :=
  mkframe (columns df) (dedup_from [] (data df)).

Definition extract_columns : list string :=
  ["Date"; "Description"; "Debit Amt"; "Credit Amt"; "Balance"].

(** The body of [extract_text] once the document is open. *)
Definition read_pdf (doc : pdf) : DataFrame :=
  let rows := scan_pages [] doc in
  let df := mkframe extract_columns rows in
  drop_duplicates df.

Section Files.
(** [pdfplumber.open]: the document at a path, or the error raised. *)
Variable open_pdf : string -> result pdf.

Definition extract_text (pdf_path : string) : result DataFrame :=
  doc <- open_pdf pdf_path ;;
  Ok (read_pdf doc).
End Files.

End Pdf.

(* ================================================================== *)
(** ** custom_parsers/icici_parser.py: [parse] *)
(* ================================================================== *)

Module Icici.
Import PyStr PyFloat Py Agent Parser Pdf.

(** The constants of the generated file. *)
Definition icici : schema :=
  mkschema (Some "Date") (Some "Description") (Some "Debit Amt")
           (Some "Credit Amt") None (Some "Balance")
           ["Date"; "Description"; "Debit Amt"; "Credit Amt"; "Balance"]
           ["Debit Amt"; "Credit Amt"; "Balance"]
           false.

Definition parse (open_pdf : string -> result pdf) (pdf_path : string)
  : result DataFrame :=
  text <- extract_text open_pdf pdf_path ;;
  parse_body icici (OFrame text).

End Icici.

(* ================================================================== *)
(** ** Schemas the generator can produce *)
(* ================================================================== *)

Module Wf.
Import PyStr Py Agent.

Definition role_ok (cols : list string) (c : option string) : bool :=
  match c with
  | Some s => (negb (is_empty s) && existsb (String.eqb s) cols)%bool
  | None => true
  end.

Definition differ (a b : option string) : bool :=
  match a, b with
  | Some x, Some y => negb (String.eqb x y)
  | _, _ => true
  end.

Fixpoint all_differ (l : list (option string)) : bool :=
  match l with
  | [] => true
  | x :: rest => (forallb (differ x) rest && all_differ rest)%bool
  end.

Fixpoint same_list (l1 l2 : list string) : bool :=
  match l1, l2 with
  | [], [] => true
  | a :: l1', b :: l2' => (String.eqb a b && same_list l1' l2')%bool
  | _, _ => false
  end.

(** Every role is absent or names a column of the schema, no column
    plays two roles, and [num_cols] lists the numeric roles present. *)
Definition wf_schema (sc : schema) : bool :=
  (forallb (role_ok (expected_cols sc))
     [col_date sc; col_desc sc; col_debit sc; col_credit sc;
      col_amount sc; col_balance sc]
   && all_differ [col_date sc; col_desc sc; col_debit sc;
                  col_credit sc; col_amount sc; col_balance sc]
   && same_list (num_cols sc)
        (present [col_debit sc; col_credit sc; col_amount sc; col_balance sc]))%bool.

End Wf.

(* ================================================================== *)
(** ** Vocabulary of the statements *)
(* ================================================================== *)

Import PyStr Re PyFloat PyDate Py Agent Parser Pdf Icici Wf.

(** [k] is the column of the role [col]. *)
Definition is_col (col : option string) (k : string) : bool :=
  match col with
  | Some c => (negb (is_empty c) && String.eqb c k)%bool
  | None => false
  end.

(** The effect of [if col and row[col] is None: row[col] = 0.0] on the
    cell read back with [dict_get], for a row that has the key. *)
Definition defaulted (o : option cell) : option cell :=
  match o with
  | Some CNone => Some (CNum zero)
  | _ => o
  end.

(** [k] is one of the non-empty names [ncs]. *)
Definition names (ncs : list string) (k : string) : bool :=
  existsb (fun nc => (negb (is_empty nc) && String.eqb nc k)%bool) ncs.

(** What [wf_schema] says, role by role. *)
Record wf_facts (sc : schema) : Prop := {
  wf_date : role_ok (expected_cols sc) (col_date sc) = true;
  wf_desc : role_ok (expected_cols sc) (col_desc sc) = true;
  wf_debit : role_ok (expected_cols sc) (col_debit sc) = true;
  wf_credit : role_ok (expected_cols sc) (col_credit sc) = true;
  wf_amount : role_ok (expected_cols sc) (col_amount sc) = true;
  wf_balance : role_ok (expected_cols sc) (col_balance sc) = true;
  wf_date_debit : differ (col_date sc) (col_debit sc) = true;
  wf_date_credit : differ (col_date sc) (col_credit sc) = true;
  wf_date_amount : differ (col_date sc) (col_amount sc) = true;
  wf_date_balance : differ (col_date sc) (col_balance sc) = true;
  wf_desc_debit : differ (col_desc sc) (col_debit sc) = true;
  wf_desc_credit : differ (col_desc sc) (col_credit sc) = true;
  wf_desc_amount : differ (col_desc sc) (col_amount sc) = true;
  wf_desc_balance : differ (col_desc sc) (col_balance sc) = true;
  wf_debit_credit : differ (col_debit sc) (col_credit sc) = true;
  wf_debit_amount : differ (col_debit sc) (col_amount sc) = true;
  wf_debit_balance : differ (col_debit sc) (col_balance sc) = true;
  wf_credit_amount : differ (col_credit sc) (col_amount sc) = true;
  wf_credit_balance : differ (col_credit sc) (col_balance sc) = true;
  wf_amount_balance : differ (col_amount sc) (col_balance sc) = true;
  wf_num_cols :
    num_cols sc =
    present [col_debit sc; col_credit sc; col_amount sc; col_balance sc]
}.

(** The row has every column of [cols] among its keys. *)
Definition covers (row : dict) (cols : list string) : Prop :=
  forall k, existsb (String.eqb k) cols = true -> dict_get row k <> None.

(** The row as it stands before the amounts are assigned. *)
Definition base_row (sc : schema) (date_tok desc_tok : string) (nums : list float)
  : dict :=
  let row := dict_of_keys (expected_cols sc) in
  let row := set_if (col_date sc) (CStr (_norm_date date_tok)) row in
  let row := set_if (col_desc sc) (CStr desc_tok) row in
  match nums with
  | [] => row
  | _ => set_if (col_balance sc) (CNum (last nums zero)) row
  end.

(** The text the keywords are looked up in. *)
Definition desc_text (sc : schema) (desc_tok : string) : string :=
  if truthy (col_desc sc) then lower desc_tok else EmptyString.

(** The rows the loops append, said without the loops: the qualifying
    lines of the pages that have text, in reading order. *)
Definition line_candidates (line : string) : list (list cell) :=
  if qualifies (split_ws line) then [row_of (split_ws line)] else [].

Definition page_candidates (p : page) : list (list cell) :=
  match p with
  | Some text =>
      if is_empty text then []
      else flat_map line_candidates (split_char newline text)
  | None => []
  end.

Definition candidates (doc : pdf) : list (list cell) :=
  flat_map page_candidates doc.

(* ================================================================== *)
(** ** agent.py: [main], from the opened files to the generated constants *)
(* ================================================================== *)

(** [k in o]: on a string, [k] occurs in it; on a DataFrame, [k] is one of
    the column labels. *)
Definition obj_in (k : string) (o : obj) : bool :=
  match o with
  | OStr s => contains k s
  | OFrame df => existsb (String.eqb k) (columns df)
  end.

(** [guess_parser_body] on whatever object the caller binds to
    [pdf_text]. *)
Definition guess_parser_body_obj (cols : list string) (pdf_text : obj) : schema :=
  let col_date    := _pick cols ["Date"; "Txn Date"; "Transaction Date"] in
  let col_desc    := _pick cols ["Description"; "Narration"; "Details"] in
  let col_debit   := _pick cols ["Debit Amt"; "Debit"; "Withdrawal"; "Dr"] in
  let col_credit  := _pick cols ["Credit Amt"; "Credit"; "Deposit"; "Cr"] in
  let col_amount  := _pick cols ["Amount"; "Amt"] in
  let col_balance := _pick cols ["Balance"; "Closing Balance"; "Bal"] in
  let num_cols := present [col_debit; col_credit; col_amount; col_balance] in
  let uses_type :=
    (obj_in " CR " pdf_text || obj_in " DR " pdf_text
     || obj_in "Cr " pdf_text || obj_in "Dr " pdf_text)%bool in
  mkschema col_date col_desc col_debit col_credit col_amount col_balance
           cols num_cols uses_type.

(** [main] after the two files are found and the CSV is read: the columns
    [cols] of the expected table are given, [pdf_text = extract_text(pdf_path)]
    and the constants come from [guess_parser_body(expected, pdf_text)]. *)
Definition main_generate (open_pdf : string -> result pdf) (pdf_path : string)
           (cols : list string) : result schema :=
  pdf_text <- extract_text open_pdf pdf_path ;;
  Ok (guess_parser_body_obj cols (OFrame pdf_text)).

(** Every character of the string satisfies [p]. *)
Fixpoint str_forall (p : ascii -> bool) (s : string) : bool :=
  match s with
  | EmptyString => true
  | String c s' => (p c && str_forall p s')%bool
  end.

(** A cell that is None or a number. *)
Definition numeric_cell (o : option cell) : Prop :=
  match o with
  | Some CNone | Some (CNum _) => True
  | _ => False
  end.

(** A row under construction: its keys are the columns of the schema, in
    their order, and no numeric column holds a string. *)
Record row_inv (sc : schema) (row : dict) : Prop := {
  inv_keys : map fst row = expected_cols sc;
  inv_num : forall c, In c (num_cols sc) -> numeric_cell (dict_get row c)
}.

(** The row of the sample line
    "01-02-2024  ATM Withdrawal  2,000.00  0.00  8,000.00". *)
Definition sample_rows : list dict :=
  [[ ("Date", CStr "2024-02-01");
     ("Description", CStr "ATM Withdrawal");
     ("Debit Amt", CNum (S754_finite false 8796093022208000 (-42)));
     ("Credit Amt", CNum (S754_zero false));
     ("Balance", CNum (S754_finite false 8796093022208000 (-40))) ]]%string.

(* ================================================================== *)
(** * Properties *)
(* ================================================================== *)

(** ** Strings *)

Local Open Scope string_scope.

Lemma is_empty_true (s : string) : is_empty s = true <-> s = "".
Proof. destruct s; simpl; split; congruence. Qed.

Lemma is_empty_false (s : string) : is_empty s = false <-> s <> "".
Proof. destruct s; simpl; split; congruence. Qed.

Lemma startswith_app (p s : string) : startswith p (p ++ s) = true.
Proof. induction p as [|c p IH]; simpl; [reflexivity|]. now rewrite Ascii.eqb_refl. Qed.

Lemma startswith_inv (p s : string) :
  startswith p s = true -> exists post, s = p ++ post.
Proof.
  revert s. induction p as [|c p IH]; intros s H.
  - exists s. reflexivity.
  - destruct s as [|b s]; simpl in H; [discriminate|].
    apply andb_true_iff in H. destruct H as [Hc Hp].
    apply Ascii.eqb_eq in Hc. subst b.
    destruct (IH _ Hp) as [post ->]. exists post. reflexivity.
Qed.

Lemma contains_unfold (k s : string) :
  contains k s =
  (startswith k s || match s with "" => false | String _ s' => contains k s' end)%bool.
Proof. destruct s; reflexivity. Qed.

Lemma contains_inv (k s : string) :
  contains k s = true -> exists pre post, s = pre ++ k ++ post.
Proof.
  induction s as [|c s IH]; rewrite contains_unfold; intros H;
    apply orb_true_iff in H; destruct H as [H|H].
  - destruct (startswith_inv _ _ H) as [post E]. exists "", post. exact E.
  - discriminate.
  - destruct (startswith_inv _ _ H) as [post E]. exists "", post. exact E.
  - destruct (IH H) as (pre & post & ->). exists (String c pre), post. reflexivity.
Qed.

Lemma contains_app (pre k post : string) : contains k (pre ++ k ++ post) = true.
Proof.
  induction pre as [|c pre IH]; rewrite contains_unfold.
  - simpl. now rewrite startswith_app.
  - simpl. rewrite IH. apply orb_true_r.
Qed.

Lemma contains_iff (k s : string) :
  contains k s = true <-> exists pre post, s = pre ++ k ++ post.
Proof.
  split; [apply contains_inv|]. intros (pre & post & ->). apply contains_app.
Qed.

(** ** Dictionaries *)

Local Open Scope list_scope.

Lemma dict_get_set_same (d : dict) (k : string) (v : cell) :
  dict_get (dict_set d k v) k = Some v.
Proof.
  induction d as [|[k' v'] d IH]; simpl.
  - now rewrite String.eqb_refl.
  - destruct (String.eqb k' k) eqn:E; simpl; rewrite E; [reflexivity|exact IH].
Qed.

Lemma dict_get_set_other (d : dict) (k k' : string) (v : cell) :
  k <> k' -> dict_get (dict_set d k v) k' = dict_get d k'.
Proof.
  intros Hne. induction d as [|[k0 v0] d IH]; simpl.
  - destruct (String.eqb k k') eqn:E; [apply String.eqb_eq in E; contradiction|reflexivity].
  - destruct (String.eqb k0 k) eqn:E; simpl.
    + apply String.eqb_eq in E. subst k0.
      destruct (String.eqb k k') eqn:E'; [apply String.eqb_eq in E'; contradiction|reflexivity].
    + destruct (String.eqb k0 k'); [reflexivity|exact IH].
Qed.

Lemma dict_get_set (d : dict) (k k' : string) (v : cell) :
  dict_get (dict_set d k v) k' = if String.eqb k k' then Some v else dict_get d k'.
Proof.
  destruct (String.eqb k k') eqn:E.
  - apply String.eqb_eq in E. subst. apply dict_get_set_same.
  - apply String.eqb_neq in E. now apply dict_get_set_other.
Qed.

Lemma dict_of_keys_from (cols : list string) (d : dict) (k : string) :
  dict_get (fold_left (fun d c => dict_set d c CNone) cols d) k =
  if existsb (String.eqb k) cols then Some CNone else dict_get d k.
Proof.
  revert d. induction cols as [|c cols IH]; intros d; simpl; [reflexivity|].
  rewrite IH, dict_get_set. rewrite (String.eqb_sym k c).
  destruct (existsb (String.eqb k) cols); [now rewrite orb_true_r|].
  rewrite orb_false_r. reflexivity.
Qed.

Lemma dict_of_keys_get (cols : list string) (k : string) :
  dict_get (dict_of_keys cols) k =
  if existsb (String.eqb k) cols then Some CNone else None.
Proof. unfold dict_of_keys. now rewrite dict_of_keys_from. Qed.

(** Reading a row after [if col: row[col] = v]. *)
Lemma get_set_if (col : option string) (v : cell) (row : dict) (k : string) :
  dict_get (set_if col v row) k =
  if is_col col k then Some v else dict_get row k.
Proof.
  destruct col as [c|]; simpl; [|reflexivity].
  destruct (is_empty c); simpl; [reflexivity|apply dict_get_set].
Qed.

(** ** Floats *)

Lemma SFcompare_antisym (x y : float) (c : comparison) :
  SFcompare x y = Some c -> SFcompare y x = Some (CompOpp c).
Proof.
  destruct x as [sx|sx| |sx mx ex], y as [sy|sy| |sy my ey]; simpl;
    try discriminate;
    try (destruct sx; intros H; inversion H; reflexivity);
    try (destruct sy; intros H; inversion H; reflexivity);
    try (intros H; inversion H; reflexivity).
  - destruct sx, sy; intros H; inversion H; reflexivity.
  - destruct sx, sy; intros H; inversion H; subst c; try reflexivity.
    all: rewrite (Z.compare_antisym ex ey);
      destruct (Z.compare ex ey); simpl; try reflexivity;
      pose proof (Pos.compare_cont_antisym mx my Eq) as A;
      pose proof (Pos.compare_cont_antisym my mx Eq) as B; simpl in A, B;
      rewrite ?CompOpp_involutive; congruence.
Qed.

(** [x <= y] excludes [y < x]. *)
Lemma leb_not_ltb (x y : float) : leb x y = true -> ltb y x = false.
Proof.
  unfold leb, ltb, SFleb, SFltb. intros H.
  destruct (SFcompare x y) as [c|] eqn:E; [|discriminate].
  rewrite (SFcompare_antisym _ _ _ E). destruct c; simpl; congruence.
Qed.

(** ** Steps of the row construction *)

Lemma defaulted_idem (o : option cell) : defaulted (defaulted o) = defaulted o.
Proof. destruct o as [[| |]|]; reflexivity. Qed.

Lemma default_if_spec (col : option string) (row : dict) :
  (forall c, col = Some c -> is_empty c = false -> dict_get row c <> None) ->
  exists row',
    default_if col row = Ok row' /\
    forall k, dict_get row' k =
              if is_col col k then defaulted (dict_get row k) else dict_get row k.
Proof.
  intros Hkey. destruct col as [c|]; simpl; [|now exists row].
  destruct (is_empty c) eqn:Ec; simpl; [now exists row|].
  unfold dict_item. specialize (Hkey c eq_refl Ec).
  destruct (dict_get row c) as [v|] eqn:Ev; [|contradiction]. simpl.
  destruct v as [|s|x].
  - eexists; split; [reflexivity|]. intros k. rewrite dict_get_set.
    destruct (String.eqb c k) eqn:E; [|reflexivity].
    apply String.eqb_eq in E. subst k. now rewrite Ev.
  - exists row; split; [reflexivity|]. intros k.
    destruct (String.eqb c k) eqn:E; [|reflexivity].
    apply String.eqb_eq in E. subst k. now rewrite Ev.
  - exists row; split; [reflexivity|]. intros k.
    destruct (String.eqb c k) eqn:E; [|reflexivity].
    apply String.eqb_eq in E. subst k. now rewrite Ev.
Qed.

Lemma fill_defaults_spec (ncs : list string) (row : dict) :
  (forall nc, In nc ncs -> is_empty nc = false -> dict_get row nc <> None) ->
  exists row',
    fill_defaults ncs row = Ok row' /\
    forall k, dict_get row' k =
              if names ncs k then defaulted (dict_get row k) else dict_get row k.
Proof.
  revert row. induction ncs as [|nc ncs IH]; intros row Hkeys.
  - exists row. split; reflexivity.
  - cbn [fill_defaults].
    destruct (default_if_spec (Some nc) row) as (row1 & E1 & G1).
    { intros c Hc Hne. injection Hc as <-. apply Hkeys; [now left|exact Hne]. }
    rewrite E1. cbn [bind].
    destruct (IH row1) as (row2 & E2 & G2).
    { intros n Hn Hne. rewrite G1.
      assert (dict_get row n <> None) as Hr by (apply Hkeys; [now right|exact Hne]).
      destruct (is_col (Some nc) n); [|exact Hr].
      destruct (dict_get row n) as [[| |]|]; simpl; congruence. }
    exists row2. split; [exact E2|]. intros k. rewrite G2, G1.
    unfold names. cbn [existsb]. fold (names ncs k).
    change (negb (is_empty nc) && String.eqb nc k)%bool with (is_col (Some nc) k).
    destruct (is_col (Some nc) k); simpl;
      destruct (names ncs k); try reflexivity. apply defaulted_idem.
Qed.

(** ** Well-formed schemas *)

Lemma same_list_eq (l1 l2 : list string) : same_list l1 l2 = true -> l1 = l2.
Proof.
  revert l2. induction l1 as [|a l1 IH]; intros [|b l2] H; simpl in H;
    try discriminate; [reflexivity|].
  apply andb_true_iff in H. destruct H as [Hab Hl].
  apply String.eqb_eq in Hab. subst b. f_equal. now apply IH.
Qed.

Lemma role_ok_elim (cols : list string) (col : option string) (c : string) :
  role_ok cols col = true -> col = Some c ->
  is_empty c = false /\ existsb (String.eqb c) cols = true.
Proof.
  intros H ->. simpl in H. apply andb_true_iff in H. destruct H as [H1 H2].
  split; [|exact H2]. now destruct (is_empty c).
Qed.

Lemma differ_elim (a b : option string) (x y : string) :
  differ a b = true -> a = Some x -> b = Some y ->
  String.eqb x y = false /\ String.eqb y x = false.
Proof.
  intros H -> ->. simpl in H. rewrite (String.eqb_sym y x).
  destruct (String.eqb x y); [discriminate|now split].
Qed.

Lemma differ_sym (a b : option string) : differ a b = differ b a.
Proof. destruct a, b; simpl; try reflexivity. now rewrite String.eqb_sym. Qed.

Lemma wf_elim (sc : schema) : wf_schema sc = true -> wf_facts sc.
Proof.
  unfold wf_schema. cbn [forallb all_differ]. intros H.
  repeat (apply andb_true_iff in H; destruct H as [H ?]).
  repeat match goal with
         | [ X : (_ && _)%bool = true |- _ ] =>
             apply andb_true_iff in X; destruct X
         end.
  constructor; try assumption. now apply same_list_eq.
Qed.

(** The generator only produces well-formed schemas. *)
Lemma _pick_elim (cols names : list string) (n : string) :
  _pick cols names = Some n -> In n names /\ existsb (String.eqb n) cols = true.
Proof.
  induction names as [|m names IH]; simpl; [discriminate|].
  destruct (existsb (String.eqb m) cols) eqn:E.
  - intros H. injection H as <-. split; [now left|exact E].
  - intros H. destruct (IH H) as [? ?]. split; [now right|assumption].
Qed.

Lemma same_list_refl (l : list string) : same_list l l = true.
Proof. induction l as [|a l IH]; simpl; [reflexivity|]. now rewrite String.eqb_refl. Qed.

Lemma guess_role_ok (cols names : list string) :
  forallb (fun n => negb (is_empty n)) names = true ->
  role_ok cols (_pick cols names) = true.
Proof.
  intros Hn. destruct (_pick cols names) as [n|] eqn:E; [|reflexivity].
  destruct (_pick_elim _ _ _ E) as [Hin Hex]. simpl. rewrite Hex.
  rewrite forallb_forall in Hn. now rewrite (Hn n Hin).
Qed.

Lemma guess_differ (cols names1 names2 : list string) :
  forallb (fun a => forallb (fun b => negb (String.eqb a b)) names2) names1 = true ->
  differ (_pick cols names1) (_pick cols names2) = true.
Proof.
  intros H.
  destruct (_pick cols names1) as [a|] eqn:E1; [|reflexivity].
  destruct (_pick cols names2) as [b|] eqn:E2; [|reflexivity].
  destruct (_pick_elim _ _ _ E1) as [Ha _], (_pick_elim _ _ _ E2) as [Hb _].
  rewrite forallb_forall in H. specialize (H a Ha).
  rewrite forallb_forall in H. exact (H b Hb).
Qed.

Lemma guess_parser_body_wf (cols : list string) (pdf_text : string) :
  wf_schema (guess_parser_body cols pdf_text) = true.
Proof.
  unfold wf_schema, guess_parser_body. cbn [forallb all_differ expected_cols
    col_date col_desc col_debit col_credit col_amount col_balance num_cols].
  rewrite same_list_refl.
  rewrite !guess_role_ok by reflexivity.
  rewrite !guess_differ by reflexivity.
  reflexivity.
Qed.

Lemma refine_from_failure_wf (log : string) (sc : schema) :
  wf_schema sc = true -> wf_schema (refine_from_failure log sc) = true.
Proof.
  unfold refine_from_failure.
  destruct (contains "Empty DataFrame" log && contains "Columns:" log)%bool;
    intros H; exact H.
Qed.

(** ** Rows never miss a column of the schema *)

Lemma covers_fresh (cols : list string) : covers (dict_of_keys cols) cols.
Proof. intros k Hk. rewrite dict_of_keys_get, Hk. discriminate. Qed.

Lemma covers_dict_set (row : dict) (cols : list string) (c : string) (v : cell) :
  covers row cols -> covers (dict_set row c v) cols.
Proof.
  intros H k Hk. rewrite dict_get_set.
  destruct (String.eqb c k); [discriminate|now apply H].
Qed.

Lemma covers_set_if (row : dict) (cols : list string) (col : option string) (v : cell) :
  covers row cols -> covers (set_if col v row) cols.
Proof.
  intros H. destruct col as [c|]; simpl; [|exact H].
  destruct (is_empty c); [exact H|now apply covers_dict_set].
Qed.

Lemma covers_route_one sc desc v row cols :
  covers row cols -> covers (route_one sc desc v row) cols.
Proof.
  intros H. unfold route_one.
  destruct (any_in credit_keywords desc); [now apply covers_set_if|].
  destruct (any_in debit_keywords desc); now apply covers_set_if.
Qed.

Lemma covers_route_amounts sc desc remaining row cols :
  covers row cols -> covers (route_amounts sc desc remaining row) cols.
Proof.
  intros H. unfold route_amounts.
  destruct remaining as [|a [|b rest]]; [exact H|now apply covers_route_one|].
  repeat match goal with
         | [ |- covers (if ?c then _ else _) _ ] => destruct c
         end;
    repeat first [apply covers_route_one | apply covers_set_if]; exact H.
Qed.

Lemma present_nonempty (l : list (option string)) (c : string) :
  In c (present l) -> is_empty c = false /\ In (Some c) l.
Proof.
  induction l as [|[s|] l IH]; simpl; [contradiction| |].
  - destruct (is_empty s) eqn:E.
    + intros H. destruct (IH H). split; [assumption|now right].
    + intros [->|H]; [split; [exact E|now left]|].
      destruct (IH H). split; [assumption|now right].
  - intros H. destruct (IH H). split; [assumption|now right].
Qed.

(** Under a well-formed schema the numeric columns are among the keys. *)
Lemma num_cols_covered (sc : schema) (row : dict) :
  wf_facts sc -> covers row (expected_cols sc) ->
  forall nc, In nc (num_cols sc) -> is_empty nc = false -> dict_get row nc <> None.
Proof.
  intros W Hc nc Hin _. rewrite (wf_num_cols _ W) in Hin.
  destruct (present_nonempty _ _ Hin) as [_ Hrole]. apply Hc.
  simpl in Hrole.
  destruct Hrole as [E|[E|[E|[E|[]]]]].
  - exact (proj2 (role_ok_elim _ _ _ (wf_debit _ W) E)).
  - exact (proj2 (role_ok_elim _ _ _ (wf_credit _ W) E)).
  - exact (proj2 (role_ok_elim _ _ _ (wf_amount _ W) E)).
  - exact (proj2 (role_ok_elim _ _ _ (wf_balance _ W) E)).
Qed.

Lemma covers_default_if (col : option string) (row row' : dict) (cols : list string) :
  default_if col row = Ok row' -> covers row cols -> covers row' cols.
Proof.
  destruct col as [c|]; simpl; [|intros H; injection H as <-; trivial].
  destruct (is_empty c); [intros H; injection H as <-; trivial|].
  unfold dict_item. destruct (dict_get row c) as [[| |]|]; simpl; intros H;
    try discriminate; injection H as <-; trivial.
  apply covers_dict_set.
Qed.

(** The CR/DR body never raises under a well-formed schema. *)
Lemma flagged_row_ok (sc : schema) (d : captures) :
  wf_schema sc = true -> exists row, flagged_row sc d = Ok row.
Proof.
  intros Hwf. pose proof (wf_elim _ Hwf) as W. unfold flagged_row.
  match goal with
  | [ |- exists row, fill_defaults _ ?r = Ok row ] =>
      destruct (fill_defaults_spec (num_cols sc) r) as (row' & E & _);
      [|exists row'; exact E]
  end.
  apply num_cols_covered; [exact W|].
  apply covers_set_if.
  repeat match goal with
         | [ |- covers (if ?c then _ else _) _ ] => destruct c
         | [ |- covers (match ?c with Some _ => _ | None => _ end) _ ] => destruct c
         end;
    repeat first [apply covers_set_if | apply covers_dict_set];
    apply covers_fresh.
Qed.

(** ** The row of a table-like line *)

Lemma fill_from_unfold sc date_tok desc_tok nums :
  fill_from sc date_tok desc_tok nums =
  (row <- assign_amounts sc (remaining_of nums) (base_row sc date_tok desc_tok nums) ;;
   fill_defaults (num_cols sc) row).
Proof. reflexivity. Qed.

Lemma base_row_get sc date_tok desc_tok nums k :
  dict_get (base_row sc date_tok desc_tok nums) k =
  if (is_col (col_balance sc) k && negb (Nat.eqb (List.length nums) 0))%bool
  then Some (CNum (last nums zero))
  else if is_col (col_desc sc) k then Some (CStr desc_tok)
  else if is_col (col_date sc) k then Some (CStr (_norm_date date_tok))
  else if existsb (String.eqb k) (expected_cols sc) then Some CNone else None.
Proof.
  unfold base_row. destruct nums as [|x nums].
  - rewrite andb_false_r. rewrite !get_set_if, dict_of_keys_get. reflexivity.
  - cbn [List.length Nat.eqb negb]. rewrite andb_true_r.
    rewrite !get_set_if, dict_of_keys_get. reflexivity.
Qed.

Lemma covers_base_row sc date_tok desc_tok nums :
  covers (base_row sc date_tok desc_tok nums) (expected_cols sc).
Proof.
  unfold base_row. destruct nums; repeat apply covers_set_if; apply covers_fresh.
Qed.

Lemma is_col_same (cols : list string) (col : option string) (c : string) :
  role_ok cols col = true -> col = Some c -> is_col col c = true.
Proof.
  intros H E. destruct (role_ok_elim _ _ _ H E) as [Hne _]. subst col.
  simpl. now rewrite Hne, String.eqb_refl.
Qed.

Lemma is_col_other (col col' : option string) (c : string) :
  differ col col' = true -> col = Some c -> is_col col' c = false.
Proof.
  intros H E. destruct col' as [c'|]; [|reflexivity].
  destruct (differ_elim _ _ _ _ H E eq_refl) as [_ H2].
  simpl. rewrite H2. apply andb_false_r.
Qed.

Lemma role_in_cols (cols : list string) (col : option string) (c : string) :
  role_ok cols col = true -> col = Some c -> existsb (String.eqb c) cols = true.
Proof. intros H E. exact (proj2 (role_ok_elim _ _ _ H E)). Qed.

Lemma desc_of_base_row sc date_tok desc_tok nums :
  wf_facts sc ->
  desc_of sc (base_row sc date_tok desc_tok nums) = Ok (desc_text sc desc_tok).
Proof.
  intros W. unfold desc_of, desc_text.
  destruct (col_desc sc) as [c|] eqn:Ec; [|reflexivity]. simpl.
  destruct (is_empty c) eqn:Ee; [reflexivity|]. simpl.
  rewrite base_row_get.
  assert (is_col (col_balance sc) c = false) as ->.
  { apply (is_col_other (col_desc sc)); [apply W|exact Ec]. }
  rewrite Ec. simpl. now rewrite Ee, String.eqb_refl.
Qed.

(** The two-column branch on the base row: both defaults succeed and the
    routing runs on the defaulted row. *)
Lemma assign_amounts_two sc date_tok desc_tok nums remaining :
  wf_facts sc ->
  (truthy (col_amount sc)
   && negb (truthy (col_debit sc) || truthy (col_credit sc)))%bool = false ->
  exists row3,
    assign_amounts sc remaining (base_row sc date_tok desc_tok nums) =
      Ok (route_amounts sc (desc_text sc desc_tok) remaining row3) /\
    covers row3 (expected_cols sc) /\
    forall k, dict_get row3 k =
              if (is_col (col_debit sc) k || is_col (col_credit sc) k)%bool
              then defaulted (dict_get (base_row sc date_tok desc_tok nums) k)
              else dict_get (base_row sc date_tok desc_tok nums) k.
Proof.
  intros W Hbr. unfold assign_amounts. rewrite Hbr.
  rewrite (desc_of_base_row _ _ _ _ W). cbn [bind].
  set (row1 := base_row sc date_tok desc_tok nums).
  assert (covers row1 (expected_cols sc)) as C1 by apply covers_base_row.
  destruct (default_if_spec (col_debit sc) row1) as (row2 & E2 & G2).
  { intros c Ec _. apply C1. exact (role_in_cols _ _ _ (wf_debit _ W) Ec). }
  rewrite E2. cbn [bind].
  assert (covers row2 (expected_cols sc)) as C2
      by exact (covers_default_if _ _ _ _ E2 C1).
  destruct (default_if_spec (col_credit sc) row2) as (row3 & E3 & G3).
  { intros c Ec _. apply C2. exact (role_in_cols _ _ _ (wf_credit _ W) Ec). }
  rewrite E3. cbn [bind].
  exists row3. split; [reflexivity|]. split.
  - exact (covers_default_if _ _ _ _ E3 C2).
  - intros k. rewrite G3, G2.
    destruct (is_col (col_debit sc) k), (is_col (col_credit sc) k); simpl;
      try reflexivity. apply defaulted_idem.
Qed.

Lemma assign_amounts_covers sc date_tok desc_tok nums remaining :
  wf_facts sc ->
  exists row,
    assign_amounts sc remaining (base_row sc date_tok desc_tok nums) = Ok row /\
    covers row (expected_cols sc).
Proof.
  intros W.
  destruct (truthy (col_amount sc)
            && negb (truthy (col_debit sc) || truthy (col_credit sc)))%bool eqn:Hbr.
  - unfold assign_amounts. rewrite Hbr.
    destruct remaining as [|r0 rest]; [eexists; split; [reflexivity|apply covers_base_row]|].
    destruct (col_amount sc) as [c|];
      (eexists; split; [reflexivity|]);
      [apply covers_dict_set|]; apply covers_base_row.
  - destruct (assign_amounts_two sc date_tok desc_tok nums remaining W Hbr)
      as (row3 & E & C & _).
    eexists. split; [exact E|]. now apply covers_route_amounts.
Qed.

(** The table-like body never raises under a well-formed schema. *)
Lemma fill_from_ok sc date_tok desc_tok nums :
  wf_schema sc = true -> exists row, fill_from sc date_tok desc_tok nums = Ok row.
Proof.
  intros Hwf. pose proof (wf_elim _ Hwf) as W. rewrite fill_from_unfold.
  destruct (assign_amounts_covers sc date_tok desc_tok nums (remaining_of nums) W)
    as (row & E & C).
  rewrite E. cbn [bind].
  destruct (fill_defaults_spec (num_cols sc) row) as (row' & E' & _).
  - now apply num_cols_covered.
  - exists row'. exact E'.
Qed.

Lemma positional_rows_ok sc ln :
  wf_schema sc = true -> exists rows, positional_rows sc ln = Ok rows.
Proof.
  intros Hwf. unfold positional_rows, positional_fill.
  destruct (Nat.leb 3 _); [|now eexists].
  destruct (matches date_token _); [|now eexists].
  match goal with
  | [ |- context [fill_from sc ?a ?b ?c] ] =>
      destruct (fill_from_ok sc a b c Hwf) as (row & ->)
  end.
  cbn [bind]. destruct (keep sc row); now eexists.
Qed.

Lemma try_pats_ok sc pats ln r :
  wf_schema sc = true -> try_pats sc pats ln = Some r -> exists row, r = Ok row.
Proof.
  intros Hwf. induction pats as [|pat pats IH]; simpl; [discriminate|].
  destruct (re_match true pat ln) as [[e d]|]; [|exact IH].
  intros H. injection H as <-. now apply flagged_row_ok.
Qed.

(** Each line adds no row or one row, and never raises. *)
Lemma line_rows_ok sc ln :
  wf_schema sc = true ->
  exists rows, line_rows sc ln = Ok rows /\ (List.length rows <= 1)%nat.
Proof.
  intros Hwf. unfold line_rows.
  destruct (if uses_type sc then try_pats sc _pats_type ln else None) as [r|] eqn:E.
  - destruct (uses_type sc); [|discriminate].
    destruct (try_pats_ok _ _ _ _ Hwf E) as (row & ->).
    exists [row]. split; [reflexivity|simpl; lia].
  - unfold positional_rows, positional_fill.
    destruct (Nat.leb 3 _); [|exists []; split; [reflexivity|simpl; lia]].
    destruct (matches date_token _); [|exists []; split; [reflexivity|simpl; lia]].
    match goal with
    | [ |- context [fill_from sc ?a ?b ?c] ] =>
        destruct (fill_from_ok sc a b c Hwf) as (row & ->)
    end.
    cbn [bind]. destruct (keep sc row);
      eexists; (split; [reflexivity|simpl; lia]).
Qed.

(** ** The loop over the lines *)

Lemma try_rows_from_acc sc lines rows :
  try_rows_from sc rows lines =
  (new <- _try_rows sc lines ;; Ok (rows ++ new)).
Proof.
  unfold _try_rows. revert rows.
  induction lines as [|ln lines IH]; intros rows; cbn [try_rows_from].
  - cbn [bind]. now rewrite app_nil_r.
  - destruct (line_rows sc ln) as [new|e]; cbn [bind]; [|reflexivity].
    rewrite (IH (rows ++ new)), (IH ([] ++ new)).
    destruct (try_rows_from sc [] lines) as [more|e]; cbn [bind]; [|reflexivity].
    now rewrite app_assoc.
Qed.

Lemma try_rows_cons sc ln lines :
  _try_rows sc (ln :: lines) =
  (new <- line_rows sc ln ;; more <- _try_rows sc lines ;; Ok (new ++ more)).
Proof.
  unfold _try_rows at 1. cbn [try_rows_from].
  destruct (line_rows sc ln) as [new|e]; cbn [bind]; [|reflexivity].
  apply try_rows_from_acc.
Qed.

(** Splitting the input splits the output. *)
Lemma try_rows_app sc l1 l2 :
  _try_rows sc (l1 ++ l2) =
  (r1 <- _try_rows sc l1 ;; r2 <- _try_rows sc l2 ;; Ok (r1 ++ r2)).
Proof.
  induction l1 as [|ln l1 IH].
  - cbn [app]. unfold _try_rows at 2. cbn [try_rows_from bind].
    destruct (_try_rows sc l2); reflexivity.
  - rewrite <- app_comm_cons, !try_rows_cons, IH.
    destruct (line_rows sc ln) as [new|e]; cbn [bind]; [|reflexivity].
    destruct (_try_rows sc l1) as [r1|e]; cbn [bind]; [|reflexivity].
    destruct (_try_rows sc l2) as [r2|e]; cbn [bind]; [|reflexivity].
    now rewrite app_assoc.
Qed.

(** Whatever the schema, a table that [_try_rows] returns is the
    concatenation, line by line, of the rows of each line. *)
Lemma try_rows_concat_any sc lines rows :
  _try_rows sc lines = Ok rows ->
  exists per_line : list (list dict),
    Forall2 (fun ln rs => line_rows sc ln = Ok rs) lines per_line /\
    rows = List.concat per_line.
Proof.
  revert rows. induction lines as [|ln lines IH]; intros rows.
  - intros H. injection H as <-. exists []. split; [constructor|reflexivity].
  - rewrite try_rows_cons.
    destruct (line_rows sc ln) as [new|e] eqn:En; cbn [bind]; [|discriminate].
    destruct (_try_rows sc lines) as [more|e]; cbn [bind]; [|discriminate].
    intros H. injection H as <-.
    destruct (IH more eq_refl) as (rss & HF & ->).
    exists (new :: rss). split; [constructor; assumption|reflexivity].
Qed.

(** Under a well-formed schema the table is always returned. *)
Lemma try_rows_concat_wf sc lines :
  wf_schema sc = true ->
  exists per_line : list (list dict),
    Forall2 (fun ln rs => line_rows sc ln = Ok rs /\ (List.length rs <= 1)%nat)
            lines per_line /\
    _try_rows sc lines = Ok (List.concat per_line).
Proof.
  intros Hwf. induction lines as [|ln lines IH].
  - exists []. split; [constructor|reflexivity].
  - destruct IH as (rss & HF & E).
    destruct (line_rows_ok sc ln Hwf) as (rs & Hrs & Hlen).
    exists (rs :: rss). split; [constructor; [split|]; assumption|].
    rewrite try_rows_cons, Hrs, E. reflexivity.
Qed.

(** C8. For every schema and every sequence of lines, the table of
    [_try_rows] is the concatenation, in the order of the input lines, of
    the rows each line yields on its own: the row of an earlier line
    precedes the row of a later line, and no line influences the rows of
    another.  Under every schema the generator can produce the table is
    always returned, each line giving no row or one row. *)
Theorem try_rows_line_order (sc : schema) (lines : list string) :
  (forall rows,
      _try_rows sc lines = Ok rows ->
      exists per_line : list (list dict),
        Forall2 (fun ln rs => line_rows sc ln = Ok rs) lines per_line /\
        rows = List.concat per_line) /\
  (wf_schema sc = true ->
   exists per_line : list (list dict),
     Forall2 (fun ln rs => line_rows sc ln = Ok rs /\ (List.length rs <= 1)%nat)
             lines per_line /\
     _try_rows sc lines = Ok (List.concat per_line)).
Proof.
  split; [apply try_rows_concat_any|apply try_rows_concat_wf].
Qed.

Lemma try_rows_line_order_witness :
  let lines := ["01-02-2024  ATM Withdrawal  2,000.00  0.00  8,000.00";
                "Statement of Account";
                "02-02-2024  Salary  0.00  5,000.00  13,000.00"] in
  wf_schema icici = true /\
  (exists per_line : list (list dict),
      Forall2 (fun ln rs => line_rows icici ln = Ok rs /\ (List.length rs <= 1)%nat)
              lines per_line /\
      _try_rows icici lines = Ok (List.concat per_line)) /\
  (exists rows per_line,
      _try_rows icici lines = Ok rows /\
      Forall2 (fun ln rs => line_rows icici ln = Ok rs) lines per_line /\
      rows = List.concat per_line).
Proof.
  cbv zeta. split; [reflexivity|]. split.
  - apply (proj2 (try_rows_line_order icici _)). reflexivity.
  - eexists.
    destruct (proj1 (try_rows_line_order icici
                ["01-02-2024  ATM Withdrawal  2,000.00  0.00  8,000.00";
                 "Statement of Account";
                 "02-02-2024  Salary  0.00  5,000.00  13,000.00"]) _ eq_refl)
      as (per_line & HF & E).
    exists per_line. split; [reflexivity|]. split; [exact HF|exact E].
Defined.

(** The same, said of two lines: a row from the earlier one comes first. *)
Lemma try_rows_precedence sc l1 x l2 y l3 rx ry :
  wf_schema sc = true ->
  line_rows sc x = Ok [rx] -> line_rows sc y = Ok [ry] ->
  exists o1 o2 o3,
    _try_rows sc l1 = Ok o1 /\ _try_rows sc l2 = Ok o2 /\ _try_rows sc l3 = Ok o3 /\
    _try_rows sc (l1 ++ x :: l2 ++ y :: l3) = Ok (o1 ++ rx :: o2 ++ ry :: o3).
Proof.
  intros Hwf Hx Hy.
  destruct (try_rows_concat_wf sc l1 Hwf) as (p1 & _ & E1).
  destruct (try_rows_concat_wf sc l2 Hwf) as (p2 & _ & E2).
  destruct (try_rows_concat_wf sc l3 Hwf) as (p3 & _ & E3).
  exists (List.concat p1), (List.concat p2), (List.concat p3).
  repeat split; try assumption.
  rewrite try_rows_app, E1. cbn [bind].
  rewrite try_rows_cons, Hx. cbn [bind].
  rewrite try_rows_app, E2. cbn [bind].
  rewrite try_rows_cons, Hy, E3. reflexivity.
Qed.

(** ** [parse] *)

Lemma try_rows_ok sc lines :
  wf_schema sc = true -> exists rows, _try_rows sc lines = Ok rows.
Proof.
  intros Hwf. destruct (try_rows_concat_wf sc lines Hwf) as (rss & _ & E).
  now exists (List.concat rss).
Qed.

(** Had [text] been a string, the parse logic would return a table of the
    expected columns whatever the text. *)
Lemma parse_body_on_str sc text :
  wf_schema sc = true ->
  exists rows, parse_body sc (OStr text) = Ok (mkframe (expected_cols sc) rows).
Proof.
  intros Hwf. unfold parse_body. cbn [call_splitlines bind].
  destruct (try_rows_ok sc (nonempty_lines (splitlines text)) Hwf) as (rows & ->).
  cbn [bind]. eexists. reflexivity.
Qed.

(** C2. [parse] never returns a table: whenever the document opens,
    [extract_text] hands back a DataFrame, on which [text.splitlines()]
    raises AttributeError; when it does not open, the error of the open
    escapes.  So an exception escapes [parse] on every input. *)
Theorem parse_always_raises (open_pdf : string -> result pdf) (pdf_path : string) :
  exists e, parse open_pdf pdf_path = Raise e /\
            (forall doc, open_pdf pdf_path = Ok doc ->
                         e = AttributeError "splitlines").
Proof.
  unfold parse, extract_text.
  destruct (open_pdf pdf_path) as [doc|e]; cbn [bind].
  - exists (AttributeError "splitlines"). split; [reflexivity|trivial].
  - exists e. split; [reflexivity|]. intros doc H. discriminate.
Qed.

(** A one-page statement with one transaction line. *)
Example parse_sample_raises :
  parse (fun _ => Ok [Some "01-02-2024 ATM Withdrawal 2,000.00 0.00 8,000.00"])
        "data/icici/icici sample.pdf"
  = Raise (AttributeError "splitlines").
Proof. reflexivity. Qed.

(** ** The CR/DR grammar on a sample line *)

Lemma guess_icici_columns (pdf_text : string) :
  guess_parser_body ["Date"; "Description"; "Debit Amt"; "Credit Amt"; "Balance"]
                    pdf_text =
  mkschema (Some "Date") (Some "Description") (Some "Debit Amt")
           (Some "Credit Amt") None (Some "Balance")
           ["Date"; "Description"; "Debit Amt"; "Credit Amt"; "Balance"]
           ["Debit Amt"; "Credit Amt"; "Balance"]
           (text_uses_type pdf_text).
Proof. reflexivity. Qed.

(** The shipped parser is the generated one for a text without flags. *)
Lemma icici_is_generated :
  icici = guess_parser_body
            ["Date"; "Description"; "Debit Amt"; "Credit Amt"; "Balance"]
            "Date Description Debit Amt Credit Amt Balance".
Proof. reflexivity. Qed.

(** C3. Under the schema Date, Description, Debit Amt, Credit Amt, Balance
    the CR/DR patterns turn the line
    "01-02-2024 Salary Credit CR 5,000.00 10,000.00" into the row
    Date "2024-02-01", Description "Salary Credit", Debit Amt 0.0,
    Credit Amt 5000.0, Balance 10000.0; and when the statement text sets the
    CR/DR flag, that row is exactly what [_try_rows] returns for the line. *)
Theorem flagged_sample_row (pdf_text : string) :
  let sc := guess_parser_body
              ["Date"; "Description"; "Debit Amt"; "Credit Amt"; "Balance"]
              pdf_text in
  let row := [ ("Date", CStr "2024-02-01");
               ("Description", CStr "Salary Credit");
               ("Debit Amt", CNum zero);
               ("Credit Amt", CNum (of_decimal false 5000 0));
               ("Balance", CNum (of_decimal false 10000 0)) ] in
  try_pats sc _pats_type "01-02-2024 Salary Credit CR 5,000.00 10,000.00"
    = Some (Ok row) /\
  (text_uses_type pdf_text = true ->
   _try_rows sc ["01-02-2024 Salary Credit CR 5,000.00 10,000.00"] = Ok [row]).
Proof.
  cbv zeta. rewrite guess_icici_columns.
  destruct (text_uses_type pdf_text).
  - split; [vm_compute; reflexivity|]. intros _. vm_compute. reflexivity.
  - split; [vm_compute; reflexivity|]. discriminate.
Qed.

Lemma flagged_sample_row_witness :
  text_uses_type "01-02-2024 Salary Credit CR 5,000.00 10,000.00" = true /\
  _try_rows
    (guess_parser_body
       ["Date"; "Description"; "Debit Amt"; "Credit Amt"; "Balance"]
       "01-02-2024 Salary Credit CR 5,000.00 10,000.00")
    ["01-02-2024 Salary Credit CR 5,000.00 10,000.00"]
  = Ok [[ ("Date", CStr "2024-02-01");
          ("Description", CStr "Salary Credit");
          ("Debit Amt", CNum zero);
          ("Credit Amt", CNum (of_decimal false 5000 0));
          ("Balance", CNum (of_decimal false 10000 0)) ]].
Proof.
  split; [reflexivity|].
  apply (proj2 (flagged_sample_row "01-02-2024 Salary Credit CR 5,000.00 10,000.00")).
  reflexivity.
Defined.

(** With the flag unset, as in the shipped file, the CR/DR stage is skipped
    and the single-spaced line has too few fields for the fallback. *)
Lemma flagged_sample_without_flag :
  _try_rows icici ["01-02-2024 Salary Credit CR 5,000.00 10,000.00"] = Ok [].
Proof. vm_compute. reflexivity. Qed.

(** ** The CR/DR flag *)

(** C4 as stated fails in both directions: a lower-case standalone token
    does not set the flag, and "Cr " inside a word sets it. *)
Lemma uses_type_not_case_insensitive :
  (contains " cr " (lower "upi cr 500.00") = true /\
   text_uses_type "upi cr 500.00" = false) /\
  (text_uses_type "MICr 500.00" = true /\
   contains " cr " (lower "MICr 500.00") = false /\
   contains " dr " (lower "MICr 500.00") = false).
Proof. vm_compute. repeat split. Qed.

(** C4, amended. The flag is set exactly when the statement text contains
    one of the four literal substrings " CR ", " DR ", "Cr " or "Dr ", with
    these very cases. *)
Theorem uses_type_literal_substrings (pdf_text : string) :
  text_uses_type pdf_text = true <->
  exists k pre post,
    In k [" CR "; " DR "; "Cr "; "Dr "] /\ pdf_text = (pre ++ k ++ post)%string.
Proof.
  unfold text_uses_type. rewrite !orb_true_iff, !contains_iff. split.
  - intros [[[(pre & post & E)|(pre & post & E)]|(pre & post & E)]|(pre & post & E)];
      eexists _, pre, post; (split; [|exact E]); simpl; tauto.
  - intros (k & pre & post & Hk & E). simpl in Hk.
    destruct Hk as [<-|[<-|[<-|[<-|[]]]]]; eauto 6.
Qed.

(** ** The line extractor *)

Lemma float_same_eq (x y : float) : float_same x y = true <-> x = y.
Proof.
  destruct x as [a|a| |a m e], y as [b|b| |b n f]; simpl; unfold bool_eqb;
    try (split; [discriminate|congruence]);
    try (rewrite Bool.eqb_true_iff; split; congruence).
  - split; reflexivity.
  - rewrite !andb_true_iff, Bool.eqb_true_iff, Pos.eqb_eq, Z.eqb_eq.
    split; [intros [[-> ->] ->]; reflexivity|intros H; inversion H; auto].
Qed.

Lemma cell_same_eq (a b : cell) : cell_same a b = true <-> a = b.
Proof.
  destruct a as [|s|x], b as [|t|y]; simpl;
    try (split; [discriminate|congruence]).
  - split; reflexivity.
  - rewrite String.eqb_eq. split; congruence.
  - rewrite float_same_eq. split; congruence.
Qed.

Lemma row_same_eq (r1 r2 : list cell) : row_same r1 r2 = true <-> r1 = r2.
Proof.
  revert r2. induction r1 as [|a r1 IH]; intros [|b r2]; simpl;
    try (split; [discriminate|congruence]); [split; reflexivity|].
  rewrite andb_true_iff, cell_same_eq, IH. split; [intros [-> ->]|intros H; inversion H]; auto.
Qed.

Lemma seen_iff (r : list cell) (kept : list (list cell)) :
  existsb (row_same r) kept = true <-> In r kept.
Proof.
  rewrite existsb_exists. split.
  - intros (x & Hx & E). apply row_same_eq in E. now subst.
  - intros H. exists r. split; [exact H|now apply row_same_eq].
Qed.

Lemma dedup_from_in kept rows r :
  In r (dedup_from kept rows) <-> In r kept \/ In r rows.
Proof.
  revert kept. induction rows as [|x rows IH]; intros kept; simpl; [tauto|].
  destruct (existsb (row_same x) kept) eqn:E; rewrite IH.
  - apply seen_iff in E. split; [tauto|]. intros [H|[<-|H]]; auto.
  - rewrite in_app_iff. simpl. tauto.
Qed.

Lemma dedup_from_nodup kept rows : NoDup kept -> NoDup (dedup_from kept rows).
Proof.
  revert kept. induction rows as [|x rows IH]; intros kept Hk; simpl; [exact Hk|].
  destruct (existsb (row_same x) kept) eqn:E; apply IH; [exact Hk|].
  assert (~ In x kept) as Hx.
  { intros H. apply seen_iff in H. congruence. }
  apply NoDup_app; [exact Hk|repeat constructor; simpl; tauto|].
  intros a Ha [<-|[]]. contradiction.
Qed.

(** A later row equal to an earlier one is dropped; any other row is kept,
    after the rows kept before it. *)
Lemma dedup_from_snoc kept rows r :
  dedup_from kept (rows ++ [r]) =
  if existsb (row_same r) (kept ++ rows) then dedup_from kept rows
  else dedup_from kept rows ++ [r].
Proof.
  revert kept. induction rows as [|x rows IH]; intros kept.
  - simpl. rewrite app_nil_r. destruct (existsb (row_same r) kept); reflexivity.
  - cbn [app dedup_from].
    destruct (existsb (row_same x) kept) eqn:E; rewrite IH.
    + assert (existsb (row_same r) (kept ++ x :: rows)
              = existsb (row_same r) (kept ++ rows)) as ->; [|reflexivity].
      apply eq_true_iff_eq. rewrite !seen_iff, !in_app_iff. simpl.
      apply seen_iff in E. split; [|tauto]. intros [H|[<-|H]]; auto.
    + now rewrite <- app_assoc.
Qed.

Lemma dedup_from_length kept rows :
  (List.length (dedup_from kept rows) <= List.length kept + List.length rows)%nat.
Proof.
  revert kept. induction rows as [|x rows IH]; intros kept; simpl; [lia|].
  destruct (existsb (row_same x) kept).
  - specialize (IH kept). lia.
  - specialize (IH (kept ++ [x])). rewrite length_app in IH. simpl in IH. lia.
Qed.

Lemma dedup_from_repeat kept l1 r l2 l3 :
  (List.length (dedup_from kept (l1 ++ r :: l2 ++ r :: l3))
   < List.length kept + List.length (l1 ++ r :: l2 ++ r :: l3))%nat.
Proof.
  revert kept. induction l1 as [|x l1 IH]; intros kept.
  - cbn [app dedup_from].
    assert (forall kept', In r kept' ->
              (List.length (dedup_from kept' (l2 ++ r :: l3))
               <= List.length kept' + List.length (l2 ++ l3))%nat) as Hdrop.
    { clear. induction l2 as [|y l2 IH]; intros kept' Hin.
      - cbn [app dedup_from]. apply seen_iff in Hin. rewrite Hin.
        apply dedup_from_length.
      - cbn [app dedup_from]. destruct (existsb (row_same y) kept').
        + specialize (IH kept' Hin). simpl. lia.
        + specialize (IH (kept' ++ [y])). rewrite length_app in IH.
          simpl in IH |- *. assert (In r (kept' ++ [y])) by (apply in_or_app; auto).
          specialize (IH H). lia. }
    destruct (existsb (row_same r) kept) eqn:E.
    + apply seen_iff in E. specialize (Hdrop kept E).
      simpl. rewrite !length_app in *. simpl. lia.
    + specialize (Hdrop (kept ++ [r])). rewrite length_app in Hdrop.
      assert (In r (kept ++ [r])) by (apply in_or_app; simpl; auto).
      specialize (Hdrop H). simpl in *. rewrite !length_app in *. simpl. lia.
  - cbn [app dedup_from]. destruct (existsb (row_same x) kept).
    + specialize (IH kept). simpl. lia.
    + specialize (IH (kept ++ [x])). rewrite length_app in IH. simpl in IH |- *. lia.
Qed.

Lemma scan_lines_acc rows lines :
  scan_lines rows lines = rows ++ flat_map line_candidates lines.
Proof.
  revert rows. induction lines as [|line lines IH]; intros rows; simpl.
  - now rewrite app_nil_r.
  - unfold line_candidates at 1.
    destruct (qualifies (split_ws line)); rewrite IH; [|reflexivity].
    now rewrite <- app_assoc.
Qed.

Lemma scan_pages_acc rows doc :
  scan_pages rows doc = rows ++ candidates doc.
Proof.
  revert rows. induction doc as [|[text|] doc IH]; intros rows; simpl.
  - now rewrite app_nil_r.
  - destruct (is_empty text); [apply IH|].
    rewrite IH, scan_lines_acc. now rewrite <- app_assoc.
  - apply IH.
Qed.

Lemma read_pdf_data doc : data (read_pdf doc) = dedup_from [] (candidates doc).
Proof. unfold read_pdf, drop_duplicates. simpl. now rewrite scan_pages_acc. Qed.

Lemma candidates_in doc row :
  In row (candidates doc) <->
  exists text line,
    In (Some text) doc /\ text <> EmptyString /\
    In line (split_char newline text) /\
    (5 <= List.length (split_ws line))%nat /\
    nth 0 (split_ws line) EmptyString <> "Date"%string /\
    row = row_of (split_ws line).
Proof.
  unfold candidates. rewrite in_flat_map. split.
  - intros ([text|] & Hp & Hrow); simpl in Hrow; [|contradiction].
    destruct (is_empty text) eqn:Et; [contradiction|].
    apply in_flat_map in Hrow. destruct Hrow as (line & Hl & Hrow).
    unfold line_candidates in Hrow.
    destruct (qualifies (split_ws line)) eqn:Q; [|contradiction].
    destruct Hrow as [<-|[]]. unfold qualifies in Q.
    apply andb_true_iff in Q. destruct Q as [Q1 Q2].
    apply Nat.leb_le in Q1. apply negb_true_iff, String.eqb_neq in Q2.
    exists text, line. repeat split; try assumption.
    now apply is_empty_false.
  - intros (text & line & Hp & Ht & Hl & Q1 & Q2 & ->).
    exists (Some text). split; [exact Hp|]. simpl.
    apply is_empty_false in Ht. rewrite Ht.
    apply in_flat_map. exists line. split; [exact Hl|].
    unfold line_candidates, qualifies.
    apply Nat.leb_le in Q1. apply String.eqb_neq in Q2.
    rewrite Q1, Q2. simpl. now left.
Qed.

(** C5 as stated fails: a non-empty line of three tokens, a line whose
    first token is "Date", and the repetition of a line are all withheld. *)
Lemma extractor_filters_lines :
  data (read_pdf [Some "Opening balance 100"]) = [] /\
  data (read_pdf [Some "Date Description Debit Credit Balance"]) = [] /\
  data (read_pdf [Some "01-02-2024 ATM 500.00 0.00 9,500.00";
                  Some "01-02-2024 ATM 500.00 0.00 9,500.00"])
  = [[CStr "01-02-2024"; CStr "ATM"; CStr "500.00"; CStr "0.00"; CStr "9,500.00"]].
Proof. vm_compute. repeat split. Qed.

(** C5, amended. The extractor hands on a line only if it has at least
    five white-space separated tokens and its first token is not "Date";
    such a line becomes the five fields first token, middle tokens joined
    by single spaces, and last three tokens.  The table holds these rows in
    reading order with every repetition of an earlier row left out. *)
Theorem extractor_keeps_qualifying_lines (doc : pdf) :
  data (read_pdf doc) = dedup_from [] (candidates doc) /\
  forall row,
    In row (data (read_pdf doc)) <->
    exists text line,
      In (Some text) doc /\ text <> EmptyString /\
      In line (split_char newline text) /\
      (5 <= List.length (split_ws line))%nat /\
      nth 0 (split_ws line) EmptyString <> "Date"%string /\
      row = row_of (split_ws line).
Proof.
  split; [apply read_pdf_data|]. intros row.
  rewrite read_pdf_data, dedup_from_in, <- candidates_in. simpl. tauto.
Qed.

(** C9. The table of the extractor never holds the same row twice: a row
    equal to an earlier one is dropped and the earlier one stays, so when
    two qualifying lines give the same five fields the table has strictly
    fewer rows than there are qualifying lines. *)
Theorem extractor_drops_repeated_rows (doc : pdf) :
  NoDup (data (read_pdf doc)) /\
  (forall row, In row (candidates doc) -> In row (data (read_pdf doc))) /\
  (forall rows r,
      dedup_from [] (rows ++ [r]) =
      if existsb (row_same r) rows then dedup_from [] rows
      else dedup_from [] rows ++ [r]) /\
  (forall l1 r l2 l3,
      candidates doc = l1 ++ r :: l2 ++ r :: l3 ->
      (List.length (data (read_pdf doc)) < List.length (candidates doc))%nat).
Proof.
  repeat split.
  - rewrite read_pdf_data. apply dedup_from_nodup. constructor.
  - intros row H. rewrite read_pdf_data. apply dedup_from_in. now right.
  - intros rows r. apply (dedup_from_snoc [] rows r).
  - intros l1 r l2 l3 E. rewrite read_pdf_data, E.
    apply (dedup_from_repeat [] l1 r l2 l3).
Qed.

Lemma extractor_drops_repeated_rows_witness :
  let doc := [Some "01-02-2024 ATM 500.00 0.00 9,500.00";
              Some "01-02-2024 ATM 500.00 0.00 9,500.00"] in
  let row := [CStr "01-02-2024"; CStr "ATM"; CStr "500.00"; CStr "0.00";
              CStr "9,500.00"] in
  candidates doc = [] ++ row :: [] ++ row :: [] /\
  In row (candidates doc) /\
  In row (data (read_pdf doc)) /\
  (List.length (data (read_pdf doc)) < List.length (candidates doc))%nat.
Proof.
  cbv zeta. split; [reflexivity|]. split; [left; reflexivity|]. split.
  - apply (proj1 (proj2 (extractor_drops_repeated_rows
             [Some "01-02-2024 ATM 500.00 0.00 9,500.00";
              Some "01-02-2024 ATM 500.00 0.00 9,500.00"]))).
    left. reflexivity.
  - exact (proj2 (proj2 (proj2 (extractor_drops_repeated_rows
             [Some "01-02-2024 ATM 500.00 0.00 9,500.00";
              Some "01-02-2024 ATM 500.00 0.00 9,500.00"])))
           [] _ [] [] eq_refl).
Defined.

(** ** The numeric normalizer *)

Local Open Scope string_scope.

Lemma remove_char_app (x : ascii) (s1 s2 : string) :
  remove_char x (s1 ++ s2) = remove_char x s1 ++ remove_char x s2.
Proof.
  induction s1 as [|c s1 IH]; simpl; [reflexivity|].
  destruct (Ascii.eqb c x); simpl; now rewrite IH.
Qed.

Lemma rev_str_snoc (acc s : string) (c : ascii) :
  rev_str acc (s ++ String c "") = String c (rev_str acc s).
Proof.
  revert acc. induction s as [|a s IH]; intros acc; simpl; [reflexivity|apply IH].
Qed.

Lemma rstrip_snoc (p : ascii -> bool) (s : string) (c : ascii) :
  p c = false -> rstrip_by p (s ++ String c "") = s ++ String c "".
Proof.
  intros Hc. induction s as [|a s IH]; simpl.
  - now rewrite Hc.
  - rewrite IH. destruct s; reflexivity.
Qed.

Lemma substring_prefix (s t : string) : substring 0 (String.length s) (s ++ t) = s.
Proof.
  induction s as [|a s IH]; simpl.
  - destruct t; reflexivity.
  - now rewrite IH.
Qed.

Lemma length_snoc (s : string) (c : ascii) :
  String.length (s ++ String c "") = S (String.length s).
Proof. induction s as [|a s IH]; simpl; [reflexivity|now rewrite IH]. Qed.

(** The text between the parentheses of a wrapped token reaches [float]
    unchanged but for its commas. *)
Lemma wrapped_token (body : string) :
  let s := strip (remove_char "," ("(" ++ body ++ ")")) in
  is_empty s = false /\
  (startswith "(" s && endswith ")" s)%bool = true /\
  slice_1_m1 s = remove_char "," body.
Proof.
  cbv zeta. rewrite !remove_char_app.
  change (remove_char "," "(") with "(". change (remove_char "," ")") with ")".
  set (b := remove_char "," body).
  assert (strip ("(" ++ b ++ ")") = "(" ++ b ++ ")") as ->.
  { unfold strip. cbn [append lstrip_by]. change (isspace "(") with false. cbv iota.
    change (String "(" (b ++ ")")) with (String "(" b ++ ")").
    now apply rstrip_snoc. }
  split; [reflexivity|]. split.
  - cbn [append startswith]. rewrite Ascii.eqb_refl. cbn [andb].
    unfold endswith, reverse.
    change (String "(" (b ++ ")")) with (String "(" b ++ ")").
    rewrite rev_str_snoc. reflexivity.
  - cbn [append slice_1_m1]. rewrite length_snoc. cbn [Nat.sub].
    rewrite Nat.sub_0_r. apply substring_prefix.
Qed.

(** C6. [_num] is a total function of the string: commas are dropped
    before anything else; a token wrapped in parentheses gives the negation
    of what [float] reads between them; text that [float] rejects gives a
    zero (equal to 0.0, and 0.0 itself when the token is not wrapped); and
    on the four sample tokens it gives 1234.50, -500.0, 0.0 and 0.0. *)
Theorem num_normalizer :
  (forall s1 s2, _num (s1 ++ "," ++ s2) = _num (s1 ++ s2)) /\
  (forall body,
      _num ("(" ++ body ++ ")") =
      neg (match float_of_str (remove_char "," body) with
           | Some v => v
           | None => zero
           end)) /\
  (forall s,
      let t := strip (remove_char "," s) in
      let wrapped := (startswith "(" t && endswith ")" t)%bool in
      float_of_str (if wrapped then slice_1_m1 t else t) = None ->
      eqb (_num s) zero = true /\ (wrapped = false -> _num s = zero)) /\
  _num "1,234.50" = of_decimal false 123450 (-2) /\
  _num "(500.00)" = neg (of_decimal false 500 0) /\
  _num "" = zero /\
  _num "abc" = zero.
Proof.
  split; [|split; [|split]].
  - intros s1 s2. unfold _num. rewrite !remove_char_app.
    reflexivity.
  - intros body. destruct (wrapped_token body) as (He & Hw & Hs).
    unfold _num. rewrite He, Hw, Hs. reflexivity.
  - intros s t wrapped Hf. unfold _num. fold t.
    destruct (is_empty t); [split; reflexivity|].
    fold wrapped. rewrite Hf. destruct wrapped; split; try reflexivity.
    discriminate.
  - vm_compute. repeat split.
Qed.

Lemma num_normalizer_witness :
  float_of_str "abc" = None /\ eqb (_num "abc") zero = true /\ _num "abc" = zero.
Proof.
  split; [reflexivity|].
  destruct (proj1 (proj2 (proj2 num_normalizer)) "abc" eq_refl) as [H1 H2].
  split; [exact H1|exact (H2 eq_refl)].
Defined.

(** A wrapped token that [float] rejects gives -0.0, which equals 0.0. *)
Example num_wrapped_unparsable :
  _num "(abc)" = neg_zero /\ eqb neg_zero zero = true.
Proof. split; reflexivity. Qed.

(** ** The date normalizer *)

Lemma first_date_none (raw : string) (fmts : list string) :
  (forall fmt, In fmt fmts -> strptime raw fmt = None) -> first_date raw fmts = raw.
Proof.
  induction fmts as [|fmt fmts IH]; intros H; simpl; [reflexivity|].
  rewrite (H fmt (or_introl eq_refl)). apply IH. intros f Hf. apply H. now right.
Qed.

Lemma first_date_first (raw : string) (pre : list string) (fmt : string)
      (post : list string) (d : date) :
  (forall f, In f pre -> strptime raw f = None) ->
  strptime raw fmt = Some d ->
  first_date raw (pre ++ fmt :: post)%list = isoformat d.
Proof.
  induction pre as [|p pre IH]; intros Hpre Hfmt; simpl.
  - now rewrite Hfmt.
  - rewrite (Hpre p (or_introl eq_refl)). apply IH; [|exact Hfmt].
    intros f Hf. apply Hpre. now right.
Qed.

Lemma digit_char_isdigit (n : Z) : isdigit (digit_char n) = true.
Proof.
  unfold digit_char. pose proof (Z.mod_pos_bound n 10 eq_refl) as B.
  assert (n mod 10 = 0 \/ n mod 10 = 1 \/ n mod 10 = 2 \/ n mod 10 = 3 \/
          n mod 10 = 4 \/ n mod 10 = 5 \/ n mod 10 = 6 \/ n mod 10 = 7 \/
          n mod 10 = 8 \/ n mod 10 = 9)%Z as H by lia.
  repeat (destruct H as [H|H]; [rewrite H; reflexivity|]).
  rewrite H. reflexivity.
Qed.

(** The shape of [isoformat]: four digits, two digits, two digits. *)
Lemma isoformat_shape (d : date) :
  exists y1 y2 y3 y4 m1 m2 d1 d2,
    isoformat d =
      String y1 (String y2 (String y3 (String y4 (String "-"
        (String m1 (String m2 (String "-" (String d1 (String d2 "")))))))))
    /\ forallb isdigit [y1; y2; y3; y4; m1; m2; d1; d2] = true.
Proof.
  unfold isoformat, pad4, pad2. do 8 eexists. split; [reflexivity|].
  cbn [forallb]. rewrite !digit_char_isdigit. reflexivity.
Qed.

(** C7. [_norm_date] trims the text and tries %d-%m-%Y, %d/%m/%Y, %Y-%m-%d
    and %Y/%m/%d in this order: the first format that parses decides and
    its date comes out as YYYY-MM-DD; when none parses the trimmed text
    comes back as it is.  It is a total function, and the three sample
    texts give "2024-01-31", "2024-01-31" and "not-a-date". *)
Theorem norm_date_first_format_wins (raw : string) :
  date_formats = ["%d-%m-%Y"; "%d/%m/%Y"; "%Y-%m-%d"; "%Y/%m/%d"]%list /\
  (forall pre fmt post d,
      date_formats = (pre ++ fmt :: post)%list ->
      (forall f, In f pre -> strptime (strip raw) f = None) ->
      strptime (strip raw) fmt = Some d ->
      _norm_date raw = isoformat d) /\
  ((forall fmt, In fmt date_formats -> strptime (strip raw) fmt = None) ->
   _norm_date raw = strip raw) /\
  _norm_date "31-01-2024" = "2024-01-31" /\
  _norm_date "2024/01/31" = "2024-01-31" /\
  _norm_date "not-a-date" = "not-a-date".
Proof.
  split; [reflexivity|]. split; [|split].
  - intros pre fmt post d E Hpre Hfmt. unfold _norm_date. rewrite E.
    now apply first_date_first.
  - intros H. unfold _norm_date. now apply first_date_none.
  - vm_compute. repeat split.
Qed.

Lemma norm_date_first_format_wins_witness :
  strptime (strip " 2024/01/31 ") "%Y/%m/%d" = Some (mkdate 2024 1 31) /\
  _norm_date " 2024/01/31 " = isoformat (mkdate 2024 1 31) /\
  _norm_date " no date " = strip " no date ".
Proof.
  split; [reflexivity|]. split.
  - apply (proj1 (proj2 (norm_date_first_format_wins " 2024/01/31 "))
            ["%d-%m-%Y"; "%d/%m/%Y"; "%Y-%m-%d"]%list "%Y/%m/%d" []%list
            (mkdate 2024 1 31)).
    + reflexivity.
    + intros f [<-|[<-|[<-|[]]]]; reflexivity.
    + reflexivity.
  - apply (proj1 (proj2 (proj2 (norm_date_first_format_wins " no date ")))).
    intros f [<-|[<-|[<-|[<-|[]]]]]; reflexivity.
Defined.

(** ** Amounts of a table-like line *)

Local Open Scope list_scope.

(** Before the amounts are assigned the Debit, Credit and Amount cells of
    the row are still None. *)
Lemma base_row_numeric sc date_tok desc_tok nums col c :
  wf_facts sc ->
  col = col_debit sc \/ col = col_credit sc \/ col = col_amount sc ->
  col = Some c ->
  dict_get (base_row sc date_tok desc_tok nums) c = Some CNone.
Proof.
  intros W Hcol E. rewrite base_row_get.
  assert (is_col (col_balance sc) c = false
          /\ is_col (col_desc sc) c = false
          /\ is_col (col_date sc) c = false
          /\ existsb (String.eqb c) (expected_cols sc) = true) as (H1 & H2 & H3 & H4).
  { destruct Hcol as [-> | [-> | ->]]; repeat split;
      first [ eapply is_col_other; [|exact E]; rewrite differ_sym; apply W
            | eapply is_col_other; [|exact E]; apply W
            | eapply role_in_cols; [|exact E]; apply W ]. }
  rewrite H1, H2, H3, H4. reflexivity.
Qed.

Lemma defaulted_num (o : option cell) (v : float) :
  o = Some (CNum v) -> defaulted o = Some (CNum v).
Proof. intros ->. reflexivity. Qed.

(** The last loop leaves a cell that already holds a number as it is. *)
Lemma fill_defaults_keeps sc row :
  wf_facts sc -> covers row (expected_cols sc) ->
  exists row',
    fill_defaults (num_cols sc) row = Ok row' /\
    (forall k v, dict_get row k = Some (CNum v) -> dict_get row' k = Some (CNum v)) /\
    (forall k, names (num_cols sc) k = true ->
               dict_get row k = Some CNone -> dict_get row' k = Some (CNum zero)).
Proof.
  intros W C.
  destruct (fill_defaults_spec (num_cols sc) row) as (row' & E & G).
  { now apply num_cols_covered. }
  exists row'. split; [exact E|]. split.
  - intros k v H. rewrite G, H. now destruct (names (num_cols sc) k).
  - intros k Hn H. now rewrite G, Hn, H.
Qed.

Lemma truthy_role (cols : list string) (col : option string) (c : string) :
  role_ok cols col = true -> col = Some c -> truthy col = true.
Proof.
  intros H E. destruct (role_ok_elim _ _ _ H E) as [Hne _]. subst col.
  simpl. now rewrite Hne.
Qed.

(** C1, amended. Under a schema with a Debit column [d] and a Credit
    column [c], when the two numbers [a], [b] before the balance both have
    magnitude at least 1e-9 and neither is negative: a credit keyword in
    the description puts max(a,b) in Credit and leaves Debit 0.0; otherwise
    a debit keyword puts max(a,b) in Debit and leaves Credit 0.0; with no
    keyword Debit gets [a] and Credit 0.0. *)
Theorem both_nonzero_routing
        (sc : schema) (d c date_tok desc_tok : string)
        (nums : list float) (a b : float) (rest : list float) :
  wf_schema sc = true ->
  col_debit sc = Some d -> col_credit sc = Some c ->
  remaining_of nums = a :: b :: rest ->
  leb eps (fabs a) = true -> leb eps (fabs b) = true ->
  ltb a zero = false -> ltb b zero = false ->
  exists row,
    fill_from sc date_tok desc_tok nums = Ok row /\
    if any_in credit_keywords (desc_text sc desc_tok) then
      dict_get row c = Some (CNum (max a b)) /\ dict_get row d = Some (CNum zero)
    else if any_in debit_keywords (desc_text sc desc_tok) then
      dict_get row d = Some (CNum (max a b)) /\ dict_get row c = Some (CNum zero)
    else
      dict_get row d = Some (CNum a) /\ dict_get row c = Some (CNum zero).
Proof.
  intros Hwf Ed Ec Hrem Ha Hb Hna Hnb.
  pose proof (wf_elim _ Hwf) as W.
  rewrite fill_from_unfold, Hrem.
  destruct (assign_amounts_two sc date_tok desc_tok nums (a :: b :: rest) W)
    as (row3 & E3 & C3 & G3).
  { rewrite (truthy_role _ _ _ (wf_debit _ W) Ed). apply andb_false_r. }
  rewrite E3. cbn [bind].
  (* the cells of the defaulted row *)
  assert (is_col (col_debit sc) d = true) as Dd
      by exact (is_col_same _ _ _ (wf_debit _ W) Ed).
  assert (is_col (col_credit sc) c = true) as Cc
      by exact (is_col_same _ _ _ (wf_credit _ W) Ec).
  assert (is_col (col_credit sc) d = false) as Cd
      by exact (is_col_other _ _ _ (wf_debit_credit _ W) Ed).
  assert (is_col (col_debit sc) c = false) as Dc.
  { eapply is_col_other; [|exact Ec]. rewrite differ_sym. apply W. }
  assert (dict_get row3 d = Some (CNum zero)) as G3d.
  { rewrite G3, Dd. cbn [orb].
    now rewrite (base_row_numeric sc _ _ _ _ d W (or_introl eq_refl) Ed). }
  assert (dict_get row3 c = Some (CNum zero)) as G3c.
  { rewrite G3, Cc, orb_true_r.
    now rewrite (base_row_numeric sc _ _ _ _ c W (or_intror (or_introl eq_refl)) Ec). }
  (* the branch taken *)
  unfold route_amounts.
  rewrite (leb_not_ltb _ _ Ha), (leb_not_ltb _ _ Hb), Hna, Hnb. cbn [andb orb].
  set (desc := desc_text sc desc_tok).
  destruct (any_in credit_keywords desc);
    [|destruct (any_in debit_keywords desc)].
  all: match goal with
       | [ |- exists row, fill_defaults _ ?r = Ok row /\ _ ] =>
           destruct (fill_defaults_keeps sc r W) as (row' & E' & K & _);
           [repeat apply covers_set_if; exact C3|];
           exists row'; split; [exact E'|]
       end.
  all: split; apply K; rewrite !get_set_if;
    rewrite ?Dd, ?Cc, ?Cd, ?Dc; try reflexivity; assumption.
Qed.

Lemma both_nonzero_routing_witness :
  exists row,
    fill_from icici "01-02-2024" "ATM Withdrawal"
              [_num "100.00"; _num "200.00"; _num "8,000.00"] = Ok row /\
    dict_get row "Debit Amt" = Some (CNum (max (_num "100.00") (_num "200.00"))) /\
    dict_get row "Credit Amt" = Some (CNum zero).
Proof.
  exact (both_nonzero_routing icici "Debit Amt" "Credit Amt"
           "01-02-2024" "ATM Withdrawal"
           [_num "100.00"; _num "200.00"; _num "8,000.00"]
           (_num "100.00") (_num "200.00") []
           eq_refl eq_refl eq_refl eq_refl eq_refl eq_refl eq_refl eq_refl).
Defined.

(** C1 as stated fails: with the debit keywords "atm" and "withdrawal", no
    credit keyword and the numbers 100.00 and 200.00, Debit receives
    max(a,b) = 200.00 and not a = 100.00. *)
Lemma debit_keyword_takes_max :
  let a := _num "100.00" in
  let b := _num "200.00" in
  leb eps (fabs a) = true /\ leb eps (fabs b) = true /\
  ltb a zero = false /\ ltb b zero = false /\
  any_in credit_keywords (lower "ATM Withdrawal") = false /\
  any_in debit_keywords (lower "ATM Withdrawal") = true /\
  exists row,
    _try_rows icici ["01-02-2024  ATM Withdrawal  100.00  200.00  8,000.00"]
      = Ok [row] /\
    dict_get row "Debit Amt" = Some (CNum b) /\
    dict_get row "Debit Amt" <> Some (CNum a).
Proof.
  cbv zeta. repeat split; try reflexivity.
  eexists. split; [vm_compute; reflexivity|]. split; [reflexivity|].
  vm_compute. discriminate.
Qed.

(** ** The last number of a table-like line *)

Lemma remaining_of_snoc (ns : list float) (x : float) :
  remaining_of (ns ++ [x]) = ns.
Proof.
  unfold remaining_of. destruct (ns ++ [x]) eqn:E.
  - destruct ns; discriminate.
  - rewrite <- E. apply removelast_last.
Qed.

Lemma base_row_no_balance sc date_tok desc_tok nums nums' :
  col_balance sc = None ->
  base_row sc date_tok desc_tok nums = base_row sc date_tok desc_tok nums'.
Proof.
  intros Hb. unfold base_row. rewrite Hb. cbn [set_if].
  destruct nums, nums'; reflexivity.
Qed.

Lemma names_in (ncs : list string) (c : string) :
  In c ncs -> is_empty c = false -> names ncs c = true.
Proof.
  intros Hin Hne. unfold names. apply existsb_exists. exists c.
  split; [exact Hin|]. now rewrite Hne, String.eqb_refl.
Qed.

(** With no Balance role and a single number, every numeric cell of the
    row ends as 0.0. *)
Lemma single_number_all_zero sc date_tok desc_tok x :
  wf_schema sc = true -> col_balance sc = None ->
  exists row,
    fill_from sc date_tok desc_tok [x] = Ok row /\
    forall c, In c (num_cols sc) -> dict_get row c = Some (CNum zero).
Proof.
  intros Hwf Hbal. pose proof (wf_elim _ Hwf) as W.
  rewrite fill_from_unfold. cbn [remaining_of removelast].
  set (base := base_row sc date_tok desc_tok [x]).
  assert (forall c, In c (num_cols sc) ->
                    is_empty c = false /\ dict_get base c = Some CNone) as Hbase.
  { intros c Hc. rewrite (wf_num_cols _ W) in Hc.
    destruct (present_nonempty _ _ Hc) as [Hne Hrole]. split; [exact Hne|].
    simpl in Hrole. destruct Hrole as [E|[E|[E|[E|[]]]]].
    - exact (base_row_numeric sc _ _ _ _ c W (or_introl eq_refl) E).
    - exact (base_row_numeric sc _ _ _ _ c W (or_intror (or_introl eq_refl)) E).
    - exact (base_row_numeric sc _ _ _ _ c W (or_intror (or_intror eq_refl)) E).
    - congruence. }
  destruct (truthy (col_amount sc)
            && negb (truthy (col_debit sc) || truthy (col_credit sc)))%bool eqn:Hbr.
  - unfold assign_amounts. rewrite Hbr. cbn [bind].
    destruct (fill_defaults_keeps sc base W) as (row' & E' & _ & K);
      [apply covers_base_row|].
    exists row'. split; [exact E'|]. intros c Hc.
    destruct (Hbase c Hc) as [Hne Hget]. apply K; [|exact Hget].
    now apply names_in.
  - destruct (assign_amounts_two sc date_tok desc_tok [x] [] W Hbr)
      as (row3 & E3 & C3 & G3).
    fold base in E3, G3. rewrite E3. cbn [bind route_amounts].
    destruct (fill_defaults_spec (num_cols sc) row3) as (row' & E' & G').
    { now apply num_cols_covered. }
    exists row'. split; [exact E'|]. intros c Hc.
    destruct (Hbase c Hc) as [Hne Hget].
    rewrite G', (names_in _ _ Hc Hne), G3, Hget.
    destruct (is_col (col_debit sc) c || is_col (col_credit sc) c)%bool; reflexivity.
Qed.

Lemma keep_all_zero sc row :
  (forall c, In c (num_cols sc) -> dict_get row c = Some (CNum zero)) ->
  keep sc row = false.
Proof.
  intros H. unfold keep. destruct (existsb _ (num_cols sc)) eqn:E; [|reflexivity].
  apply existsb_exists in E. destruct E as (c & Hc & Hnz).
  unfold nonzero_at in Hnz. rewrite (H c Hc) in Hnz.
  apply andb_true_iff in Hnz. destruct Hnz as [_ Hnz]. discriminate.
Qed.

(** C10. Under every generated schema without a Balance role, the last
    numeric token of a table-like line takes no part in the row: the
    amounts come from the numbers before it alone, whatever its value, and
    a line with exactly one number leaves every numeric column at 0.0 and
    so yields no row. *)
Theorem last_number_is_dropped (sc : schema) :
  wf_schema sc = true -> col_balance sc = None ->
  (forall ns x, remaining_of (ns ++ [x]) = ns) /\
  (forall date_tok desc_tok ns x y,
      fill_from sc date_tok desc_tok (ns ++ [x]) =
      fill_from sc date_tok desc_tok (ns ++ [y])) /\
  (forall date_tok desc_tok x,
      exists row,
        fill_from sc date_tok desc_tok [x] = Ok row /\
        (forall c, In c (num_cols sc) -> dict_get row c = Some (CNum zero)) /\
        keep sc row = false) /\
  (forall ln x,
      gather_nums (skipn 2 (re_split gap (strip ln))) = [x] ->
      positional_rows sc ln = Ok []).
Proof.
  intros Hwf Hbal. split; [exact remaining_of_snoc|]. split; [|split].
  - intros date_tok desc_tok ns x y. rewrite !fill_from_unfold.
    rewrite !remaining_of_snoc.
    now rewrite (base_row_no_balance sc _ _ (ns ++ [x]) (ns ++ [y]) Hbal).
  - intros date_tok desc_tok x.
    destruct (single_number_all_zero sc date_tok desc_tok x Hwf Hbal) as (row & E & Z).
    exists row. split; [exact E|]. split; [exact Z|]. now apply keep_all_zero.
  - intros ln x Hnums. unfold positional_rows, positional_fill.
    destruct (Nat.leb 3 _); [|reflexivity].
    destruct (matches date_token _); [|reflexivity].
    rewrite Hnums.
    match goal with
    | [ |- context [fill_from sc ?a ?b [x]] ] =>
        destruct (single_number_all_zero sc a b x Hwf Hbal) as (row & -> & Z)
    end.
    cbn [bind]. now rewrite (keep_all_zero sc row Z).
Qed.

Lemma last_number_is_dropped_witness :
  let sc := guess_parser_body ["Date"; "Description"; "Debit Amt"; "Credit Amt"] "" in
  wf_schema sc = true /\ col_balance sc = None /\
  gather_nums (skipn 2 (re_split gap (strip "01-02-2024  ATM Withdrawal  500.00")))
    = [_num "500.00"] /\
  positional_rows sc "01-02-2024  ATM Withdrawal  500.00" = Ok [].
Proof.
  cbv zeta. split; [reflexivity|]. split; [reflexivity|]. split; [reflexivity|].
  exact (proj2 (proj2 (proj2
           (last_number_is_dropped
              (guess_parser_body ["Date"; "Description"; "Debit Amt"; "Credit Amt"] "")
              eq_refl eq_refl)))
         "01-02-2024  ATM Withdrawal  500.00" (_num "500.00") eq_refl).
Defined.

(* ================================================================== *)
(** * Further properties of the code *)
(* ================================================================== *)

(** ** Role resolution *)

Local Open Scope list_scope.

Lemma mem_iff (n : string) (cols : list string) :
  existsb (String.eqb n) cols = true <-> In n cols.
Proof.
  rewrite existsb_exists. split.
  - intros (x & Hx & E). apply String.eqb_eq in E. now subst.
  - intros H. exists n. split; [exact H|apply String.eqb_refl].
Qed.

Lemma pick_some (cols names : list string) (n : string) :
  _pick cols names = Some n <->
  exists pre post,
    names = pre ++ n :: post /\ In n cols /\ forall m, In m pre -> ~ In m cols.
Proof.
  induction names as [|a names IH]; simpl.
  - split; [discriminate|]. intros (pre & post & E & _). destruct pre; discriminate.
  - destruct (existsb (String.eqb a) cols) eqn:Ea.
    + apply mem_iff in Ea. split.
      * intros H. injection H as <-. exists [], names. repeat split; [exact Ea|].
        intros m [].
      * intros (pre & post & E & Hn & Hpre). destruct pre as [|p pre].
        -- injection E as -> _. reflexivity.
        -- injection E as -> _. exfalso. apply (Hpre p); [now left|exact Ea].
    + assert (~ In a cols) as Ha.
      { intros H. apply mem_iff in H. congruence. }
      rewrite IH. split.
      * intros (pre & post & -> & Hn & Hpre). exists (a :: pre), post.
        repeat split; [exact Hn|]. intros m [<-|Hm]; [exact Ha|now apply Hpre].
      * intros (pre & post & E & Hn & Hpre). destruct pre as [|p pre].
        -- injection E as -> _. contradiction.
        -- injection E as -> ->. exists pre, post. repeat split; [exact Hn|].
           intros m Hm. apply Hpre. now right.
Qed.

Lemma pick_none (cols names : list string) :
  _pick cols names = None <-> forall m, In m names -> ~ In m cols.
Proof.
  induction names as [|a names IH]; simpl.
  - split; [intros _ m []|reflexivity].
  - destruct (existsb (String.eqb a) cols) eqn:Ea.
    + apply mem_iff in Ea. split; [discriminate|].
      intros H. exfalso. apply (H a); [now left|exact Ea].
    + rewrite IH. split.
      * intros H m [<-|Hm]; [|now apply H].
        intros Hin. apply mem_iff in Hin. congruence.
      * intros H m Hm. apply H. now right.
Qed.

(** X1. [_pick] returns the first of the accepted names that is a column:
    a name is returned exactly when it is a column and no name before it in
    the list is one, and nothing is returned exactly when none of the names
    is a column. *)
Theorem pick_first_accepted_name (cols names : list string) :
  (forall n,
      _pick cols names = Some n <->
      exists pre post,
        names = pre ++ n :: post /\ In n cols /\
        forall m, In m pre -> ~ In m cols) /\
  (_pick cols names = None <-> forall m, In m names -> ~ In m cols).
Proof. split; [intros n; apply pick_some|apply pick_none]. Qed.

Lemma present_in (l : list (option string)) (c : string) :
  In (Some c) l -> is_empty c = false -> In c (present l).
Proof.
  induction l as [|[s|] l IH]; simpl; [contradiction| |].
  - intros [E|H] Hne.
    + injection E as ->. rewrite Hne. now left.
    + destruct (is_empty s); [now apply IH|right; now apply IH].
  - intros [E|H] Hne; [discriminate|now apply IH].
Qed.

Lemma all_differ_nodup (l : list (option string)) :
  all_differ l = true -> NoDup (present l).
Proof.
  induction l as [|x l IH]; simpl; [constructor|].
  intros H. apply andb_true_iff in H. destruct H as [Hx Hl].
  destruct x as [s|]; [|now apply IH].
  destruct (is_empty s); [now apply IH|].
  constructor; [|now apply IH].
  intros Hin. destruct (present_nonempty _ _ Hin) as [_ Hs].
  rewrite forallb_forall in Hx. specialize (Hx _ Hs). simpl in Hx.
  now rewrite String.eqb_refl in Hx.
Qed.

(** X2. Whatever the columns of the expected table, [guess_parser_body]
    keeps them as [expected_cols]; every role it resolves is one of the
    names accepted for that role and a column of the table; no column is
    given two roles; and [num_cols] lists the Debit, Credit, Amount and
    Balance columns found, in this order. *)
Theorem guess_parser_body_roles (cols : list string) (pdf_text : string) :
  let sc := guess_parser_body cols pdf_text in
  expected_cols sc = cols /\
  (forall role names c,
      In (role, names)
         [ (col_date sc, ["Date"; "Txn Date"; "Transaction Date"]);
           (col_desc sc, ["Description"; "Narration"; "Details"]);
           (col_debit sc, ["Debit Amt"; "Debit"; "Withdrawal"; "Dr"]);
           (col_credit sc, ["Credit Amt"; "Credit"; "Deposit"; "Cr"]);
           (col_amount sc, ["Amount"; "Amt"]);
           (col_balance sc, ["Balance"; "Closing Balance"; "Bal"]) ]%string ->
      role = Some c -> In c names /\ In c cols) /\
  NoDup (present [col_date sc; col_desc sc; col_debit sc; col_credit sc;
                  col_amount sc; col_balance sc]) /\
  num_cols sc =
    present [col_debit sc; col_credit sc; col_amount sc; col_balance sc] /\
  (forall c, In c (num_cols sc) -> In c cols).
Proof.
  cbv zeta. split; [reflexivity|]. split; [|split; [|split]].
  - intros role names c Hin E.
    match type of Hin with
    | In _ ?l =>
        assert (Forall (fun p => fst p = _pick cols (snd p)) l) as Hall
            by (repeat constructor)
    end.
    rewrite Forall_forall in Hall. specialize (Hall _ Hin).
    cbn [fst snd] in Hall. rewrite Hall in E.
    destruct (_pick_elim _ _ _ E) as [Hn Hc].
    split; [exact Hn|now apply mem_iff].
  - apply all_differ_nodup.
    pose proof (guess_parser_body_wf cols pdf_text) as H.
    unfold wf_schema in H. apply andb_true_iff in H. destruct H as [H _].
    apply andb_true_iff in H. exact (proj2 H).
  - reflexivity.
  - intros c Hc. unfold guess_parser_body in Hc. cbn [num_cols] in Hc.
    destruct (present_nonempty _ _ Hc) as [_ Hrole]. cbn [In] in Hrole.
    destruct Hrole as [E|[E|[E|[E|[]]]]];
      apply mem_iff; exact (proj2 (_pick_elim _ _ _ E)).
Qed.

Lemma guess_parser_body_roles_witness :
  let sc := guess_parser_body ["Txn Date"; "Details"; "Dr"; "Cr"; "Bal"]%string
                              ""%string in
  col_debit sc = Some "Dr"%string /\
  In "Dr"%string ["Debit Amt"; "Debit"; "Withdrawal"; "Dr"]%string /\
  In "Dr"%string ["Txn Date"; "Details"; "Dr"; "Cr"; "Bal"]%string /\
  In "Bal"%string ["Txn Date"; "Details"; "Dr"; "Cr"; "Bal"]%string.
Proof.
  cbv zeta. split; [reflexivity|].
  pose proof (guess_parser_body_roles
                ["Txn Date"; "Details"; "Dr"; "Cr"; "Bal"]%string ""%string) as H.
  cbv zeta in H. destruct H as (_ & Hrole & _ & _ & Hnum).
  destruct (Hrole _ _ "Dr"%string
              (or_intror (or_intror (or_introl eq_refl))) eq_refl) as [H1 H2].
  split; [exact H1|]. split; [exact H2|].
  apply Hnum. simpl. auto.
Defined.

(** ** [main]: the flag as it is really computed *)

Lemma guess_parser_body_obj_str (cols : list string) (s : string) :
  guess_parser_body_obj cols (OStr s) = guess_parser_body cols s.
Proof. reflexivity. Qed.

(** X3. In [main] the statement text handed to [guess_parser_body] is the
    DataFrame of [extract_text], on which [in] looks among the five column
    labels.  So for every PDF and every expected table the generated
    constants have [uses_type = False], they are those of a statement text
    without any flag, and the generated [_try_rows] treats every line by the
    table-like fallback alone. *)
Theorem main_never_sets_flag
        (open_pdf : string -> result pdf) (pdf_path : string)
        (cols : list string) (sc : schema) :
  main_generate open_pdf pdf_path cols = Ok sc ->
  uses_type sc = false /\
  sc = guess_parser_body cols EmptyString /\
  forall ln, line_rows sc ln = positional_rows sc ln.
Proof.
  unfold main_generate, extract_text.
  destruct (open_pdf pdf_path) as [doc|e]; cbn [bind]; [|discriminate].
  intros H. injection H as <-.
  assert (guess_parser_body_obj cols (OFrame (read_pdf doc))
          = guess_parser_body cols EmptyString) as -> by reflexivity.
  split; [reflexivity|]. split; [reflexivity|]. intros ln. reflexivity.
Qed.

Lemma main_never_sets_flag_witness :
  let open_pdf := fun _ : string =>
    Ok [Some "01-02-2024 Salary Credit CR 5,000.00 10,000.00"%string] in
  let cols := ["Date"; "Description"; "Debit Amt"; "Credit Amt"; "Balance"]%string in
  exists sc,
    main_generate open_pdf "data/icici/icici sample.pdf"%string cols = Ok sc /\
    uses_type sc = false /\ sc = icici.
Proof.
  cbv zeta. eexists. split; [reflexivity|].
  split.
  - exact (proj1 (main_never_sets_flag
             (fun _ => Ok [Some "01-02-2024 Salary Credit CR 5,000.00 10,000.00"%string])
             "data/icici/icici sample.pdf"%string
             ["Date"; "Description"; "Debit Amt"; "Credit Amt"; "Balance"]%string
             _ eq_refl)).
  - reflexivity.
Defined.

(** ** Shape of the rows *)

Lemma dict_get_none (d : dict) (k : string) :
  dict_get d k = None <-> ~ In k (map fst d).
Proof.
  induction d as [|[k' v] d IH]; simpl; [tauto|].
  destruct (String.eqb k' k) eqn:E.
  - apply String.eqb_eq in E. split; [discriminate|]. intros H. exfalso. auto.
  - apply String.eqb_neq in E. rewrite IH. tauto.
Qed.

Lemma dict_set_keys_present (d : dict) (k : string) (v : cell) :
  dict_get d k <> None -> map fst (dict_set d k v) = map fst d.
Proof.
  induction d as [|[k' v'] d IH]; simpl; [congruence|].
  destruct (String.eqb k' k) eqn:E; simpl; [reflexivity|].
  intros H. now rewrite IH.
Qed.

Lemma dict_set_keys_new (d : dict) (k : string) (v : cell) :
  dict_get d k = None -> map fst (dict_set d k v) = map fst d ++ [k].
Proof.
  induction d as [|[k' v'] d IH]; simpl; [reflexivity|].
  destruct (String.eqb k' k) eqn:E; simpl; [discriminate|].
  intros H. now rewrite IH.
Qed.

Lemma dict_of_keys_keys_from (cols : list string) (d : dict) :
  NoDup (map fst d ++ cols) ->
  map fst (fold_left (fun d c => dict_set d c CNone) cols d) = map fst d ++ cols.
Proof.
  revert d. induction cols as [|c cols IH]; intros d Hnd; simpl.
  - now rewrite app_nil_r.
  - assert (dict_get d c = None) as Hc.
    { apply dict_get_none. intros Hin.
      apply NoDup_remove_2 in Hnd. apply Hnd. apply in_or_app. now left. }
    rewrite IH; rewrite (dict_set_keys_new _ _ _ Hc).
    + now rewrite <- app_assoc.
    + now rewrite <- app_assoc.
Qed.

Lemma dict_of_keys_keys (cols : list string) :
  NoDup cols -> map fst (dict_of_keys cols) = cols.
Proof. intros H. unfold dict_of_keys. now rewrite dict_of_keys_keys_from. Qed.

Lemma inv_covers sc row : row_inv sc row -> covers row (expected_cols sc).
Proof.
  intros [Hk _] k Hin. apply mem_iff in Hin. rewrite <- Hk in Hin.
  intros Hnone. now apply dict_get_none in Hnone.
Qed.

Lemma inv_dict_set_num sc row k v :
  row_inv sc row -> In k (expected_cols sc) ->
  row_inv sc (dict_set row k (CNum v)).
Proof.
  intros I Hk. split.
  - rewrite dict_set_keys_present; [apply I|].
    apply (inv_covers _ _ I). now apply mem_iff.
  - intros c Hc. rewrite dict_get_set.
    destruct (String.eqb k c); [exact Logic.I|now apply I].
Qed.

Lemma inv_set_if_num sc row col v :
  role_ok (expected_cols sc) col = true ->
  row_inv sc row -> row_inv sc (set_if col (CNum v) row).
Proof.
  intros Hrole I. destruct col as [c|] eqn:E; simpl; [|exact I].
  destruct (is_empty c) eqn:Ee; [exact I|].
  apply inv_dict_set_num; [exact I|].
  apply mem_iff. exact (proj2 (role_ok_elim _ _ _ Hrole eq_refl)).
Qed.

Lemma inv_set_if_str sc row col s :
  role_ok (expected_cols sc) col = true ->
  (forall c, In c (num_cols sc) -> is_col col c = false) ->
  row_inv sc row -> row_inv sc (set_if col (CStr s) row).
Proof.
  intros Hrole Hnot I. split.
  - destruct col as [c|] eqn:E; simpl; [|apply I].
    destruct (is_empty c) eqn:Ee; [apply I|].
    rewrite dict_set_keys_present; [apply I|].
    apply (inv_covers _ _ I). exact (proj2 (role_ok_elim _ _ _ Hrole eq_refl)).
  - intros c Hc. rewrite get_set_if, (Hnot c Hc). now apply I.
Qed.

Lemma inv_default_if sc row row' col :
  default_if col row = Ok row' -> row_inv sc row -> row_inv sc row'.
Proof.
  intros H I. destruct col as [c|]; simpl in H; [|now injection H as <-].
  destruct (is_empty c); [now injection H as <-|].
  unfold dict_item in H. destruct (dict_get row c) as [[| |]|] eqn:G; simpl in H;
    try discriminate; injection H as <-; try exact I.
  split.
  - rewrite dict_set_keys_present; [apply I|congruence].
  - intros k Hk. rewrite dict_get_set.
    destruct (String.eqb c k); [exact Logic.I|now apply I].
Qed.

Lemma inv_fill_defaults sc ncs row row' :
  fill_defaults ncs row = Ok row' -> row_inv sc row -> row_inv sc row'.
Proof.
  revert row. induction ncs as [|nc ncs IH]; intros row H I; cbn [fill_defaults] in H.
  - now injection H as <-.
  - destruct (default_if (Some nc) row) as [row1|e] eqn:E; cbn [bind] in H;
      [|discriminate].
    apply (IH row1 H). exact (inv_default_if _ _ _ _ E I).
Qed.

Lemma inv_route_one sc desc v row :
  wf_facts sc -> row_inv sc row -> row_inv sc (route_one sc desc v row).
Proof.
  intros W I. unfold route_one.
  destruct (any_in credit_keywords desc); [apply inv_set_if_num; [apply W|exact I]|].
  destruct (any_in debit_keywords desc); apply inv_set_if_num; try apply W; exact I.
Qed.

Lemma inv_route_amounts sc desc remaining row :
  wf_facts sc -> row_inv sc row -> row_inv sc (route_amounts sc desc remaining row).
Proof.
  intros W I. unfold route_amounts.
  destruct remaining as [|a [|b rest]]; [exact I|now apply inv_route_one|].
  repeat match goal with
         | [ |- row_inv _ (if ?c then _ else _) ] => destruct c
         end;
    repeat first [ apply inv_route_one; [exact W|]
                 | apply inv_set_if_num; [apply W|] ]; exact I.
Qed.

(** No numeric column is the Date or the Description column. *)
Lemma num_col_roles sc c :
  wf_facts sc -> In c (num_cols sc) ->
  is_empty c = false /\ In c (expected_cols sc) /\
  is_col (col_date sc) c = false /\ is_col (col_desc sc) c = false.
Proof.
  intros W Hc. rewrite (wf_num_cols _ W) in Hc.
  destruct (present_nonempty _ _ Hc) as [Hne Hrole]. cbn [In] in Hrole.
  split; [exact Hne|].
  destruct Hrole as [E|[E|[E|[E|[]]]]].
  - split; [apply mem_iff; exact (role_in_cols _ _ _ (wf_debit _ W) E)|]. split.
    + eapply is_col_other; [|exact E]. rewrite differ_sym. apply W.
    + eapply is_col_other; [|exact E]. rewrite differ_sym. apply W.
  - split; [apply mem_iff; exact (role_in_cols _ _ _ (wf_credit _ W) E)|]. split.
    + eapply is_col_other; [|exact E]. rewrite differ_sym. apply W.
    + eapply is_col_other; [|exact E]. rewrite differ_sym. apply W.
  - split; [apply mem_iff; exact (role_in_cols _ _ _ (wf_amount _ W) E)|]. split.
    + eapply is_col_other; [|exact E]. rewrite differ_sym. apply W.
    + eapply is_col_other; [|exact E]. rewrite differ_sym. apply W.
  - split; [apply mem_iff; exact (role_in_cols _ _ _ (wf_balance _ W) E)|]. split.
    + eapply is_col_other; [|exact E]. rewrite differ_sym. apply W.
    + eapply is_col_other; [|exact E]. rewrite differ_sym. apply W.
Qed.

Lemma inv_fresh sc :
  wf_facts sc -> NoDup (expected_cols sc) ->
  row_inv sc (dict_of_keys (expected_cols sc)).
Proof.
  intros W Hnd. split; [now apply dict_of_keys_keys|].
  intros c Hc. destruct (num_col_roles sc c W Hc) as (_ & Hin & _).
  apply mem_iff in Hin. rewrite dict_of_keys_get, Hin. exact Logic.I.
Qed.

(** The row with its Date and Description set. *)
Lemma inv_dated sc date_v desc_v :
  wf_facts sc -> NoDup (expected_cols sc) ->
  row_inv sc (set_if (col_desc sc) (CStr desc_v)
                (set_if (col_date sc) (CStr date_v)
                   (dict_of_keys (expected_cols sc)))).
Proof.
  intros W Hnd.
  apply inv_set_if_str; [apply W|intros c Hc; apply (num_col_roles sc c W Hc)|].
  apply inv_set_if_str; [apply W|intros c Hc; apply (num_col_roles sc c W Hc)|].
  now apply inv_fresh.
Qed.

(** After the last loop every numeric column holds a number. *)
Lemma filled_numbers sc row row' :
  wf_facts sc -> row_inv sc row ->
  fill_defaults (num_cols sc) row = Ok row' ->
  row_inv sc row' /\
  forall c, In c (num_cols sc) -> exists x, dict_get row' c = Some (CNum x).
Proof.
  intros W I E. split; [exact (inv_fill_defaults _ _ _ _ E I)|].
  destruct (fill_defaults_spec (num_cols sc) row) as (row2 & E2 & G).
  { apply num_cols_covered; [exact W|now apply inv_covers]. }
  rewrite E in E2. injection E2 as <-.
  intros c Hc. rewrite G.
  destruct (num_col_roles sc c W Hc) as (Hne & _).
  rewrite (names_in _ _ Hc Hne).
  pose proof (inv_num _ _ I c Hc) as Hn.
  destruct (dict_get row c) as [[| |]|]; simpl in *; try contradiction; eauto.
Qed.

Lemma flagged_row_shape sc d row :
  wf_facts sc -> NoDup (expected_cols sc) ->
  flagged_row sc d = Ok row ->
  row_inv sc row /\
  forall c, In c (num_cols sc) -> exists x, dict_get row c = Some (CNum x).
Proof.
  intros W Hnd. unfold flagged_row. apply filled_numbers; [exact W|].
  apply inv_set_if_num; [apply W|].
  pose proof (inv_dated sc (_norm_date (group_or_empty d "Date"))
                (strip (group_or_empty d "Description")) W Hnd) as I.
  destruct (truthy (col_amount sc) && _)%bool.
  - destruct (col_amount sc) as [c|] eqn:Ec; [|exact I].
    apply inv_dict_set_num; [exact I|].
    apply mem_iff. exact (role_in_cols _ _ _ (wf_amount _ W) Ec).
  - destruct (String.eqb _ "CR");
      [repeat (apply inv_set_if_num; [apply W|]); exact I|].
    destruct (String.eqb _ "DR");
      [repeat (apply inv_set_if_num; [apply W|]); exact I|exact I].
Qed.

Lemma fill_from_shape sc date_tok desc_tok nums row :
  wf_facts sc -> NoDup (expected_cols sc) ->
  fill_from sc date_tok desc_tok nums = Ok row ->
  row_inv sc row /\
  forall c, In c (num_cols sc) -> exists x, dict_get row c = Some (CNum x).
Proof.
  intros W Hnd. unfold fill_from.
  match goal with
  | [ |- (row <- assign_amounts sc ?rem ?r ;; _) = _ -> _ ] =>
      assert (row_inv sc r) as I; [|set (r0 := r) in *; set (rm := rem)]
  end.
  { pose proof (inv_dated sc (_norm_date date_tok) desc_tok W Hnd) as I.
    destruct nums; [exact I|]. apply inv_set_if_num; [apply W|exact I]. }
  destruct (assign_amounts sc rm r0) as [row1|e] eqn:E; cbn [bind]; [|discriminate].
  apply filled_numbers; [exact W|].
  unfold assign_amounts in E.
  destruct (truthy (col_amount sc) && _)%bool.
  - destruct rm as [|x rm']; [now injection E as <-|].
    destruct (col_amount sc) as [c|] eqn:Ec; injection E as <-; [|exact I].
    apply inv_dict_set_num; [exact I|].
    apply mem_iff. exact (role_in_cols _ _ _ (wf_amount _ W) Ec).
  - destruct (desc_of sc r0) as [desc|e]; cbn [bind] in E; [|discriminate].
    destruct (default_if (col_debit sc) r0) as [r1|e] eqn:E1; cbn [bind] in E;
      [|discriminate].
    destruct (default_if (col_credit sc) r1) as [r2|e] eqn:E2; cbn [bind] in E;
      [|discriminate].
    injection E as <-. apply inv_route_amounts; [exact W|].
    exact (inv_default_if _ _ _ _ E2 (inv_default_if _ _ _ _ E1 I)).
Qed.

Lemma try_pats_shape sc pats ln row :
  wf_facts sc -> NoDup (expected_cols sc) ->
  try_pats sc pats ln = Some (Ok row) ->
  row_inv sc row /\
  forall c, In c (num_cols sc) -> exists x, dict_get row c = Some (CNum x).
Proof.
  intros W Hnd. induction pats as [|pat pats IH]; simpl; [discriminate|].
  destruct (re_match true pat ln) as [[e d]|]; [|exact IH].
  intros H. injection H as H. now apply (flagged_row_shape sc d).
Qed.

Lemma line_rows_shape sc ln rows row :
  wf_facts sc -> NoDup (expected_cols sc) ->
  line_rows sc ln = Ok rows -> In row rows ->
  row_inv sc row /\
  forall c, In c (num_cols sc) -> exists x, dict_get row c = Some (CNum x).
Proof.
  intros W Hnd H Hin. unfold line_rows in H.
  destruct (if uses_type sc then try_pats sc _pats_type ln else None) as [r|] eqn:E.
  - destruct (uses_type sc); [|discriminate].
    destruct r as [row1|e]; cbn [bind] in H; [|discriminate].
    injection H as <-. destruct Hin as [<-|[]].
    exact (try_pats_shape _ _ _ _ W Hnd E).
  - unfold positional_rows, positional_fill in H.
    destruct (Nat.leb 3 _); [|injection H as <-; contradiction].
    destruct (matches date_token _); [|injection H as <-; contradiction].
    match type of H with
    | context [fill_from sc ?a ?b ?c] =>
        destruct (fill_from sc a b c) as [row1|e] eqn:F
    end; cbn [bind] in H; [|discriminate].
    destruct (keep sc row1); injection H as <-; [|contradiction].
    destruct Hin as [<-|[]]. exact (fill_from_shape _ _ _ _ _ W Hnd F).
Qed.

Lemma try_rows_shape sc lines rows row :
  wf_schema sc = true -> NoDup (expected_cols sc) ->
  _try_rows sc lines = Ok rows -> In row rows ->
  row_inv sc row /\
  forall c, In c (num_cols sc) -> exists x, dict_get row c = Some (CNum x).
Proof.
  intros Hwf Hnd H Hin. pose proof (wf_elim _ Hwf) as W.
  destruct (try_rows_concat_any _ _ _ H) as (per_line & HF & ->).
  apply in_concat in Hin. destruct Hin as (rs & Hrs & Hrow).
  clear H. induction HF as [|ln rs0 lines per_line Hl HF IH]; [contradiction|].
  destruct Hrs as [<-|Hrs]; [|now apply IH].
  exact (line_rows_shape _ _ _ _ W Hnd Hl Hrow).
Qed.

(** X4. Under a generated schema whose column names are all different,
    every row [_try_rows] returns has exactly the columns of the schema as
    its keys, in the order of the schema: no column is missing and none is
    added. *)
Theorem rows_have_the_schema_columns
        (sc : schema) (lines : list string) (rows : list dict) :
  wf_schema sc = true -> NoDup (expected_cols sc) ->
  _try_rows sc lines = Ok rows ->
  forall row, In row rows -> map fst row = expected_cols sc.
Proof.
  intros Hwf Hnd H row Hin.
  exact (inv_keys _ _ (proj1 (try_rows_shape _ _ _ _ Hwf Hnd H Hin))).
Qed.

Lemma sample_rows_eq :
  _try_rows icici ["01-02-2024  ATM Withdrawal  2,000.00  0.00  8,000.00"%string]
  = Ok sample_rows.
Proof. vm_compute. reflexivity. Qed.

Lemma icici_columns_nodup : NoDup (expected_cols icici).
Proof. repeat constructor; simpl; intuition discriminate. Qed.

Lemma rows_have_the_schema_columns_witness :
  exists row,
    In row sample_rows /\
    map fst row = ["Date"; "Description"; "Debit Amt"; "Credit Amt"; "Balance"]%string.
Proof.
  exists (hd [] sample_rows). split; [left; reflexivity|].
  apply (rows_have_the_schema_columns icici _ sample_rows
           eq_refl icici_columns_nodup sample_rows_eq).
  left. reflexivity.
Defined.

(** X5. Under a generated schema whose column names are all different,
    every numeric column (Debit, Credit, Amount, Balance, as far as they
    exist) of every row [_try_rows] returns holds a number: none is left at
    None and none holds text. *)
Theorem numeric_columns_hold_numbers
        (sc : schema) (lines : list string) (rows : list dict) :
  wf_schema sc = true -> NoDup (expected_cols sc) ->
  _try_rows sc lines = Ok rows ->
  forall row c, In row rows -> In c (num_cols sc) ->
                exists x, dict_get row c = Some (CNum x).
Proof.
  intros Hwf Hnd H row c Hin Hc.
  exact (proj2 (try_rows_shape _ _ _ _ Hwf Hnd H Hin) c Hc).
Qed.

Lemma numeric_columns_hold_numbers_witness :
  exists row x,
    In row sample_rows /\ dict_get row "Credit Amt"%string = Some (CNum x).
Proof.
  exists (hd [] sample_rows).
  destruct (numeric_columns_hold_numbers icici _ sample_rows
              eq_refl icici_columns_nodup sample_rows_eq
              (hd [] sample_rows) "Credit Amt"%string
              (or_introl eq_refl) (or_intror (or_introl eq_refl))) as [x Hx].
  exists x. split; [left; reflexivity|exact Hx].
Defined.

(** ** Routing of the amounts *)

Lemma ltb_asym (x y : float) : ltb x y = true -> ltb y x = false.
Proof.
  unfold ltb, SFltb. destruct (SFcompare x y) as [c|] eqn:E; [|discriminate].
  rewrite (SFcompare_antisym _ _ _ E). destruct c; simpl; congruence.
Qed.

(** The last loop leaves every cell that is not None as it is. *)
Lemma fill_defaults_final sc row :
  wf_facts sc -> covers row (expected_cols sc) ->
  exists row',
    fill_defaults (num_cols sc) row = Ok row' /\
    (forall k v, dict_get row k = Some v -> v <> CNone -> dict_get row' k = Some v) /\
    (forall k, In k (num_cols sc) ->
               dict_get row k = Some CNone -> dict_get row' k = Some (CNum zero)).
Proof.
  intros W C.
  destruct (fill_defaults_spec (num_cols sc) row) as (row' & E & G).
  { now apply num_cols_covered. }
  exists row'. split; [exact E|]. split.
  - intros k v H Hv. rewrite G, H.
    destruct (names (num_cols sc) k); [|reflexivity].
    destruct v; [contradiction| |]; reflexivity.
  - intros k Hk H. rewrite G, H.
    rewrite (names_in _ _ Hk (proj1 (num_col_roles sc k W Hk))). reflexivity.
Qed.

(** The cells of the Debit and Credit columns, one against the other. *)
Lemma debit_credit_cols sc d c :
  wf_facts sc -> col_debit sc = Some d -> col_credit sc = Some c ->
  is_col (col_debit sc) d = true /\ is_col (col_credit sc) c = true /\
  is_col (col_credit sc) d = false /\ is_col (col_debit sc) c = false.
Proof.
  intros W Ed Ec. repeat split.
  - exact (is_col_same _ _ _ (wf_debit _ W) Ed).
  - exact (is_col_same _ _ _ (wf_credit _ W) Ec).
  - exact (is_col_other _ _ _ (wf_debit_credit _ W) Ed).
  - eapply is_col_other; [|exact Ec]. rewrite differ_sym. apply W.
Qed.

(** In a Debit/Credit schema the routing starts from a row whose Debit and
    Credit cells are both 0.0. *)
Lemma two_column_start sc d c date_tok desc_tok nums remaining :
  wf_facts sc -> col_debit sc = Some d -> col_credit sc = Some c ->
  exists row3,
    assign_amounts sc remaining (base_row sc date_tok desc_tok nums) =
      Ok (route_amounts sc (desc_text sc desc_tok) remaining row3) /\
    covers row3 (expected_cols sc) /\
    dict_get row3 d = Some (CNum zero) /\
    dict_get row3 c = Some (CNum zero).
Proof.
  intros W Ed Ec.
  destruct (assign_amounts_two sc date_tok desc_tok nums remaining W)
    as (row3 & E3 & C3 & G3).
  { rewrite (truthy_role _ _ _ (wf_debit _ W) Ed). apply andb_false_r. }
  destruct (debit_credit_cols sc d c W Ed Ec) as (Dd & Cc & Cd & Dc).
  exists row3. split; [exact E3|]. split; [exact C3|]. split.
  - rewrite G3, Dd. cbn [orb].
    now rewrite (base_row_numeric sc _ _ _ _ d W (or_introl eq_refl) Ed).
  - rewrite G3, Cc, orb_true_r.
    now rewrite (base_row_numeric sc _ _ _ _ c W (or_intror (or_introl eq_refl)) Ec).
Qed.

(** What a single value routed by the keywords leaves in the row. *)
Lemma route_one_cells sc d c desc v row3 :
  wf_facts sc -> col_debit sc = Some d -> col_credit sc = Some c ->
  covers row3 (expected_cols sc) ->
  dict_get row3 d = Some (CNum zero) -> dict_get row3 c = Some (CNum zero) ->
  exists row,
    fill_defaults (num_cols sc) (route_one sc desc v row3) = Ok row /\
    if any_in credit_keywords desc then
      dict_get row c = Some (CNum v) /\ dict_get row d = Some (CNum zero)
    else
      dict_get row d = Some (CNum v) /\ dict_get row c = Some (CNum zero).
Proof.
  intros W Ed Ec C3 G3d G3c.
  destruct (debit_credit_cols sc d c W Ed Ec) as (Dd & Cc & Cd & Dc).
  destruct (fill_defaults_final sc (route_one sc desc v row3) W) as (row & E & K & _).
  { now apply covers_route_one. }
  exists row. split; [exact E|]. unfold route_one in K |- *.
  destruct (any_in credit_keywords desc);
    [|destruct (any_in debit_keywords desc)];
    split; apply K; try discriminate; rewrite get_set_if;
    rewrite ?Dd, ?Cc, ?Cd, ?Dc; try reflexivity; assumption.
Qed.

(** X8. Table-like line, Debit/Credit schema, two numbers [a], [b] before
    the balance of which exactly one is below 1e-9 in magnitude and the
    other above: the other one goes to Credit when the description has a
    credit keyword and to Debit otherwise (debit keyword or none); the
    column not chosen is 0.0. *)
Theorem one_of_two_is_zero_routing
        (sc : schema) (d c date_tok desc_tok : string)
        (nums : list float) (a b : float) (rest : list float) (v : float) :
  wf_schema sc = true ->
  col_debit sc = Some d -> col_credit sc = Some c ->
  remaining_of nums = a :: b :: rest ->
  (ltb (fabs a) eps = true /\ gtb (fabs b) eps = true /\ v = b) \/
  (ltb (fabs b) eps = true /\ gtb (fabs a) eps = true /\ v = a) ->
  exists row,
    fill_from sc date_tok desc_tok nums = Ok row /\
    if any_in credit_keywords (desc_text sc desc_tok) then
      dict_get row c = Some (CNum v) /\ dict_get row d = Some (CNum zero)
    else
      dict_get row d = Some (CNum v) /\ dict_get row c = Some (CNum zero).
Proof.
  intros Hwf Ed Ec Hrem Hcase. pose proof (wf_elim _ Hwf) as W.
  rewrite fill_from_unfold, Hrem.
  destruct (two_column_start sc d c date_tok desc_tok nums (a :: b :: rest) W Ed Ec)
    as (row3 & E3 & C3 & G3d & G3c).
  rewrite E3. cbn [bind]. unfold route_amounts.
  destruct Hcase as [(Ha & Hb & ->)|(Hb & Ha & ->)].
  - rewrite Ha, Hb. cbn [andb].
    exact (route_one_cells sc d c _ b row3 W Ed Ec C3 G3d G3c).
  - pose proof (ltb_asym _ _ Hb) as Hb'. unfold gtb, ltb in *.
    rewrite Hb', andb_false_r, Hb, Ha. cbn [andb].
    exact (route_one_cells sc d c _ a row3 W Ed Ec C3 G3d G3c).
Qed.

Lemma one_of_two_is_zero_routing_witness :
  exists row,
    fill_from icici "01-02-2024" "Salary"
              [_num "0.00"; _num "5,000.00"; _num "13,000.00"] = Ok row /\
    dict_get row "Credit Amt" = Some (CNum (_num "5,000.00")) /\
    dict_get row "Debit Amt" = Some (CNum zero).
Proof.
  exact (one_of_two_is_zero_routing icici "Debit Amt" "Credit Amt"
           "01-02-2024" "Salary"
           [_num "0.00"; _num "5,000.00"; _num "13,000.00"]
           (_num "0.00") (_num "5,000.00") [] (_num "5,000.00")
           eq_refl eq_refl eq_refl eq_refl
           (or_introl (conj eq_refl (conj eq_refl eq_refl)))).
Defined.

(** X9. Table-like line, Debit/Credit schema, two numbers before the
    balance that do not fall under the one-is-zero cases and of which one is
    negative: Debit receives the absolute value of the first number when
    that one is negative and of the second otherwise, Credit stays 0.0, and
    the keywords of the description play no part. *)
Theorem negative_amount_goes_to_debit
        (sc : schema) (d c date_tok desc_tok : string)
        (nums : list float) (a b : float) (rest : list float) :
  wf_schema sc = true ->
  col_debit sc = Some d -> col_credit sc = Some c ->
  remaining_of nums = a :: b :: rest ->
  (ltb (fabs a) eps && gtb (fabs b) eps)%bool = false ->
  (ltb (fabs b) eps && gtb (fabs a) eps)%bool = false ->
  (ltb a zero || ltb b zero)%bool = true ->
  exists row,
    fill_from sc date_tok desc_tok nums = Ok row /\
    dict_get row d = Some (CNum (fabs (if ltb a zero then a else b))) /\
    dict_get row c = Some (CNum zero).
Proof.
  intros Hwf Ed Ec Hrem H1 H2 Hneg. pose proof (wf_elim _ Hwf) as W.
  rewrite fill_from_unfold, Hrem.
  destruct (two_column_start sc d c date_tok desc_tok nums (a :: b :: rest) W Ed Ec)
    as (row3 & E3 & C3 & G3d & G3c).
  rewrite E3. cbn [bind]. unfold route_amounts. rewrite H1, H2, Hneg.
  destruct (debit_credit_cols sc d c W Ed Ec) as (Dd & Cc & Cd & Dc).
  match goal with
  | [ |- exists row, fill_defaults _ ?r = Ok row /\ _ ] =>
      destruct (fill_defaults_final sc r W) as (row & E & K & _);
      [now apply covers_set_if|]
  end.
  exists row. split; [exact E|].
  split; apply K; try discriminate; rewrite get_set_if, ?Dd, ?Dc;
    [reflexivity|exact G3c].
Qed.

Lemma negative_amount_goes_to_debit_witness :
  exists row,
    fill_from icici "01-02-2024" "Salary reversal"
              [_num "(250.00)"; _num "40.00"; _num "13,000.00"] = Ok row /\
    dict_get row "Debit Amt" = Some (CNum (fabs (_num "(250.00)"))) /\
    dict_get row "Credit Amt" = Some (CNum zero).
Proof.
  exact (negative_amount_goes_to_debit icici "Debit Amt" "Credit Amt"
           "01-02-2024" "Salary reversal"
           [_num "(250.00)"; _num "40.00"; _num "13,000.00"]
           (_num "(250.00)") (_num "40.00") []
           eq_refl eq_refl eq_refl eq_refl eq_refl eq_refl eq_refl).
Defined.

(** X10. Table-like line, Debit/Credit schema, a single number before the
    balance: it goes to Credit when the description has a credit keyword
    and to Debit otherwise; the other column is 0.0.  A credit keyword wins
    over a debit keyword in the same description. *)
Theorem single_amount_routing
        (sc : schema) (d c date_tok desc_tok : string)
        (nums : list float) (v : float) :
  wf_schema sc = true ->
  col_debit sc = Some d -> col_credit sc = Some c ->
  remaining_of nums = [v] ->
  exists row,
    fill_from sc date_tok desc_tok nums = Ok row /\
    if any_in credit_keywords (desc_text sc desc_tok) then
      dict_get row c = Some (CNum v) /\ dict_get row d = Some (CNum zero)
    else
      dict_get row d = Some (CNum v) /\ dict_get row c = Some (CNum zero).
Proof.
  intros Hwf Ed Ec Hrem. pose proof (wf_elim _ Hwf) as W.
  rewrite fill_from_unfold, Hrem.
  destruct (two_column_start sc d c date_tok desc_tok nums [v] W Ed Ec)
    as (row3 & E3 & C3 & G3d & G3c).
  rewrite E3. cbn [bind route_amounts].
  exact (route_one_cells sc d c _ v row3 W Ed Ec C3 G3d G3c).
Qed.

Lemma single_amount_routing_witness :
  exists row,
    fill_from icici "01-02-2024" "UPI IN refund"
              [_num "120.00"; _num "13,000.00"] = Ok row /\
    dict_get row "Credit Amt" = Some (CNum (_num "120.00")) /\
    dict_get row "Debit Amt" = Some (CNum zero).
Proof.
  exact (single_amount_routing icici "Debit Amt" "Credit Amt"
           "01-02-2024" "UPI IN refund"
           [_num "120.00"; _num "13,000.00"] (_num "120.00")
           eq_refl eq_refl eq_refl eq_refl).
Defined.

(** ** Single-Amount schemas *)

(** X11. Table-like line, schema with an Amount column and neither Debit
    nor Credit: the last number found is the Balance (when that role
    exists) and the first of the numbers before it is the Amount; with one
    number only, that number is the Balance and the Amount is 0.0. *)
Theorem single_amount_schema_cells
        (sc : schema) (am date_tok desc_tok : string) (nums : list float) :
  wf_schema sc = true ->
  col_amount sc = Some am -> col_debit sc = None -> col_credit sc = None ->
  nums <> [] ->
  exists row,
    fill_from sc date_tok desc_tok nums = Ok row /\
    dict_get row am =
      Some (CNum (match remaining_of nums with
                  | r0 :: _ => r0
                  | [] => zero
                  end)) /\
    (forall b, col_balance sc = Some b ->
               dict_get row b = Some (CNum (last nums zero))).
Proof.
  intros Hwf Eam Ed Ec Hne. pose proof (wf_elim _ Hwf) as W.
  rewrite fill_from_unfold. unfold assign_amounts.
  rewrite (truthy_role _ _ _ (wf_amount _ W) Eam), Ed, Ec. cbn [truthy orb negb andb].
  rewrite Eam.
  set (base := base_row sc date_tok desc_tok nums).
  assert (dict_get base am = Some CNone) as Gam.
  { exact (base_row_numeric sc _ _ _ _ am W (or_intror (or_intror eq_refl)) Eam). }
  assert (forall b, col_balance sc = Some b ->
                    dict_get base b = Some (CNum (last nums zero))
                    /\ String.eqb am b = false) as Gb.
  { intros b Eb. split.
    - unfold base. rewrite base_row_get.
      rewrite (is_col_same _ _ _ (wf_balance _ W) Eb).
      destruct nums; [contradiction|reflexivity].
    - exact (proj1 (differ_elim _ _ _ _ (wf_amount_balance _ W) Eam Eb)). }
  destruct (remaining_of nums) as [|r0 rest]; cbn [bind].
  - destruct (fill_defaults_final sc base W) as (row & E & K & Z);
      [apply covers_base_row|].
    exists row. split; [exact E|]. split.
    + apply Z; [|exact Gam]. rewrite (wf_num_cols _ W).
      apply present_in; [simpl; auto|].
      exact (proj1 (role_ok_elim _ _ _ (wf_amount _ W) Eam)).
    + intros b Eb. apply K; [|discriminate]. exact (proj1 (Gb b Eb)).
  - destruct (fill_defaults_final sc (dict_set base am (CNum r0)) W)
      as (row & E & K & _).
    { apply covers_dict_set, covers_base_row. }
    exists row. split; [exact E|]. split.
    + apply K; [|discriminate]. apply dict_get_set_same.
    + intros b Eb. destruct (Gb b Eb) as [G Hne']. apply K; [|discriminate].
      rewrite dict_get_set, Hne'. exact G.
Qed.

Lemma single_amount_schema_cells_witness :
  let sc := guess_parser_body ["Date"; "Description"; "Amount"; "Balance"]%string
                              ""%string in
  exists row,
    fill_from sc "01-02-2024" "Fee" [_num "50.00"; _num "9,950.00"] = Ok row /\
    dict_get row "Amount"%string = Some (CNum (_num "50.00")) /\
    dict_get row "Balance"%string = Some (CNum (_num "9,950.00")).
Proof.
  cbv zeta.
  destruct (single_amount_schema_cells
              (guess_parser_body ["Date"; "Description"; "Amount"; "Balance"]%string
                                 ""%string)
              "Amount"%string "01-02-2024" "Fee" [_num "50.00"; _num "9,950.00"]
              eq_refl eq_refl eq_refl eq_refl
              ltac:(discriminate)) as (row & E & Ham & Hb).
  exists row. split; [exact E|]. split; [exact Ham|].
  exact (Hb "Balance"%string eq_refl).
Defined.

(** ** The CR/DR body *)

(** X6. CR/DR line, Debit/Credit schema: whatever was matched, a type
    token that reads CR in upper case puts the amount in Credit and 0.0 in
    Debit, one that reads DR puts the amount in Debit and 0.0 in Credit;
    the Balance column, when the schema has one, receives the balance
    token; the Date cell is the normalized date and the Description cell
    the trimmed description. *)
Theorem flagged_type_routing
        (sc : schema) (d c t : string) (caps : captures) :
  wf_schema sc = true ->
  col_debit sc = Some d -> col_credit sc = Some c ->
  group caps "Type" = Some t ->
  upper t = "CR"%string \/ upper t = "DR"%string ->
  let amt := _num (match group caps "Amt" with Some v => v | None => "0"%string end) in
  let bal := _num (match group caps "Bal" with Some v => v | None => "0"%string end) in
  exists row,
    flagged_row sc caps = Ok row /\
    (if String.eqb (upper t) "CR" then
       dict_get row c = Some (CNum amt) /\ dict_get row d = Some (CNum zero)
     else
       dict_get row d = Some (CNum amt) /\ dict_get row c = Some (CNum zero)) /\
    (forall b, col_balance sc = Some b -> dict_get row b = Some (CNum bal)) /\
    (forall k, col_date sc = Some k ->
               dict_get row k = Some (CStr (_norm_date (group_or_empty caps "Date")))) /\
    (forall k, col_desc sc = Some k ->
               dict_get row k = Some (CStr (strip (group_or_empty caps "Description")))).
Proof.
  intros Hwf Ed Ec Et Hty amt bal. pose proof (wf_elim _ Hwf) as W.
  destruct (debit_credit_cols sc d c W Ed Ec) as (Dd & Cc & Cd & Dc).
  unfold flagged_row. fold amt. fold bal.
  assert (group_or_empty caps "Type" = t) as -> by (unfold group_or_empty; now rewrite Et).
  rewrite Ed, Ec. cbn [is_none orb]. rewrite andb_false_r. rewrite <- Ed, <- Ec.
  match goal with
  | [ |- exists row, fill_defaults _ ?r = Ok row /\ _ ] =>
      destruct (fill_defaults_final sc r W) as (row & E & K & _)
  end.
  { apply covers_set_if.
    destruct (String.eqb (upper t) "CR"); [|destruct (String.eqb (upper t) "DR")];
      repeat apply covers_set_if; apply covers_fresh. }
  exists row. split; [exact E|].
  split; [|split; [|split]].
  - destruct Hty as [Hcr|Hdr].
    + rewrite Hcr in K |- *. cbn [String.eqb Ascii.eqb Bool.eqb andb] in K |- *.
      assert (is_col (col_balance sc) c = false) as Bc
          by exact (is_col_other _ _ _ (wf_credit_balance _ W) Ec).
      assert (is_col (col_balance sc) d = false) as Bd
          by exact (is_col_other _ _ _ (wf_debit_balance _ W) Ed).
      split; apply K; try discriminate; rewrite !get_set_if;
        rewrite ?Bc, ?Bd, ?Dd, ?Cc, ?Cd, ?Dc; reflexivity.
    + rewrite Hdr in K |- *. cbn [String.eqb Ascii.eqb Bool.eqb andb] in K |- *.
      assert (is_col (col_balance sc) c = false) as Bc
          by exact (is_col_other _ _ _ (wf_credit_balance _ W) Ec).
      assert (is_col (col_balance sc) d = false) as Bd
          by exact (is_col_other _ _ _ (wf_debit_balance _ W) Ed).
      split; apply K; try discriminate; rewrite !get_set_if;
        rewrite ?Bc, ?Bd, ?Dd, ?Cc, ?Cd, ?Dc; reflexivity.
  - intros b Eb. apply K; [|discriminate]. rewrite get_set_if.
    now rewrite (is_col_same _ _ _ (wf_balance _ W) Eb).
  - intros k Ek. apply K; [|discriminate].
    assert (is_col (col_balance sc) k = false) as Bk
        by exact (is_col_other _ _ _ (wf_date_balance _ W) Ek).
    assert (is_col (col_debit sc) k = false) as Dk
        by exact (is_col_other _ _ _ (wf_date_debit _ W) Ek).
    assert (is_col (col_credit sc) k = false) as Ck
        by exact (is_col_other _ _ _ (wf_date_credit _ W) Ek).
    assert (is_col (col_desc sc) k = false) as Sk.
    { destruct (col_desc sc) as [s|] eqn:Es; [|reflexivity].
      assert (differ (col_date sc) (col_desc sc) = true) as Hd.
      { pose proof Hwf as H. unfold wf_schema in H. cbn [all_differ forallb] in H.
        repeat (apply andb_true_iff in H; destruct H as [H ?]).
        repeat match goal with
               | [ X : (_ && _)%bool = true |- _ ] =>
                   apply andb_true_iff in X; destruct X
               end. assumption. }
      rewrite <- Es. exact (is_col_other _ _ _ Hd Ek). }
    rewrite get_set_if, Bk.
    destruct (String.eqb (upper t) "CR"); [|destruct (String.eqb (upper t) "DR")];
      rewrite ?get_set_if, ?Dk, ?Ck, ?Sk, (is_col_same _ _ _ (wf_date _ W) Ek);
      reflexivity.
  - intros k Ek. apply K; [|discriminate].
    assert (is_col (col_balance sc) k = false) as Bk
        by exact (is_col_other _ _ _ (wf_desc_balance _ W) Ek).
    assert (is_col (col_debit sc) k = false) as Dk
        by exact (is_col_other _ _ _ (wf_desc_debit _ W) Ek).
    assert (is_col (col_credit sc) k = false) as Ck
        by exact (is_col_other _ _ _ (wf_desc_credit _ W) Ek).
    rewrite get_set_if, Bk.
    destruct (String.eqb (upper t) "CR"); [|destruct (String.eqb (upper t) "DR")];
      rewrite ?get_set_if, ?Dk, ?Ck, (is_col_same _ _ _ (wf_desc _ W) Ek);
      reflexivity.
Qed.

Lemma flagged_type_routing_witness :
  let caps := [ ("Bal", "10,000.00"); ("Amt", "5,000.00"); ("Type", "cr");
                ("Description", "Salary Credit"); ("Date", "01-02-2024") ]%string in
  exists row,
    flagged_row icici caps = Ok row /\
    dict_get row "Credit Amt"%string = Some (CNum (_num "5,000.00")) /\
    dict_get row "Debit Amt"%string = Some (CNum zero) /\
    dict_get row "Balance"%string = Some (CNum (_num "10,000.00")) /\
    dict_get row "Date"%string = Some (CStr "2024-02-01").
Proof.
  cbv zeta.
  destruct (flagged_type_routing icici "Debit Amt" "Credit Amt" "cr"
              [ ("Bal", "10,000.00"); ("Amt", "5,000.00"); ("Type", "cr");
                ("Description", "Salary Credit"); ("Date", "01-02-2024") ]%string
              eq_refl eq_refl eq_refl eq_refl (or_introl eq_refl))
    as (row & E & (Hc & Hd) & Hb & Hdate & _).
  exists row. split; [exact E|]. split; [exact Hc|]. split; [exact Hd|].
  split; [exact (Hb "Balance"%string eq_refl)|].
  exact (Hdate "Date"%string eq_refl).
Defined.

(** X7. CR/DR line, schema with an Amount column that lacks Debit or
    Credit: the amount goes to the Amount column whatever the type token
    says, and the balance token to the Balance column when there is one. *)
Theorem flagged_single_amount
        (sc : schema) (am : string) (caps : captures) :
  wf_schema sc = true ->
  col_amount sc = Some am ->
  col_debit sc = None \/ col_credit sc = None ->
  exists row,
    flagged_row sc caps = Ok row /\
    dict_get row am =
      Some (CNum (_num (match group caps "Amt" with
                        | Some v => v
                        | None => "0"%string
                        end))) /\
    (forall b, col_balance sc = Some b ->
               dict_get row b =
                 Some (CNum (_num (match group caps "Bal" with
                                   | Some v => v
                                   | None => "0"%string
                                   end)))).
Proof.
  intros Hwf Eam Hno. pose proof (wf_elim _ Hwf) as W.
  unfold flagged_row.
  assert ((truthy (col_amount sc)
           && (is_none (col_debit sc) || is_none (col_credit sc)))%bool = true) as ->.
  { rewrite (truthy_role _ _ _ (wf_amount _ W) Eam).
    destruct Hno as [-> | ->]; simpl; [reflexivity|apply orb_true_r]. }
  rewrite Eam.
  match goal with
  | [ |- exists row, fill_defaults _ ?r = Ok row /\ _ ] =>
      destruct (fill_defaults_final sc r W) as (row & E & K & _)
  end.
  { apply covers_set_if, covers_dict_set.
    repeat apply covers_set_if. apply covers_fresh. }
  exists row. split; [exact E|]. split.
  - apply K; [|discriminate]. rewrite get_set_if.
    rewrite (is_col_other _ _ _ (wf_amount_balance _ W) Eam).
    apply dict_get_set_same.
  - intros b Eb. apply K; [|discriminate]. rewrite get_set_if.
    now rewrite (is_col_same _ _ _ (wf_balance _ W) Eb).
Qed.

Lemma flagged_single_amount_witness :
  let sc := guess_parser_body ["Date"; "Description"; "Amount"; "Balance"]%string
                              " DR "%string in
  let caps := [ ("Bal", "9,950.00"); ("Amt", "50.00"); ("Type", "DR");
                ("Description", "Fee"); ("Date", "01-02-2024") ]%string in
  exists row,
    flagged_row sc caps = Ok row /\
    dict_get row "Amount"%string = Some (CNum (_num "50.00")) /\
    dict_get row "Balance"%string = Some (CNum (_num "9,950.00")).
Proof.
  cbv zeta.
  destruct (flagged_single_amount
              (guess_parser_body ["Date"; "Description"; "Amount"; "Balance"]%string
                                 " DR "%string)
              "Amount"%string
              [ ("Bal", "9,950.00"); ("Amt", "50.00"); ("Type", "DR");
                ("Description", "Fee"); ("Date", "01-02-2024") ]%string
              eq_refl eq_refl (or_introl eq_refl)) as (row & E & Ham & Hb).
  exists row. split; [exact E|]. split; [exact Ham|].
  exact (Hb "Balance"%string eq_refl).
Defined.

(** ** Lines without an amount *)

Lemma no_number_all_zero sc date_tok desc_tok :
  wf_schema sc = true ->
  exists row,
    fill_from sc date_tok desc_tok [] = Ok row /\
    forall c, In c (num_cols sc) -> dict_get row c = Some (CNum zero).
Proof.
  intros Hwf. pose proof (wf_elim _ Hwf) as W.
  rewrite fill_from_unfold. cbn [remaining_of].
  set (base := base_row sc date_tok desc_tok []).
  assert (forall c, In c (num_cols sc) -> dict_get base c = Some CNone) as Hbase.
  { intros c Hc. destruct (num_col_roles sc c W Hc) as (_ & Hin & Hd & Hs).
    unfold base. rewrite base_row_get. cbn [List.length Nat.eqb negb].
    rewrite andb_false_r, Hd, Hs. apply mem_iff in Hin. now rewrite Hin. }
  destruct (assign_amounts_covers sc date_tok desc_tok [] [] W) as (row1 & E1 & C1).
  fold base in E1. rewrite E1. cbn [bind].
  assert (forall c, In c (num_cols sc) ->
                    dict_get row1 c = Some CNone \/ dict_get row1 c = Some (CNum zero))
    as Hrow1.
  { intros c Hc. unfold assign_amounts in E1.
    destruct (truthy (col_amount sc) && _)%bool eqn:Hbr.
    - injection E1 as <-. left. now apply Hbase.
    - destruct (assign_amounts_two sc date_tok desc_tok [] [] W Hbr)
        as (row3 & E3 & _ & G3).
      fold base in E3, G3. unfold assign_amounts in E3. rewrite Hbr in E3.
      rewrite E3 in E1. injection E1 as <-. cbn [route_amounts].
      rewrite G3, (Hbase c Hc).
      destruct (is_col (col_debit sc) c || is_col (col_credit sc) c)%bool; simpl; auto. }
  destruct (fill_defaults_final sc row1 W C1) as (row & E & K & Z).
  exists row. split; [exact E|]. intros c Hc.
  destruct (Hrow1 c Hc) as [H|H]; [now apply Z|apply K; [exact H|discriminate]].
Qed.

(** X12. The table-like fallback returns a row only when one of its
    numeric columns is different from zero; in particular, under a
    generated schema, a line none of whose fields after the description is
    a numeric token leaves every numeric column at 0.0 and yields no row. *)
Theorem fallback_needs_a_nonzero_number (sc : schema) (ln : string) :
  (forall rows row,
      positional_rows sc ln = Ok rows -> In row rows ->
      rows = [row] /\
      exists c, In c (num_cols sc) /\ nonzero_at row c = true) /\
  (wf_schema sc = true ->
   gather_nums (skipn 2 (re_split gap (strip ln))) = [] ->
   positional_rows sc ln = Ok []).
Proof.
  split.
  - intros rows row H Hin. unfold positional_rows in H.
    destruct (Nat.leb 3 _); [|injection H as <-; contradiction].
    destruct (matches date_token _); [|injection H as <-; contradiction].
    destruct (positional_fill sc _) as [row1|e]; cbn [bind] in H; [|discriminate].
    destruct (keep sc row1) eqn:Hk; injection H as <-; [|contradiction].
    destruct Hin as [<-|[]]. split; [reflexivity|].
    unfold keep in Hk. apply existsb_exists in Hk. destruct Hk as (c & Hc & Hnz).
    apply andb_true_iff in Hnz. exists c. split; [exact Hc|apply Hnz].
  - intros Hwf Hnums. unfold positional_rows, positional_fill.
    destruct (Nat.leb 3 _); [|reflexivity].
    destruct (matches date_token _); [|reflexivity].
    rewrite Hnums.
    match goal with
    | [ |- context [fill_from sc ?a ?b []] ] =>
        destruct (no_number_all_zero sc a b Hwf) as (row & -> & Z)
    end.
    cbn [bind]. now rewrite (keep_all_zero sc row Z).
Qed.

Lemma fallback_needs_a_nonzero_number_witness :
  positional_rows icici "01-02-2024  Opening balance  carried forward"%string = Ok [] /\
  exists c,
    In c (num_cols icici) /\ nonzero_at (hd [] sample_rows) c = true.
Proof.
  split.
  - apply (proj2 (fallback_needs_a_nonzero_number icici
                    "01-02-2024  Opening balance  carried forward"%string));
      reflexivity.
  - exact (proj2 (proj1 (fallback_needs_a_nonzero_number icici
                    "01-02-2024  ATM Withdrawal  2,000.00  0.00  8,000.00"%string)
                   sample_rows (hd [] sample_rows)
                   ltac:(vm_compute; reflexivity) (or_introl eq_refl))).
Defined.

(** ** Decimal tokens *)

Local Open Scope string_scope.

Lemma append_empty_r (s : string) : s ++ "" = s.
Proof. induction s as [|c s IH]; simpl; [reflexivity|now rewrite IH]. Qed.

Lemma rstrip_by_clean (p : ascii -> bool) (s : string) :
  str_forall (fun c => negb (p c)) s = true -> rstrip_by p s = s.
Proof.
  induction s as [|c s IH]; simpl; [reflexivity|].
  intros H. apply andb_true_iff in H. destruct H as [Hc Hs].
  rewrite (IH Hs). apply negb_true_iff in Hc. rewrite Hc. now destruct s.
Qed.

Lemma lstrip_by_clean (p : ascii -> bool) (s : string) :
  str_forall (fun c => negb (p c)) s = true -> lstrip_by p s = s.
Proof.
  destruct s as [|c s]; simpl; [reflexivity|].
  intros H. apply andb_true_iff in H. destruct H as [Hc _].
  apply negb_true_iff in Hc. now rewrite Hc.
Qed.

Lemma str_forall_app (p : ascii -> bool) (s t : string) :
  str_forall p (s ++ t) = (str_forall p s && str_forall p t)%bool.
Proof.
  induction s as [|c s IH]; simpl; [reflexivity|]. now rewrite IH, andb_assoc.
Qed.

Lemma str_forall_impl (p q : ascii -> bool) (s : string) :
  (forall c, p c = true -> q c = true) ->
  str_forall p s = true -> str_forall q s = true.
Proof.
  intros Hpq. induction s as [|c s IH]; simpl; [reflexivity|].
  intros H. apply andb_true_iff in H. destruct H as [Hc Hs].
  now rewrite (Hpq c Hc), IH.
Qed.

(** What being a digit excludes. *)
Lemma digit_facts (c : ascii) :
  isdigit c = true ->
  isspace c = false /\ isspace_numeric c = false /\ lower_char c = c /\
  Ascii.eqb c "(" = false /\ Ascii.eqb c "-" = false /\ Ascii.eqb c "+" = false /\
  Ascii.eqb c "." = false /\ Ascii.eqb c "_" = false /\
  Ascii.eqb c "i" = false /\ Ascii.eqb c "n" = false.
Proof.
  destruct c as [[] [] [] [] [] [] [] []]; vm_compute; intros H;
    try discriminate H; repeat split.
Qed.

Lemma digits_tail_digits (d rest : string) :
  str_forall isdigit d = true ->
  (rest = "" \/ exists r, rest = String "." r) ->
  digits_tail (d ++ rest) = (d, rest).
Proof.
  intros Hd Hrest. induction d as [|c d IH].
  - destruct Hrest as [->|(r & ->)]; reflexivity.
  - simpl in Hd. apply andb_true_iff in Hd. destruct Hd as [Hc Hd].
    cbn [append digits_tail]. rewrite Hc, (IH Hd). reflexivity.
Qed.

Lemma digitpart_digits (d rest : string) :
  d <> "" -> str_forall isdigit d = true ->
  (rest = "" \/ exists r, rest = String "." r) ->
  digitpart (d ++ rest) = Some (d, rest).
Proof.
  intros Hne Hd Hrest. destruct d as [|c d]; [contradiction|].
  simpl in Hd. apply andb_true_iff in Hd. destruct Hd as [Hc Hd].
  cbn [append digitpart]. rewrite Hc, (digits_tail_digits d rest Hd Hrest).
  reflexivity.
Qed.

(** [float] on digits with an optional point and further digits. *)
Lemma float_of_decimal_text (ip fp : string) (dot : bool) :
  ip <> "" -> str_forall isdigit ip = true -> str_forall isdigit fp = true ->
  (dot = false -> fp = "") ->
  float_of_str (ip ++ (if dot then String "." fp else "")) =
  Some (of_decimal false (digits_value 0 (ip ++ fp))
                   (- Z.of_nat (String.length fp))).
Proof.
  intros Hne Hip Hfp Hdot.
  set (tail := if dot then String "." fp else "").
  assert (tail = "" \/ exists r, tail = String "." r) as Htail.
  { unfold tail. destruct dot; [right; now exists fp|now left]. }
  destruct ip as [|c0 ip'] eqn:Eip; [contradiction|]. rewrite <- Eip in *.
  assert (isdigit c0 = true) as Hc0.
  { rewrite Eip in Hip. simpl in Hip. now apply andb_true_iff in Hip. }
  destruct (digit_facts c0 Hc0) as (_ & _ & Hlow & _ & Hm & Hp & _ & _ & Hi & Hn).
  assert (str_forall (fun c => negb (isspace_numeric c)) (ip ++ tail) = true) as Hclean.
  { rewrite str_forall_app. apply andb_true_iff. split.
    - apply (str_forall_impl isdigit); [|exact Hip].
      intros c Hc. destruct (digit_facts c Hc) as (_ & -> & _). reflexivity.
    - unfold tail. destruct dot; [|reflexivity]. cbn [str_forall].
      apply andb_true_iff. split; [reflexivity|].
      apply (str_forall_impl isdigit); [|exact Hfp].
      intros c Hc. destruct (digit_facts c Hc) as (_ & -> & _). reflexivity. }
  unfold float_of_str, strip_numeric.
  rewrite (lstrip_by_clean _ _ Hclean), (rstrip_by_clean _ _ Hclean).
  assert (opt_sign (ip ++ tail) = (false, ip ++ tail)) as ->.
  { rewrite Eip. cbn [append opt_sign]. now rewrite Hm, Hp. }
  assert (String.eqb (lower (ip ++ tail)) "inf" = false
          /\ String.eqb (lower (ip ++ tail)) "infinity" = false
          /\ String.eqb (lower (ip ++ tail)) "nan" = false) as (-> & -> & ->).
  { rewrite Eip. unfold lower. cbn [append map_str String.eqb]. rewrite Hlow, Hi, Hn.
    repeat split. }
  cbn [orb].
  unfold number. rewrite (digitpart_digits ip tail Hne Hip Htail).
  unfold tail. destruct dot.
  - rewrite Ascii.eqb_refl.
    destruct fp as [|f0 fp'] eqn:Efp.
    + cbn [digitpart exponent]. rewrite append_empty_r. reflexivity.
    + rewrite <- Efp in *.
      assert (fp <> "") as Hfne by (rewrite Efp; discriminate).
      pose proof (digitpart_digits fp "" Hfne Hfp (or_introl eq_refl)) as Hd.
      rewrite append_empty_r in Hd. rewrite Hd. cbn [exponent]. reflexivity.
  - rewrite (Hdot eq_refl). cbn [exponent]. reflexivity.
Qed.

(** X13. A token that, once its commas are removed, is a run of digits,
    optionally followed by a point and further digits, is read by [_num] as
    that decimal number, correctly rounded to binary64: the digits taken as
    an integer, scaled by ten to minus the number of digits after the
    point.  The same token between parentheses gives the negated value. *)
Theorem num_reads_decimal_tokens (s ip fp : string) (dot : bool) :
  remove_char "," s = ip ++ (if dot then String "." fp else "") ->
  ip <> "" -> str_forall isdigit ip = true -> str_forall isdigit fp = true ->
  (dot = false -> fp = "") ->
  let value := of_decimal false (digits_value 0 (ip ++ fp))
                          (- Z.of_nat (String.length fp)) in
  _num s = value /\ _num ("(" ++ s ++ ")") = neg value.
Proof.
  intros Hs Hne Hip Hfp Hdot value.
  pose proof (float_of_decimal_text ip fp dot Hne Hip Hfp Hdot) as Hf.
  fold value in Hf. split.
  - unfold _num. rewrite Hs.
    assert (str_forall (fun c => negb (isspace c))
              (ip ++ (if dot then String "." fp else "")) = true) as Hclean.
    { rewrite str_forall_app. apply andb_true_iff. split.
      - apply (str_forall_impl isdigit); [|exact Hip].
        intros c Hc. destruct (digit_facts c Hc) as (-> & _). reflexivity.
      - destruct dot; [|reflexivity]. cbn [str_forall].
        apply andb_true_iff. split; [reflexivity|].
        apply (str_forall_impl isdigit); [|exact Hfp].
        intros c Hc. destruct (digit_facts c Hc) as (-> & _). reflexivity. }
    unfold strip. rewrite (lstrip_by_clean _ _ Hclean), (rstrip_by_clean _ _ Hclean).
    destruct ip as [|c0 ip']; [contradiction|].
    simpl in Hip. apply andb_true_iff in Hip. destruct Hip as [Hc0 _].
    destruct (digit_facts c0 Hc0) as (_ & _ & _ & Hpar & _).
    cbn [append is_empty startswith]. rewrite Ascii.eqb_sym, Hpar. cbn [andb].
    cbn [append] in Hf. rewrite Hf. reflexivity.
  - destruct (wrapped_token s) as (He & Hw & Hsl).
    unfold _num. rewrite He, Hw, Hsl, Hs, Hf. reflexivity.
Qed.

Lemma num_reads_decimal_tokens_witness :
  _num "12,345,678.90" = of_decimal false 1234567890 (-2) /\
  _num "(12,345,678.90)" = neg (of_decimal false 1234567890 (-2)).
Proof.
  exact (num_reads_decimal_tokens "12,345,678.90" "12345678" "90" true
           eq_refl ltac:(discriminate) eq_refl eq_refl ltac:(discriminate)).
Defined.

(** ** The date normalizer and white space *)

Lemma rstrip_by_idem (p : ascii -> bool) (s : string) :
  rstrip_by p (rstrip_by p s) = rstrip_by p s.
Proof.
  induction s as [|c s IH]; simpl; [reflexivity|].
  destruct (rstrip_by p s) as [|r0 r] eqn:E.
  - destruct (p c) eqn:Ep; simpl; [reflexivity|now rewrite Ep].
  - cbn [rstrip_by] in IH |- *. fold (rstrip_by p r) in IH |- *.
    change (rstrip_by p (String c (String r0 r)))
      with (match rstrip_by p (String r0 r) with
            | "" => if p c then "" else String c ""
            | r1 => String c r1
            end).
    now rewrite IH.
Qed.

Lemma rstrip_by_head (p : ascii -> bool) (c : ascii) (s : string) :
  p c = false -> exists r, rstrip_by p (String c s) = String c r.
Proof.
  intros Hc. simpl. destruct (rstrip_by p s); [rewrite Hc|]; eauto.
Qed.

Lemma lstrip_by_head (p : ascii -> bool) (s : string) :
  lstrip_by p s = "" \/ exists c r, lstrip_by p s = String c r /\ p c = false.
Proof.
  induction s as [|c s IH]; simpl; [now left|].
  destruct (p c) eqn:E; [exact IH|right; eauto].
Qed.

Lemma strip_idem (s : string) : strip (strip s) = strip s.
Proof.
  unfold strip. destruct (lstrip_by_head isspace s) as [E|(c & r & E & Hc)].
  - rewrite E. reflexivity.
  - rewrite E. destruct (rstrip_by_head isspace c r Hc) as (r' & E').
    rewrite E'. cbn [lstrip_by]. rewrite Hc. rewrite <- E'. apply rstrip_by_idem.
Qed.

Lemma first_date_cases (raw : string) (fmts : list string) :
  first_date raw fmts = raw \/
  exists fmt d, In fmt fmts /\ strptime raw fmt = Some d /\
                first_date raw fmts = isoformat d.
Proof.
  induction fmts as [|fmt fmts IH]; simpl; [now left|].
  destruct (strptime raw fmt) as [d|] eqn:E.
  - right. exists fmt, d. auto.
  - destruct IH as [H|(f & d & Hin & Hs & H)]; [now left|].
    right. exists f, d. auto.
Qed.

Lemma isoformat_clean (d : date) : strip (isoformat d) = isoformat d.
Proof.
  destruct (isoformat_shape d)
    as (y1 & y2 & y3 & y4 & m1 & m2 & d1 & d2 & -> & Hd).
  cbn [forallb] in Hd. repeat (apply andb_true_iff in Hd; destruct Hd as [? Hd]).
  assert (forall c, isdigit c = true -> negb (isspace c) = true) as Hn.
  { intros c Hc. destruct (digit_facts c Hc) as (-> & _). reflexivity. }
  unfold strip. rewrite lstrip_by_clean, rstrip_by_clean; try reflexivity;
    cbn [str_forall];
    rewrite (Hn y1), (Hn y2), (Hn y3), (Hn y4), (Hn m1), (Hn m2), (Hn d1), (Hn d2)
      by assumption; reflexivity.
Qed.

(** X16. [_norm_date] depends on its argument only up to surrounding white
    space, and what it returns has none: it is either the trimmed argument
    itself or the ISO form, four digits, two digits, two digits, of a date
    one of the four formats read in it. *)
Theorem norm_date_and_white_space (raw : string) :
  _norm_date (strip raw) = _norm_date raw /\
  strip (_norm_date raw) = _norm_date raw /\
  (_norm_date raw = strip raw \/
   exists fmt d,
     In fmt date_formats /\ strptime (strip raw) fmt = Some d /\
     _norm_date raw = isoformat d).
Proof.
  unfold _norm_date. rewrite strip_idem. split; [reflexivity|].
  destruct (first_date_cases (strip raw) date_formats) as [H|(fmt & d & Hin & Hs & H)].
  - rewrite H. split; [apply strip_idem|now left].
  - rewrite H. split; [apply isoformat_clean|]. right. exists fmt, d. auto.
Qed.

(** ** Rows of the extractor *)

Lemma str_forall_rev (p : ascii -> bool) (acc s : string) :
  str_forall p (rev_str acc s) = (str_forall p s && str_forall p acc)%bool.
Proof.
  revert acc. induction s as [|c s IH]; intros acc; simpl; [reflexivity|].
  rewrite IH. simpl. destruct (p c), (str_forall p s), (str_forall p acc); reflexivity.
Qed.

Lemma rev_str_nonempty (acc s : string) :
  s <> "" \/ acc <> "" -> rev_str acc s <> "".
Proof.
  revert acc. induction s as [|c s IH]; intros acc H; simpl.
  - destruct H as [H|H]; [congruence|exact H].
  - apply IH. right. discriminate.
Qed.

(** A token of [s.split()] is not empty and holds no white space. *)
Lemma split_ws_aux_tokens (cur s t : string) :
  str_forall (fun c => negb (isspace c)) cur = true ->
  In t (split_ws_aux cur s) ->
  t <> "" /\ str_forall (fun c => negb (isspace c)) t = true.
Proof.
  revert cur. induction s as [|c s IH]; intros cur Hcur; simpl.
  - destruct cur as [|c0 cur']; [contradiction|]. intros [<-|[]]. split.
    + apply rev_str_nonempty. left. discriminate.
    + unfold reverse. rewrite str_forall_rev, Hcur. reflexivity.
  - destruct (isspace c) eqn:Ec.
    + destruct cur as [|c0 cur'].
      * apply IH. reflexivity.
      * intros [<-|Hin]; [|now apply (IH "")]. split.
        -- apply rev_str_nonempty. left. discriminate.
        -- unfold reverse. rewrite str_forall_rev, Hcur. reflexivity.
    + apply IH. simpl. now rewrite Ec, Hcur.
Qed.

Lemma split_ws_tokens (s t : string) :
  In t (split_ws s) ->
  t <> "" /\ str_forall (fun c => negb (isspace c)) t = true.
Proof. apply split_ws_aux_tokens. reflexivity. Qed.

Lemma append_assoc3 (x y z : string) : (x ++ y) ++ z = x ++ (y ++ z).
Proof. induction x as [|c x IH]; simpl; [reflexivity|now rewrite IH]. Qed.

Lemma join_cons (sep x : string) (l : list string) :
  l <> [] -> join sep (x :: l) = x ++ sep ++ join sep l.
Proof. destruct l; [contradiction|reflexivity]. Qed.

Lemma join_app (sep : string) (l1 l2 : list string) :
  l1 <> [] -> l2 <> [] ->
  join sep (l1 ++ l2)%list = join sep l1 ++ sep ++ join sep l2.
Proof.
  intros H1 H2. induction l1 as [|x l1 IH]; [contradiction|].
  destruct l1 as [|y l1].
  - cbn [app]. now rewrite join_cons.
  - rewrite <- app_comm_cons, join_cons by (destruct l1; discriminate).
    rewrite IH by discriminate.
    rewrite (join_cons sep x (y :: l1)) by discriminate.
    now rewrite !append_assoc3.
Qed.

Lemma join_nonempty (sep x : string) (l : list string) :
  x <> "" -> join sep (x :: l) <> "".
Proof.
  intros Hx. destruct x as [|c x]; [contradiction|].
  destruct l; simpl; discriminate.
Qed.

Lemma three_last (l : list string) :
  (3 <= List.length l)%nat -> exists l' a b c, l = (l' ++ [a; b; c])%list.
Proof.
  intros H.
  destruct (exists_last (l := l)) as (l1 & c & ->); [destruct l; simpl in H; [lia|discriminate]|].
  rewrite length_app in H. simpl in H.
  destruct (exists_last (l := l1)) as (l2 & b & ->); [destruct l1; simpl in H; [lia|discriminate]|].
  rewrite length_app in H. simpl in H.
  destruct (exists_last (l := l2)) as (l3 & a & ->); [destruct l2; simpl in H; [lia|discriminate]|].
  exists l3, a, b, c. now rewrite <- !app_assoc.
Qed.

Lemma firstn_length_app (l l' : list string) :
  firstn (List.length l) (l ++ l')%list = l.
Proof. induction l as [|x l IH]; simpl; [reflexivity|now rewrite IH]. Qed.

(** The five fields of a line of at least five tokens. *)
Lemma row_of_fields (p0 : string) (mid : list string) (a b c : string) :
  row_of (p0 :: mid ++ [a; b; c])%list =
  [CStr p0; CStr (join " " mid); CStr a; CStr b; CStr c]%list.
Proof.
  unfold row_of. cbn [List.length]. rewrite length_app. cbn [List.length].
  replace (S (List.length mid + 3) - 3 - 1)%nat with (List.length mid) by lia.
  replace (S (List.length mid + 3) - 3)%nat with (S (List.length mid + 0)) by lia.
  replace (S (List.length mid + 3) - 2)%nat with (S (List.length mid + 1)) by lia.
  replace (S (List.length mid + 3) - 1)%nat with (S (List.length mid + 2)) by lia.
  cbn [skipn nth]. rewrite firstn_length_app, !app_nth2_plus. reflexivity.
Qed.

(** X14. Every row of the table of [extract_text] comes from a line of a
    page and has five text cells: the first token of the line, which is not
    "Date"; a description that is not empty; and the last three tokens.
    Date, debit, credit and balance are single tokens, not empty and free
    of white space, and the five cells joined by single spaces give back the
    tokens of the line joined by single spaces: nothing of the line is
    lost but its spacing. *)
Theorem extractor_row_fields (doc : pdf) (row : list cell) :
  In row (data (read_pdf doc)) ->
  exists line date desc debit credit balance,
    (exists text, In (Some text) doc /\ In line (split_char newline text)) /\
    row = [CStr date; CStr desc; CStr debit; CStr credit; CStr balance]%list /\
    date <> "Date" /\ desc <> "" /\
    Forall (fun t => t <> "" /\ str_forall (fun c => negb (isspace c)) t = true)
           [date; debit; credit; balance]%list /\
    join " " [date; desc; debit; credit; balance]%list = join " " (split_ws line).
Proof.
  intros Hin. rewrite read_pdf_data in Hin. apply dedup_from_in in Hin.
  destruct Hin as [[]|Hin]. apply candidates_in in Hin.
  destruct Hin as (text & line & Hp & _ & Hl & Hlen & Hdate & ->).
  destruct (split_ws line) as [|p0 rest] eqn:Eparts; [simpl in Hlen; lia|].
  destruct (three_last rest) as (mid & a & b & c & ->); [simpl in Hlen; lia|].
  assert (mid <> []) as Hmid.
  { intros ->. simpl in Hlen. lia. }
  assert (forall t, In t (p0 :: mid ++ [a; b; c])%list ->
                    t <> "" /\ str_forall (fun c => negb (isspace c)) t = true) as Htok.
  { intros t Ht. apply (split_ws_tokens line). now rewrite Eparts. }
  exists line, p0, (join " " mid), a, b, c.
  split; [exists text; auto|]. split; [apply row_of_fields|].
  split; [exact Hdate|]. split.
  - destruct mid as [|m0 mid']; [contradiction|]. apply join_nonempty.
    apply (Htok m0). right. left. reflexivity.
  - split.
    + assert (In p0 (p0 :: mid ++ [a; b; c])%list) as I0 by now left.
      assert (In a (p0 :: mid ++ [a; b; c])%list) as Ia
          by (right; apply in_or_app; right; simpl; auto).
      assert (In b (p0 :: mid ++ [a; b; c])%list) as Ib
          by (right; apply in_or_app; right; simpl; auto).
      assert (In c (p0 :: mid ++ [a; b; c])%list) as Ic
          by (right; apply in_or_app; right; simpl; auto).
      repeat (apply Forall_cons; [apply Htok; assumption|]). apply Forall_nil.
    + rewrite Eparts.
      rewrite (join_cons " " p0 (mid ++ [a; b; c])%list)
        by (destruct mid; discriminate).
      rewrite (join_app " " mid [a; b; c]%list Hmid) by discriminate.
      reflexivity.
Qed.

Lemma extractor_row_fields_witness :
  let doc := [Some "02-02-2024   NEFT   IN  salary 0.00 5,000.00 13,000.00"] in
  exists row,
    In row (data (read_pdf doc)) /\
    row = [CStr "02-02-2024"; CStr "NEFT IN salary"; CStr "0.00";
           CStr "5,000.00"; CStr "13,000.00"]%list /\
    exists line date desc debit credit balance,
      row = [CStr date; CStr desc; CStr debit; CStr credit; CStr balance]%list /\
      join " " [date; desc; debit; credit; balance]%list = join " " (split_ws line).
Proof.
  cbv zeta. eexists. split; [left; reflexivity|]. split; [reflexivity|].
  destruct (extractor_row_fields
              [Some "02-02-2024   NEFT   IN  salary 0.00 5,000.00 13,000.00"]
              _ (or_introl eq_refl))
    as (line & date & desc & debit & credit & balance & _ & E & _ & _ & _ & J).
  exists line, date, desc, debit, credit, balance. split; [exact E|exact J].
Defined.

(** ** Pages of the extractor *)

Local Open Scope list_scope.

Lemma dedup_from_app kept l1 l2 :
  dedup_from kept (l1 ++ l2) = dedup_from (dedup_from kept l1) l2.
Proof.
  revert kept. induction l1 as [|x l1 IH]; intros kept; simpl; [reflexivity|].
  destruct (existsb (row_same x) kept); apply IH.
Qed.

Lemma dedup_from_prefix kept l : exists more, dedup_from kept l = kept ++ more.
Proof.
  revert kept. induction l as [|x l IH]; intros kept; simpl.
  - exists []. now rewrite app_nil_r.
  - destruct (existsb (row_same x) kept); [apply IH|].
    destruct (IH (kept ++ [x])) as (more & ->). exists (x :: more).
    now rewrite <- app_assoc.
Qed.

Lemma dedup_from_absorb kept l :
  (forall r, In r l -> In r kept) -> dedup_from kept l = kept.
Proof.
  induction l as [|x l IH]; intros H; simpl; [reflexivity|].
  assert (existsb (row_same x) kept = true) as ->
      by (apply seen_iff, H; now left).
  apply IH. intros r Hr. apply H. now right.
Qed.

Lemma candidates_app d1 d2 : candidates (d1 ++ d2) = candidates d1 ++ candidates d2.
Proof. unfold candidates. apply flat_map_app. Qed.

Lemma read_pdf_frame doc :
  read_pdf doc = mkframe extract_columns (dedup_from [] (candidates doc)).
Proof. unfold read_pdf, drop_duplicates. simpl. now rewrite scan_pages_acc. Qed.

(** X15. The extractor reads a document page after page: the table of a
    document followed by further pages is the table of the document with,
    after it, the new rows of those pages, so the rows of the earlier pages
    stay as they are and keep their place; a page without text adds
    nothing; and reading the same pages a second time adds nothing. *)
Theorem extractor_reads_page_after_page (doc1 doc2 : pdf) :
  data (read_pdf (doc1 ++ doc2)) =
    dedup_from (data (read_pdf doc1)) (candidates doc2) /\
  (exists more, data (read_pdf (doc1 ++ doc2)) = data (read_pdf doc1) ++ more) /\
  read_pdf (doc1 ++ None :: doc2) = read_pdf (doc1 ++ doc2) /\
  read_pdf (doc1 ++ Some EmptyString :: doc2) = read_pdf (doc1 ++ doc2) /\
  read_pdf (doc1 ++ doc1) = read_pdf doc1.
Proof.
  assert (data (read_pdf (doc1 ++ doc2)) =
          dedup_from (data (read_pdf doc1)) (candidates doc2)) as H.
  { rewrite !read_pdf_data, candidates_app. apply dedup_from_app. }
  split; [exact H|]. split; [rewrite H; apply dedup_from_prefix|].
  split; [|split].
  - rewrite !read_pdf_frame, !candidates_app. reflexivity.
  - rewrite !read_pdf_frame, !candidates_app. reflexivity.
  - rewrite !read_pdf_frame, candidates_app, dedup_from_app.
    f_equal. apply dedup_from_absorb. intros r Hr. apply dedup_from_in. now right.
Qed.

(** ** Order of the two grammars *)

Local Open Scope list_scope.

Lemma try_pats_first sc pre pat post ln e caps :
  (forall p, In p pre -> re_match true p ln = None) ->
  re_match true pat ln = Some (e, caps) ->
  try_pats sc (pre ++ pat :: post) ln = Some (flagged_row sc caps).
Proof.
  intros Hpre Hpat. induction pre as [|p pre IH]; simpl.
  - now rewrite Hpat.
  - rewrite (Hpre p (or_introl eq_refl)). apply IH.
    intros q Hq. apply Hpre. now right.
Qed.

Lemma try_pats_none sc pats ln :
  (forall p, In p pats -> re_match true p ln = None) ->
  try_pats sc pats ln = None.
Proof.
  induction pats as [|p pats IH]; intros H; simpl; [reflexivity|].
  rewrite (H p (or_introl eq_refl)). apply IH. intros q Hq. apply H. now right.
Qed.

(** X17. With the CR/DR flag set under a generated schema, the first of
    the three patterns that matches a line decides: the line yields exactly
    the row built from the groups of that match, the later patterns and the
    table-like fallback are not tried, and the row is kept even when all
    its numbers are zero.  A line that no pattern matches is handed to the
    fallback. *)
Theorem first_matching_pattern_decides (sc : schema) (ln : string) :
  wf_schema sc = true -> uses_type sc = true ->
  (forall pre pat post e caps,
      _pats_type = pre ++ pat :: post ->
      (forall p, In p pre -> re_match true p ln = None) ->
      re_match true pat ln = Some (e, caps) ->
      exists row, flagged_row sc caps = Ok row /\ line_rows sc ln = Ok [row]) /\
  ((forall p, In p _pats_type -> re_match true p ln = None) ->
   line_rows sc ln = positional_rows sc ln).
Proof.
  intros Hwf Hflag. split.
  - intros pre pat post e caps Hsplit Hpre Hpat.
    destruct (flagged_row_ok sc caps Hwf) as (row & Hrow).
    exists row. split; [exact Hrow|].
    unfold line_rows. rewrite Hflag, Hsplit.
    rewrite (try_pats_first sc pre pat post ln e caps Hpre Hpat), Hrow.
    reflexivity.
  - intros Hnone. unfold line_rows. rewrite Hflag.
    now rewrite (try_pats_none sc _pats_type ln Hnone).
Qed.

Lemma first_matching_pattern_decides_witness :
  let sc := guess_parser_body
              ["Date"; "Description"; "Debit Amt"; "Credit Amt"; "Balance"]%string
              " CR "%string in
  (exists row,
      line_rows sc "2024-02-01 Reversal dr 0.00 0.00"%string = Ok [row] /\
      dict_get row "Debit Amt"%string = Some (CNum zero) /\
      dict_get row "Balance"%string = Some (CNum zero)) /\
  line_rows sc "Statement of Account"%string
  = positional_rows sc "Statement of Account"%string.
Proof.
  cbv zeta.
  pose proof (first_matching_pattern_decides
                (guess_parser_body
                   ["Date"; "Description"; "Debit Amt"; "Credit Amt"; "Balance"]%string
                   " CR "%string)) as H.
  split.
  - destruct (proj1 (H "2024-02-01 Reversal dr 0.00 0.00"%string eq_refl eq_refl)
                [nth 0 _pats_type Eps] (nth 1 _pats_type Eps) [nth 2 _pats_type Eps]
                32%nat
                [ ("Bal", "0.00"); ("Amt", "0.00"); ("Type", "dr");
                  ("Description", "Reversal"); ("Date", "2024-02-01") ]%string
                eq_refl
                ltac:(intros p [<-|[]]; vm_compute; reflexivity)
                ltac:(vm_compute; reflexivity))
      as (row & Hrow & Hline).
    exists row. split; [exact Hline|].
    assert (Ok row = flagged_row
              (guess_parser_body
                 ["Date"; "Description"; "Debit Amt"; "Credit Amt"; "Balance"]%string
                 " CR "%string)
              [ ("Bal", "0.00"); ("Amt", "0.00"); ("Type", "dr");
                ("Description", "Reversal"); ("Date", "2024-02-01") ]%string)
      as E by (symmetry; exact Hrow).
    vm_compute in E. injection E as ->. split; reflexivity.
  - apply (proj2 (H "Statement of Account"%string eq_refl eq_refl)).
    intros p [<-|[<-|[<-|[]]]]; vm_compute; reflexivity.
Defined.

(** ** Dates in the four layouts *)

Local Open Scope string_scope.

Lemma digit_class (c : ascii) :
  isdigit c = true -> existsb (item_matches true c) [CDigit]%list = true.
Proof. intros H. cbn [existsb item_matches]. now rewrite H. Qed.

(** A digit is neither of the separators. *)
Lemma digit_not_literal (c x : ascii) :
  isdigit c = true -> isdigit x = false -> lower_char x = x ->
  existsb (item_matches true c) [CChar x]%list = false.
Proof.
  intros Hc Hx Hlx. cbn [existsb item_matches].
  destruct (digit_facts c Hc) as (_ & _ & Hl & _). rewrite Hl, Hlx.
  destruct (Ascii.eqb c x) eqn:E; [|reflexivity].
  apply Ascii.eqb_eq in E. subst. congruence.
Qed.

(** The year group: four digits, read without alternative. *)
Lemma run_year (subject : string) (rest : regex) (pos : nat)
      (y1 y2 y3 y4 : ascii) (tail : string) (caps : captures)
      (k : nat -> string -> captures -> option found) :
  isdigit y1 = true -> isdigit y2 = true -> isdigit y3 = true -> isdigit y4 = true ->
  run true subject (Seq re_Y rest) pos
      (String y1 (String y2 (String y3 (String y4 tail)))) caps k =
  run true subject rest (S (S (S (S pos)))) tail
      (set_group "Y" (substring pos (S (S (S (S pos))) - pos) subject) caps) k.
Proof.
  intros H1 H2 H3 H4. unfold re_Y. cbn [run Times].
  rewrite !digit_class by assumption. reflexivity.
Qed.

Lemma run_lit (subject : string) (rest : regex) (pos : nat) (c : ascii)
      (tail : string) (caps : captures)
      (k : nat -> string -> captures -> option found) :
  run true subject (Seq (Lit c) rest) pos (String c tail) caps k =
  run true subject rest (S pos) tail caps k.
Proof.
  unfold Lit. cbn [run existsb item_matches]. now rewrite Ascii.eqb_refl.
Qed.

Ltac eval_classes :=
  repeat match goal with
         | [ |- context [existsb (item_matches true ?c) ?l] ] =>
             let b := eval vm_compute in (existsb (item_matches true c) l) in
             change (existsb (item_matches true c) l) with b; cbv iota
         end.

Ltac two_digit_group unfolder :=
  match goal with
  | [ |- context [pad2 ?n] ] =>
      let s := eval vm_compute in (pad2 n) in
      change (pad2 n) with s
  end;
  unfolder; cbn [alts Lit run append]; eval_classes.

(** The month group on a month written with two digits: when what follows
    matches, the group takes both digits. *)
Lemma run_month (m : Z) (subject : string) (rest : regex) (pos : nat)
      (tail : string) (caps : captures)
      (k : nat -> string -> captures -> option found) (f : found) :
  (1 <= m <= 12)%Z ->
  run true subject rest (S (S pos)) tail
      (set_group "m" (substring pos (S (S pos) - pos) subject) caps) k = Some f ->
  run true subject (Seq re_m rest) pos (pad2 m ++ tail) caps k = Some f.
Proof.
  intros Hm H.
  assert (m = 1 \/ m = 2 \/ m = 3 \/ m = 4 \/ m = 5 \/ m = 6 \/ m = 7 \/ m = 8 \/
          m = 9 \/ m = 10 \/ m = 11 \/ m = 12)%Z as Hcases by lia.
  repeat (destruct Hcases as [->|Hcases];
          [two_digit_group ltac:(unfold re_m); now rewrite H|]).
  subst m. two_digit_group ltac:(unfold re_m). now rewrite H.
Qed.

(** The day group on a day written with two digits. *)
Lemma run_day (d : Z) (subject : string) (rest : regex) (pos : nat)
      (tail : string) (caps : captures)
      (k : nat -> string -> captures -> option found) (f : found) :
  (1 <= d <= 31)%Z ->
  run true subject rest (S (S pos)) tail
      (set_group "d" (substring pos (S (S pos) - pos) subject) caps) k = Some f ->
  run true subject (Seq re_d rest) pos (pad2 d ++ tail) caps k = Some f.
Proof.
  intros Hd H.
  assert (d = 1 \/ d = 2 \/ d = 3 \/ d = 4 \/ d = 5 \/ d = 6 \/ d = 7 \/ d = 8 \/
          d = 9 \/ d = 10 \/ d = 11 \/ d = 12 \/ d = 13 \/ d = 14 \/ d = 15 \/
          d = 16 \/ d = 17 \/ d = 18 \/ d = 19 \/ d = 20 \/ d = 21 \/ d = 22 \/
          d = 23 \/ d = 24 \/ d = 25 \/ d = 26 \/ d = 27 \/ d = 28 \/ d = 29 \/
          d = 30 \/ d = 31)%Z as Hcases by lia.
  repeat (destruct Hcases as [->|Hcases];
          [two_digit_group ltac:(unfold re_d); now rewrite H|]).
  subst d. two_digit_group ltac:(unfold re_d). now rewrite H.
Qed.

Lemma digit_val_digit_char (n : Z) : digit_val (digit_char n) = (n mod 10)%Z.
Proof.
  unfold digit_val, digit_char, code.
  pose proof (Z.mod_pos_bound n 10 eq_refl) as B.
  rewrite N_ascii_embedding by lia. lia.
Qed.

Lemma digit_char_clean (n : Z) : negb (isspace_numeric (digit_char n)) = true.
Proof.
  destruct (digit_facts _ (digit_char_isdigit n)) as (_ & -> & _). reflexivity.
Qed.

Lemma digit_char_nonspace (n : Z) : negb (isspace (digit_char n)) = true.
Proof.
  destruct (digit_facts _ (digit_char_isdigit n)) as (-> & _). reflexivity.
Qed.

Lemma int_of_pad2 (n : Z) : (0 <= n <= 99)%Z -> int_of (pad2 n) = n.
Proof.
  intros Hn. unfold int_of, pad2, strip_numeric.
  rewrite lstrip_by_clean, rstrip_by_clean
    by (cbn [str_forall]; rewrite !digit_char_clean; reflexivity).
  cbn [digits_value]. rewrite !digit_val_digit_char.
  Z.div_mod_to_equations. lia.
Qed.

Lemma int_of_pad4 (n : Z) : (0 <= n <= 9999)%Z -> int_of (pad4 n) = n.
Proof.
  intros Hn. unfold int_of, pad4, pad2, strip_numeric. cbn [append].
  rewrite lstrip_by_clean, rstrip_by_clean
    by (cbn [str_forall]; rewrite !digit_char_clean; reflexivity).
  cbn [digits_value]. rewrite !digit_val_digit_char.
  Z.div_mod_to_equations. lia.
Qed.

Lemma valid_date_bounds (y m d : Z) :
  valid_date y m d = true ->
  (1 <= y <= 9999 /\ 1 <= m <= 12 /\ 1 <= d <= 31)%Z.
Proof.
  unfold valid_date. rewrite !andb_true_iff, !Z.leb_le.
  intros (((((Hy1 & Hy2) & Hm1) & Hm2) & Hd1) & Hd2).
  assert (days_in_month y m <= 31)%Z.
  { unfold days_in_month.
    repeat match goal with
           | [ |- context [if ?c then _ else _] ] => destruct c
           end; lia. }
  lia.
Qed.

Lemma strptime_valid (s fmt : string) (d : date) :
  strptime s fmt = Some d -> valid_date (year d) (month d) (day d) = true.
Proof.
  unfold strptime.
  destruct (format_regex fmt) as [r|]; [|discriminate].
  destruct (re_match true r s) as [[e caps]|]; [|discriminate].
  destruct (Nat.eqb e (String.length s)); [|discriminate].
  destruct (group caps "Y") as [y|]; [|discriminate].
  destruct (group caps "m") as [m|]; [|discriminate].
  destruct (group caps "d") as [dd|]; [|discriminate].
  destruct (valid_date (int_of y) (int_of m) (int_of dd)) eqn:V; [|discriminate].
  intros H. injection H as <-. exact V.
Qed.

Lemma run_end (subject : string) (pos : nat) (s : string) (caps : captures) :
  run true subject Eps pos s caps (fun p _ c => Some (p, c)) = Some (pos, caps).
Proof. reflexivity. Qed.

(** The ISO layout is read by the third format. *)
Lemma strptime_ymd_dash (y m d : Z) :
  valid_date y m d = true ->
  strptime (pad4 y ++ "-" ++ pad2 m ++ "-" ++ pad2 d) "%Y-%m-%d"
  = Some (mkdate y m d).
Proof.
  intros V. destruct (valid_date_bounds y m d V) as (Hy & Hm & Hd).
  unfold strptime.
  change (format_regex "%Y-%m-%d")
    with (Some (Seq re_Y (Seq (Lit "-") (Seq re_m (Seq (Lit "-") (Seq re_d Eps)))))).
  cbv iota. unfold re_match.
  set (subject := pad4 y ++ "-" ++ pad2 m ++ "-" ++ pad2 d).
  assert (run true subject
              (Seq re_Y (Seq (Lit "-") (Seq re_m (Seq (Lit "-") (Seq re_d Eps)))))
              0 subject [] (fun p _ c => Some (p, c))
          = Some (10, [("d", pad2 d); ("m", pad2 m); ("Y", pad4 y)]%list)) as Hrun.
  { unfold subject at 2. unfold pad4 at 1. unfold pad2 at 1 2. cbn [append].
    rewrite run_year by apply digit_char_isdigit.
    rewrite run_lit.
    apply run_month; [exact Hm|]. rewrite run_lit.
    change (pad2 d) with (pad2 d ++ "") at 1.
    apply run_day; [exact Hd|].
    unfold subject, pad4, pad2.
    cbn [run set_group filter fst negb String.eqb Ascii.eqb Bool.eqb andb
             substring append Nat.sub].
    reflexivity. }
  rewrite Hrun.
  assert (String.length subject = 10%nat) as -> by reflexivity.
  cbn [Nat.eqb group String.eqb Ascii.eqb Bool.eqb andb].
  rewrite (int_of_pad4 y), (int_of_pad2 m), (int_of_pad2 d) by lia.
  now rewrite V.
Qed.

Lemma strptime_ymd_slash (y m d : Z) :
  valid_date y m d = true ->
  strptime (pad4 y ++ "/" ++ pad2 m ++ "/" ++ pad2 d) "%Y/%m/%d"
  = Some (mkdate y m d).
Proof.
  intros V. destruct (valid_date_bounds y m d V) as (Hy & Hm & Hd).
  unfold strptime.
  change (format_regex "%Y/%m/%d")
    with (Some (Seq re_Y (Seq (Lit "/") (Seq re_m (Seq (Lit "/") (Seq re_d Eps)))))).
  cbv iota. unfold re_match.
  set (subject := pad4 y ++ "/" ++ pad2 m ++ "/" ++ pad2 d).
  assert (run true subject
              (Seq re_Y (Seq (Lit "/") (Seq re_m (Seq (Lit "/") (Seq re_d Eps)))))
              0 subject [] (fun p _ c => Some (p, c))
          = Some (10, [("d", pad2 d); ("m", pad2 m); ("Y", pad4 y)]%list)) as Hrun.
  { unfold subject at 2. unfold pad4 at 1. unfold pad2 at 1 2. cbn [append].
    rewrite run_year by apply digit_char_isdigit.
    rewrite run_lit.
    apply run_month; [exact Hm|]. rewrite run_lit.
    change (pad2 d) with (pad2 d ++ "") at 1.
    apply run_day; [exact Hd|].
    unfold subject, pad4, pad2.
    cbn [run set_group filter fst negb String.eqb Ascii.eqb Bool.eqb andb
             substring append Nat.sub].
    reflexivity. }
  rewrite Hrun.
  assert (String.length subject = 10%nat) as -> by reflexivity.
  cbn [Nat.eqb group String.eqb Ascii.eqb Bool.eqb andb].
  rewrite (int_of_pad4 y), (int_of_pad2 m), (int_of_pad2 d) by lia.
  now rewrite V.
Qed.

Lemma strptime_dmy_dash (y m d : Z) :
  valid_date y m d = true ->
  strptime (pad2 d ++ "-" ++ pad2 m ++ "-" ++ pad4 y) "%d-%m-%Y"
  = Some (mkdate y m d).
Proof.
  intros V. destruct (valid_date_bounds y m d V) as (Hy & Hm & Hd).
  unfold strptime.
  change (format_regex "%d-%m-%Y")
    with (Some (Seq re_d (Seq (Lit "-") (Seq re_m (Seq (Lit "-") (Seq re_Y Eps)))))).
  cbv iota. unfold re_match.
  set (subject := pad2 d ++ "-" ++ pad2 m ++ "-" ++ pad4 y).
  assert (run true subject
              (Seq re_d (Seq (Lit "-") (Seq re_m (Seq (Lit "-") (Seq re_Y Eps)))))
              0 subject [] (fun p _ c => Some (p, c))
          = Some (10, [("Y", pad4 y); ("m", pad2 m); ("d", pad2 d)]%list)) as Hrun.
  { unfold subject at 2.
    apply run_day; [exact Hd|]. cbn [append]. rewrite run_lit.
    apply run_month; [exact Hm|]. cbn [append]. rewrite run_lit.
    unfold pad4 at 1. unfold pad2 at 1 2. cbn [append].
    rewrite run_year by apply digit_char_isdigit.
    unfold subject, pad4, pad2.
    cbn [run set_group filter fst negb String.eqb Ascii.eqb Bool.eqb andb
             substring append Nat.sub].
    reflexivity. }
  rewrite Hrun.
  assert (String.length subject = 10%nat) as -> by reflexivity.
  cbn [Nat.eqb group String.eqb Ascii.eqb Bool.eqb andb].
  rewrite (int_of_pad4 y), (int_of_pad2 m), (int_of_pad2 d) by lia.
  now rewrite V.
Qed.

Lemma strptime_dmy_slash (y m d : Z) :
  valid_date y m d = true ->
  strptime (pad2 d ++ "/" ++ pad2 m ++ "/" ++ pad4 y) "%d/%m/%Y"
  = Some (mkdate y m d).
Proof.
  intros V. destruct (valid_date_bounds y m d V) as (Hy & Hm & Hd).
  unfold strptime.
  change (format_regex "%d/%m/%Y")
    with (Some (Seq re_d (Seq (Lit "/") (Seq re_m (Seq (Lit "/") (Seq re_Y Eps)))))).
  cbv iota. unfold re_match.
  set (subject := pad2 d ++ "/" ++ pad2 m ++ "/" ++ pad4 y).
  assert (run true subject
              (Seq re_d (Seq (Lit "/") (Seq re_m (Seq (Lit "/") (Seq re_Y Eps)))))
              0 subject [] (fun p _ c => Some (p, c))
          = Some (10, [("Y", pad4 y); ("m", pad2 m); ("d", pad2 d)]%list)) as Hrun.
  { unfold subject at 2.
    apply run_day; [exact Hd|]. cbn [append]. rewrite run_lit.
    apply run_month; [exact Hm|]. cbn [append]. rewrite run_lit.
    unfold pad4 at 1. unfold pad2 at 1 2. cbn [append].
    rewrite run_year by apply digit_char_isdigit.
    unfold subject, pad4, pad2.
    cbn [run set_group filter fst negb String.eqb Ascii.eqb Bool.eqb andb
             substring append Nat.sub].
    reflexivity. }
  rewrite Hrun.
  assert (String.length subject = 10%nat) as -> by reflexivity.
  cbn [Nat.eqb group String.eqb Ascii.eqb Bool.eqb andb].
  rewrite (int_of_pad4 y), (int_of_pad2 m), (int_of_pad2 d) by lia.
  now rewrite V.
Qed.

(** A text that starts with three digits is not read by a format that
    starts with the day. *)
Lemma day_first_fails_on_digits (sep : ascii) (subject : string) (rest : regex)
      (y1 y2 y3 : ascii) (tail : string)
      (k : nat -> string -> captures -> option found) :
  isdigit sep = false -> lower_char sep = sep ->
  isdigit y1 = true -> isdigit y2 = true -> isdigit y3 = true ->
  run true subject (Seq re_d (Seq (Lit sep) rest)) 0
      (String y1 (String y2 (String y3 tail))) [] k = None.
Proof.
  intros Hs Hl H1 H2 H3. unfold re_d. cbn [alts Lit run].
  rewrite (digit_not_literal y3 sep H3 Hs Hl), (digit_not_literal y2 sep H2 Hs Hl).
  rewrite (digit_not_literal y1 " " H1 eq_refl eq_refl).
  repeat match goal with
         | [ |- context [if ?c then _ else _] ] => destruct c
         end; reflexivity.
Qed.

(** A day followed by a slash is not read by the format with dashes. *)
Lemma dash_format_fails_on_slash (d : Z) (subject : string) (rest : regex)
      (tail : string) (k : nat -> string -> captures -> option found) :
  (1 <= d <= 31)%Z ->
  run true subject (Seq re_d (Seq (Lit "-") rest)) 0
      (pad2 d ++ String "/" tail) [] k = None.
Proof.
  intros Hd.
  assert (d = 1 \/ d = 2 \/ d = 3 \/ d = 4 \/ d = 5 \/ d = 6 \/ d = 7 \/ d = 8 \/
          d = 9 \/ d = 10 \/ d = 11 \/ d = 12 \/ d = 13 \/ d = 14 \/ d = 15 \/
          d = 16 \/ d = 17 \/ d = 18 \/ d = 19 \/ d = 20 \/ d = 21 \/ d = 22 \/
          d = 23 \/ d = 24 \/ d = 25 \/ d = 26 \/ d = 27 \/ d = 28 \/ d = 29 \/
          d = 30 \/ d = 31)%Z as Hcases by lia.
  repeat (destruct Hcases as [->|Hcases];
          [two_digit_group ltac:(unfold re_d); reflexivity|]).
  subst d. two_digit_group ltac:(unfold re_d). reflexivity.
Qed.

Lemma strptime_no_match (s fmt : string) (r : regex) :
  format_regex fmt = Some r ->
  run true s r 0 s [] (fun p _ c => Some (p, c)) = None ->
  strptime s fmt = None.
Proof. intros Hf Hr. unfold strptime, re_match. now rewrite Hf, Hr. Qed.

(** A text that starts with the year is read by neither day-first
    format. *)
Lemma day_first_formats_fail_on_year (y : Z) (tail : string) :
  strptime (pad4 y ++ tail) "%d-%m-%Y" = None /\
  strptime (pad4 y ++ tail) "%d/%m/%Y" = None.
Proof.
  split.
  - apply (strptime_no_match _ _
             (Seq re_d (Seq (Lit "-") (Seq re_m (Seq (Lit "-") (Seq re_Y Eps))))));
      [reflexivity|].
    unfold pad4 at 2. unfold pad2. cbn [append].
    apply day_first_fails_on_digits;
      solve [reflexivity | apply digit_char_isdigit].
  - apply (strptime_no_match _ _
             (Seq re_d (Seq (Lit "/") (Seq re_m (Seq (Lit "/") (Seq re_Y Eps))))));
      [reflexivity|].
    unfold pad4 at 2. unfold pad2. cbn [append].
    apply day_first_fails_on_digits;
      solve [reflexivity | apply digit_char_isdigit].
Qed.

Lemma dash_format_fails_on_slashed_day (d : Z) (tail : string) :
  (1 <= d <= 31)%Z ->
  strptime (pad2 d ++ "/" ++ tail) "%d-%m-%Y" = None.
Proof.
  intros Hd.
  apply (strptime_no_match _ _
           (Seq re_d (Seq (Lit "-") (Seq re_m (Seq (Lit "-") (Seq re_Y Eps))))));
    [reflexivity|].
  cbn [append]. apply dash_format_fails_on_slash. exact Hd.
Qed.

Lemma dash_format_fails_on_slashed_year (y : Z) (tail : string) :
  strptime (pad4 y ++ "/" ++ tail) "%Y-%m-%d" = None.
Proof.
  apply (strptime_no_match _ _
           (Seq re_Y (Seq (Lit "-") (Seq re_m (Seq (Lit "-") (Seq re_d Eps))))));
    [reflexivity|].
  unfold pad4 at 2. unfold pad2. cbn [append].
  rewrite run_year by apply digit_char_isdigit.
  reflexivity.
Qed.

Lemma first_date_dmy_dash (y m d : Z) :
  valid_date y m d = true ->
  first_date (pad2 d ++ "-" ++ pad2 m ++ "-" ++ pad4 y) date_formats
  = isoformat (mkdate y m d).
Proof.
  intros V. unfold date_formats. cbn [first_date].
  now rewrite (strptime_dmy_dash y m d V).
Qed.

Lemma first_date_dmy_slash (y m d : Z) :
  valid_date y m d = true ->
  first_date (pad2 d ++ "/" ++ pad2 m ++ "/" ++ pad4 y) date_formats
  = isoformat (mkdate y m d).
Proof.
  intros V. destruct (valid_date_bounds y m d V) as (Hy & Hm & Hd).
  unfold date_formats. cbn [first_date].
  rewrite (dash_format_fails_on_slashed_day d _ Hd).
  now rewrite (strptime_dmy_slash y m d V).
Qed.

Lemma first_date_ymd_dash (y m d : Z) :
  valid_date y m d = true ->
  first_date (pad4 y ++ "-" ++ pad2 m ++ "-" ++ pad2 d) date_formats
  = isoformat (mkdate y m d).
Proof.
  intros V. unfold date_formats. cbn [first_date].
  destruct (day_first_formats_fail_on_year y ("-" ++ pad2 m ++ "-" ++ pad2 d))
    as [-> ->].
  now rewrite (strptime_ymd_dash y m d V).
Qed.

Lemma first_date_ymd_slash (y m d : Z) :
  valid_date y m d = true ->
  first_date (pad4 y ++ "/" ++ pad2 m ++ "/" ++ pad2 d) date_formats
  = isoformat (mkdate y m d).
Proof.
  intros V. unfold date_formats. cbn [first_date].
  destruct (day_first_formats_fail_on_year y ("/" ++ pad2 m ++ "/" ++ pad2 d))
    as [-> ->].
  rewrite (dash_format_fails_on_slashed_year y).
  now rewrite (strptime_ymd_slash y m d V).
Qed.

(** Ten characters, digits and separators, have no white space to trim. *)
Lemma strip_two_two_four (sep : ascii) (a b c : Z) :
  isspace sep = false ->
  strip (pad2 a ++ String sep (pad2 b ++ String sep (pad4 c)))
  = pad2 a ++ String sep (pad2 b ++ String sep (pad4 c)).
Proof.
  intros Hs. unfold strip, pad4, pad2. cbn [append].
  rewrite lstrip_by_clean, rstrip_by_clean; try reflexivity;
    cbn [str_forall]; rewrite !digit_char_nonspace, Hs; reflexivity.
Qed.

Lemma strip_four_two_two (sep : ascii) (a b c : Z) :
  isspace sep = false ->
  strip (pad4 a ++ String sep (pad2 b ++ String sep (pad2 c)))
  = pad4 a ++ String sep (pad2 b ++ String sep (pad2 c)).
Proof.
  intros Hs. unfold strip, pad4, pad2. cbn [append].
  rewrite lstrip_by_clean, rstrip_by_clean; try reflexivity;
    cbn [str_forall]; rewrite !digit_char_nonspace, Hs; reflexivity.
Qed.

(** X18. Every calendar day the standard library accepts (years 1 to 9999),
    written with zero-padded fields in any of the four layouts DD-MM-YYYY,
    DD/MM/YYYY, YYYY-MM-DD and YYYY/MM/DD, is normalised by [_norm_date] to
    its ISO form YYYY-MM-DD. *)
Theorem norm_date_four_layouts (y m d : Z) :
  valid_date y m d = true ->
  _norm_date (pad2 d ++ "-" ++ pad2 m ++ "-" ++ pad4 y) = isoformat (mkdate y m d) /\
  _norm_date (pad2 d ++ "/" ++ pad2 m ++ "/" ++ pad4 y) = isoformat (mkdate y m d) /\
  _norm_date (pad4 y ++ "-" ++ pad2 m ++ "-" ++ pad2 d) = isoformat (mkdate y m d) /\
  _norm_date (pad4 y ++ "/" ++ pad2 m ++ "/" ++ pad2 d) = isoformat (mkdate y m d).
Proof.
  intros V. unfold _norm_date.
  change ("-" ++ pad2 m ++ "-" ++ pad4 y) with (String "-" (pad2 m ++ String "-" (pad4 y))).
  change ("/" ++ pad2 m ++ "/" ++ pad4 y) with (String "/" (pad2 m ++ String "/" (pad4 y))).
  change ("-" ++ pad2 m ++ "-" ++ pad2 d) with (String "-" (pad2 m ++ String "-" (pad2 d))).
  change ("/" ++ pad2 m ++ "/" ++ pad2 d) with (String "/" (pad2 m ++ String "/" (pad2 d))).
  rewrite !strip_two_two_four, !strip_four_two_two by reflexivity.
  repeat split.
  - apply (first_date_dmy_dash y m d V).
  - apply (first_date_dmy_slash y m d V).
  - apply (first_date_ymd_dash y m d V).
  - apply (first_date_ymd_slash y m d V).
Qed.

Lemma norm_date_four_layouts_witness :
  valid_date 2024 2 29 = true /\
  _norm_date "29-02-2024" = "2024-02-29" /\
  _norm_date "29/02/2024" = "2024-02-29" /\
  _norm_date "2024-02-29" = "2024-02-29" /\
  _norm_date "2024/02/29" = "2024-02-29".
Proof.
  split; [reflexivity|]. exact (norm_date_four_layouts 2024 2 29 eq_refl).
Defined.

(** X19. [_norm_date] is idempotent: a date it has normalised, and a text
    it has left alone, both come back unchanged from a second call. *)
Theorem norm_date_idempotent (raw : string) :
  _norm_date (_norm_date raw) = _norm_date raw.
Proof.
  unfold _norm_date.
  destruct (first_date_cases (strip raw) date_formats) as [H|(fmt & d & Hin & Hs & H)].
  - rewrite H, strip_idem. exact H.
  - rewrite H, isoformat_clean.
    pose proof (strptime_valid _ _ _ Hs) as V.
    destruct d as [y m dd]. exact (first_date_ymd_dash y m dd V).
Qed.
